(** * resultsdb-updater: a shallow embedding of [resultsdbupdater/utils.py]

    The message handlers of [utils.py] are translated into Rocq functions
    over JSON values.  A Python exception is a constructor of an explicit
    result type; the outside world (the UUID source, the ResultsDB HTTP API,
    the logger) is an explicit state together with the trace of the events a
    handler causes.

    - A message is a JSON value. Mappings are association lists in insertion
      order, as Python dictionaries are; JSON numbers are integers.
    - Strings are the UTF-8 encodings of Python's strings, a sequence of
      bytes ([string]). Splitting, stripping, searching and replacing with
      the ASCII literals of the source act on the bytes as they act on the
      characters. [lower] changes the letters [A] to [Z]. Of the
      regular-expression classes, [.] is every byte but the line feed, which
      between the ASCII literals of the two patterns is every run of
      characters without a line feed; [\d] is one decimal digit of Unicode,
      a digit [0] to [9] or the encoding of a digit of another script.
    - A mapping the source updates in place ([test], [result_data]) is
      threaded through the steps that update it. The messages come from a
      JSON decoder, so no two places of a message share a mapping, and the
      handlers do not read an updated mapping again through the message.
    - [str(v)] of a value that is not a string and [int(s)] of a string are
      taken from the environment. *)

From Stdlib Require Import String Ascii List ZArith Bool Arith Lia.
Import ListNotations.
Open Scope string_scope.

(* ================================================================== *)
(** ** JSON values and Python exceptions *)

#[local] Set Warnings "-register-all".

Inductive value : Type :=
| VNone
| VBool (b : bool)
| VInt (z : Z)
| VStr (s : string)
| VList (l : list value)
| VDict (d : list (string * value)).

Definition dict := list (string * value).

Inductive exn : Type :=
| KeyError | TypeError | AttributeError | ValueError | HTTPError.

Inductive res (A : Type) : Type :=
| Ok (a : A)
| Raise (e : exn).
Arguments Ok {A} a.
Arguments Raise {A} e.

Definition res_bind {A B} (r : res A) (f : A -> res B) : res B :=
  match r with
  | Ok a => f a
  | Raise e => Raise e
  end.

Notation "x <~ e ;; k" := (res_bind e (fun x => k))
  (at level 61, e at next level, right associativity).

(* ================================================================== *)
(** ** Python string methods *)

Fixpoint startswith (p s : string) : bool :=
  match p, s with
  | EmptyString, _ => true
  | String a p', String b s' => andb (Ascii.eqb a b) (startswith p' s')
  | String _ _, EmptyString => false
  end.

(** [s.endswith(suf)]: [suf] is [s] or a suffix of the tail of [s]. *)
Fixpoint endswith (suf s : string) : bool :=
  if String.eqb suf s then true
  else match s with
       | EmptyString => false
       | String _ s' => endswith suf s'
       end.

Definition lower_char (c : ascii) : ascii :=
  let n := nat_of_ascii c in
  if andb (65 <=? n)%nat (n <=? 90)%nat then ascii_of_nat (n + 32)%nat else c.

Fixpoint lower (s : string) : string :=
  match s with
  | EmptyString => EmptyString
  | String c s' => String (lower_char c) (lower s')
  end.

(** [s.split(c)] for a one-character separator. *)
Fixpoint split (c : ascii) (s : string) : list string :=
  match s with
  | EmptyString => [EmptyString]
  | String a s' =>
      match split c s' with
      | [] => [EmptyString]
      | h :: t => if Ascii.eqb a c then EmptyString :: h :: t
                  else String a h :: t
      end
  end.

(** [s.split(c, 1)]: at most one cut, at the first separator. *)
Fixpoint split1 (c : ascii) (s : string) : list string :=
  match s with
  | EmptyString => [EmptyString]
  | String a s' =>
      if Ascii.eqb a c then [EmptyString; s']
      else match split1 c s' with
           | h :: t => String a h :: t
           | [] => [String a EmptyString]
           end
  end.

(** [s.rstrip(c)] *)
Fixpoint rstrip (c : ascii) (s : string) : string :=
  match s with
  | EmptyString => EmptyString
  | String a s' =>
      match rstrip c s' with
      | EmptyString => if Ascii.eqb a c then EmptyString
                       else String a EmptyString
      | r => String a r
      end
  end.

(** [s.replace(a, b)] for one-character [a] and [b]. *)
Fixpoint replace (a b : ascii) (s : string) : string :=
  match s with
  | EmptyString => EmptyString
  | String c s' => String (if Ascii.eqb c a then b else c) (replace a b s')
  end.

(** [sub in s] on strings *)
Fixpoint contains (sub s : string) : bool :=
  if startswith sub s then true
  else match s with
       | EmptyString => false
       | String _ s' => contains sub s'
       end.

(** [sep.join(parts)] on strings *)
Fixpoint join (sep : string) (parts : list string) : string :=
  match parts with
  | [] => EmptyString
  | [p] => p
  | p :: ps => p ++ sep ++ join sep ps
  end.

Fixpoint chars (s : string) : list string :=
  match s with
  | EmptyString => []
  | String c s' => String c EmptyString :: chars s'
  end.

(* ================================================================== *)
(** ** Python operations on values *)

Fixpoint assoc (k : string) (d : dict) : option value :=
  match d with
  | [] => None
  | (k', v) :: d' => if String.eqb k k' then Some v else assoc k d'
  end.

(** [d[k] = v]: replaces the binding in place or appends a new one. *)
Fixpoint dict_set (k : string) (v : value) (d : dict) : dict :=
  match d with
  | [] => [(k, v)]
  | (k', v') :: d' =>
      if String.eqb k k' then (k', v) :: d' else (k', v') :: dict_set k v d'
  end.

(** [v[k]] with a string key *)
Definition getitem (v : value) (k : string) : res value :=
  match v with
  | VDict d => match assoc k d with
               | Some x => Ok x
               | None => Raise KeyError
               end
  | _ => Raise TypeError
  end.

(** [v.get(k, default)] *)
Definition get_default (v : value) (k : string) (default : value) : res value :=
  match v with
  | VDict d => match assoc k d with
               | Some x => Ok x
               | None => Ok default
               end
  | _ => Raise AttributeError
  end.

(** [v.get(k)] *)
Definition get (v : value) (k : string) : res value := get_default v k VNone.

(** [v[k] = x] with a string key *)
Definition setitem (v : value) (k : string) (x : value) : res value :=
  match v with
  | VDict d => Ok (VDict (dict_set k x d))
  | _ => Raise TypeError
  end.

(** truth value of [v] *)
Definition truthy (v : value) : bool :=
  match v with
  | VNone => false
  | VBool b => b
  | VInt z => negb (Z.eqb z 0)
  | VStr s => negb (String.eqb s EmptyString)
  | VList l => match l with [] => false | _ => true end
  | VDict d => match d with [] => false | _ => true end
  end.

(** [v == 'lit'] for a string literal *)
Definition eq_str (v : value) (lit : string) : bool :=
  match v with
  | VStr s => String.eqb s lit
  | _ => false
  end.

(** [a or b] *)
Definition py_or (a b : value) : value := if truthy a then a else b.

(** a method of [str] called on [v] *)
Definition str_method {A} (v : value) (f : string -> A) : res A :=
  match v with
  | VStr s => Ok (f s)
  | _ => Raise AttributeError
  end.

(** ['lit' in v] *)
Definition contains_str (lit : string) (v : value) : res bool :=
  match v with
  | VDict d => Ok (match assoc lit d with Some _ => true | None => false end)
  | VStr s => Ok (contains lit s)
  | VList l => Ok (existsb (fun x => eq_str x lit) l)
  | _ => Raise TypeError
  end.

(** the values a [for] loop over [v] visits *)
Definition iterate (v : value) : res (list value) :=
  match v with
  | VList l => Ok l
  | VStr s => Ok (map VStr (chars s))
  | VDict d => Ok (map (fun kv => VStr (fst kv)) d)
  | _ => Raise TypeError
  end.

(** [sep.join(vs)]: every element must be a string *)
Fixpoint strings_of (vs : list value) : res (list string) :=
  match vs with
  | [] => Ok []
  | VStr s :: vs' => res_bind (strings_of vs') (fun l => Ok (s :: l))
  | _ :: _ => Raise TypeError
  end.

Definition py_join (sep : string) (vs : list value) : res string :=
  res_bind (strings_of vs) (fun l => Ok (join sep l)).

(* ================================================================== *)
(** ** Outcome classifier (utils.py, [_test_result_outcome]) *)

Definition broken_mapping : list (string * string) :=
  [("pass", "PASSED"); ("fail", "FAILED"); ("failure", "FAILED")].

Fixpoint assoc_str (k : string) (m : list (string * string)) : option string :=
  match m with
  | [] => None
  | (k', v) :: m' => if String.eqb k k' then Some v else assoc_str k m'
  end.

Definition _test_result_outcome (message : value) : res value :=
  topic <~ getitem message "topic" ;;
  is_error <~ str_method topic (endswith ".error") ;;
  if is_error then Ok (VStr "FAILED") else
  is_queued <~ str_method topic (endswith ".queued") ;;
  if is_queued then Ok (VStr "QUEUED") else
  is_running <~ str_method topic (endswith ".running") ;;
  if is_running then Ok (VStr "RUNNING") else
  body <~ getitem message "body" ;;
  msg <~ getitem body "msg" ;;
  outcome <~ getitem msg "status" ;;
  lowered <~ str_method outcome lower ;;
  Ok (match assoc_str lowered broken_mapping with
      | Some mapped => VStr mapped
      | None => outcome
      end).

(* ================================================================== *)
(** ** Topic and test case namespaces *)

Definition topic_prefix : string := "/topic/VirtualTopic.eng.ci.".

(** [None] is Python's [None]. *)
Definition namespace_from_topic (topic : string) : option string :=
  if negb (startswith topic_prefix topic) then None
  else
    let topic_components := split "." topic in
    if negb (Nat.eqb (List.length topic_components) 7%nat) then None
    else Some (nth 3%nat topic_components EmptyString).

Definition namespace_from_testcase_name (testcase_name : string) : string :=
  nth 0%nat (split1 "." testcase_name) EmptyString.

(* ================================================================== *)
(** ** Regular expressions of the handlers

    Python's [re.match] is a backtracking matcher; the two patterns of
    [utils.py] are written out as such, with a continuation for what follows
    a repetition. *)

Definition dot (c : ascii) : bool := negb (Ascii.eqb c "010").

(** The digits [0] to [9] *)
Definition ascii_digit (c : ascii) : bool :=
  let n := nat_of_ascii c in andb (48 <=? n)%nat (n <=? 57)%nat.

(** The decimal digits of the other scripts (category [Nd] of Unicode 14.0,
    the character database of CPython 3.11): the code point of the digit
    zero of each script. The digits one to nine follow their zero. *)
Definition decimal_zeros : list N :=
  [1632; 1776; 1984; 2406; 2534; 2662; 2790; 2918; 3046;
   3174; 3302; 3430; 3558; 3664; 3792; 3872; 4160; 4240;
   6112; 6160; 6470; 6608; 6784; 6800; 6992; 7088; 7232;
   7248; 42528; 43216; 43264; 43472; 43504; 43600; 44016; 65296;
   66720; 68912; 69734; 69872; 69942; 70096; 70384; 70736; 70864;
   71248; 71360; 71472; 71904; 72016; 72784; 73040; 73120; 92768;
   92864; 93008; 120782; 120792; 120802; 120812; 120822; 123200; 123632;
   125264; 130032]%N.

(** The code point [cp] is a decimal digit of a script other than ASCII. *)
Definition decimal (cp : N) : bool :=
  existsb (fun zero => andb (zero <=? cp) (cp <? zero + 10))%N decimal_zeros.

(** The six bits a continuation byte of UTF-8 carries *)
Definition continuation (c : ascii) : option N :=
  let n := N_of_ascii c in
  if andb (128 <=? n)%N (n <? 192)%N then Some (n - 128)%N else None.

(** [\d] at the head of [s]: the number of bytes of the decimal digit [s]
    starts with, [0] when it starts with none. A digit is one byte for [0]
    to [9] and the two, three or four bytes of its code point otherwise. *)
Definition digit_width (s : string) : nat :=
  match s with
  | EmptyString => 0
  | String a s1 =>
      if ascii_digit a then 1
      else
        let a := N_of_ascii a in
        if (a <? 192)%N then 0
        else if (a <? 224)%N then
          match s1 with
          | String b _ =>
              match continuation b with
              | Some b => if decimal ((a - 192) * 64 + b)%N then 2 else 0
              | None => 0
              end
          | _ => 0
          end
        else if (a <? 240)%N then
          match s1 with
          | String b (String c _) =>
              match continuation b, continuation c with
              | Some b, Some c =>
                  let cp := (((a - 224) * 64 + b) * 64 + c)%N in
                  if andb (2048 <=? cp)%N (decimal cp) then 3 else 0
              | _, _ => 0
              end
          | _ => 0
          end
        else if (a <? 248)%N then
          match s1 with
          | String b (String c (String d _)) =>
              match continuation b, continuation c, continuation d with
              | Some b, Some c, Some d =>
                  let cp := ((((a - 240) * 64 + b) * 64 + c) * 64 + d)%N in
                  if andb (65536 <=? cp)%N (decimal cp) then 4 else 0
              | _, _, _ => 0
              end
          | _ => 0
          end
        else 0
  end.

(** [lit] at the head of [s]; what is left of [s] *)
Fixpoint strip_prefix (lit s : string) : option string :=
  match lit, s with
  | EmptyString, _ => Some s
  | String a lit', String b s' =>
      if Ascii.eqb a b then strip_prefix lit' s' else None
  | String _ _, EmptyString => None
  end.

(** [(p* )] then [k]: the longest run of [p]-characters is tried first, then
    shorter ones. Returns the run and the result of [k]. *)
Fixpoint greedy_star {A} (p : ascii -> bool) (k : string -> option A)
  (s : string) : option (string * A) :=
  match s with
  | String c s' =>
      if p c then
        match greedy_star p k s' with
        | Some (g, a) => Some (String c g, a)
        | None => option_map (pair EmptyString) (k s)
        end
      else option_map (pair EmptyString) (k s)
  | EmptyString => option_map (pair EmptyString) (k s)
  end.

(** [(p+)] then [k] *)
Definition greedy_plus {A} (p : ascii -> bool) (k : string -> option A)
  (s : string) : option (string * A) :=
  match s with
  | String c s' =>
      if p c then
        match greedy_star p k s' with
        | Some (g, a) => Some (String c g, a)
        | None => None
        end
      else None
  | EmptyString => None
  end.

(** [lit] then [k] *)
Definition literal {A} (lit : string) (k : string -> option A)
  (s : string) : option A :=
  match strip_prefix lit s with
  | Some s' => k s'
  | None => None
  end.

(** [$]: the end of the string, or just before a final newline *)
Definition at_end (s : string) : option unit :=
  if orb (String.eqb s EmptyString) (String.eqb s (String "010" EmptyString))
  then Some tt else None.

(** [re.match(nsvc_regex, s)], where [nsvc_regex] is four greedy groups of
    any characters but newline, separated by colons: the four groups *)
Definition nsvc_match (s : string)
  : option (string * string * string * string) :=
  match
    greedy_star dot (literal ":"
      (greedy_star dot (literal ":"
        (greedy_star dot (literal ":"
          (greedy_star dot (fun _ => Some tt))))))) s
  with
  | Some (name, (stream, (version, (context, _)))) =>
      Some (name, stream, version, context)
  | None => None
  end.

(** [(\d* )] then [k]: the longest run of decimal digits is tried first,
    then the runs that are shorter by whole digits. *)
Fixpoint decimal_star {A} (k : string -> option A) (s : string)
  : option (string * A) :=
  let stop := option_map (pair EmptyString) (k s) in
  let more (d : string) (r : option (string * A)) :=
    match r with
    | Some (g, a) => Some (d ++ g, a)
    | None => stop
    end in
  match digit_width s, s with
  | 1, String a s1 =>
      more (String a EmptyString) (decimal_star k s1)
  | 2, String a (String b s2) =>
      more (String a (String b EmptyString)) (decimal_star k s2)
  | 3, String a (String b (String c s3)) =>
      more (String a (String b (String c EmptyString))) (decimal_star k s3)
  | 4, String a (String b (String c (String d s4))) =>
      more (String a (String b (String c (String d EmptyString))))
           (decimal_star k s4)
  | _, _ => stop
  end.

(** [(\d+)] then [k] *)
Definition decimal_plus {A} (k : string -> option A) (s : string)
  : option (string * A) :=
  let more (d : string) (r : option (string * A)) :=
    match r with
    | Some (g, a) => Some (d ++ g, a)
    | None => None
    end in
  match digit_width s, s with
  | 1, String a s1 =>
      more (String a EmptyString) (decimal_star k s1)
  | 2, String a (String b s2) =>
      more (String a (String b EmptyString)) (decimal_star k s2)
  | 3, String a (String b (String c s3)) =>
      more (String a (String b (String c EmptyString))) (decimal_star k s3)
  | 4, String a (String b (String c (String d s4))) =>
      more (String a (String b (String c (String d EmptyString))))
           (decimal_star k s4)
  | _, _ => None
  end.

(** [(?:\/)?] then [k] *)
Definition optional_slash {A} (k : string -> option A) (s : string) : option A :=
  match literal "/" k s with
  | Some a => Some a
  | None => k s
  end.

(** [(?P<result>\d+)?] then [k] *)
Definition optional_digits {A} (k : string -> option A) (s : string)
  : option (option string * A) :=
  match decimal_plus k s with
  | Some (g, a) => Some (Some g, a)
  | None => option_map (pair None) (k s)
  end.

(** [re.match(r'^(?P<url_prefix>http.+\/run\/)(?P<run>\d+)(?:\/)?(?P<result>\d+)?$', s)]:
    the groups [url_prefix], [run] and [result] *)
Definition rpmdiff_match (s : string)
  : option (string * string * option string) :=
  match
    literal "http"
      (greedy_plus dot (literal "/run/"
        (decimal_plus (optional_slash (optional_digits at_end))))) s
  with
  | Some (middle, (run, (result, _))) =>
      Some ("http" ++ middle ++ "/run/", run, result)
  | None => None
  end.

(* ================================================================== *)
(** ** The outside world: ResultsDB, the UUID source and the logger *)

(** The JSON body of one [POST /results] ([create_result]). *)
Record request : Type := {
  req_testcase : value;
  req_groups : value;
  req_outcome : value;
  req_ref_url : value;
  req_note : value;
  req_data : value
}.

Inductive level : Type := WARNING | ERROR.

(** The messages the handlers log, by the place that logs them. *)
Inductive log_message : Type :=
| MissingTeam           (* handle_ci_metrics: "did not contain a team" *)
| JobNamesField         (* handle_ci_metrics: "with job_names field" *)
| OldTopicScheme        (* verify_topic_and_testcase_name: "uses old scheme" *)
| NamespaceMismatch     (* verify_topic_and_testcase_name: "does not match" *)
| InvalidNsvc           (* handle_ci_umb: "Invalid nsvc ... ignoring result" *)
| IncompleteTestcase.   (* handle_ci_umb: "did not contain enough information" *)

Inductive event : Type :=
| Submit (r : request)
| GroupQuery (description : string)
| Log (lvl : level) (message : log_message) (args : list value).

Record world : Type := {
  uuids_drawn : nat;
  requests_sent : nat
}.

(** A handler step: a result or an exception, the new world and the events
    it caused, oldest first. *)
Definition M (A : Type) : Type := world -> res A * world * list event.

Definition ret {A} (a : A) : M A := fun w => (Ok a, w, []).

Definition raise {A} (e : exn) : M A := fun w => (Raise e, w, []).

Definition lift {A} (r : res A) : M A := fun w => (r, w, []).

Definition bind {A B} (m : M A) (f : A -> M B) : M B :=
  fun w =>
    match m w with
    | (Ok a, w1, t1) =>
        match f a w1 with
        | (r, w2, t2) => (r, w2, (t1 ++ t2)%list)
        end
    | (Raise e, w1, t1) => (Raise e, w1, t1)
    end.

Notation "x <- e ;; k" := (bind e (fun x => k))
  (at level 61, e at next level, right associativity).
Notation "e ;;; k" := (bind e (fun _ => k))
  (at level 61, right associativity).

Definition log (lvl : level) (message : log_message) (args : list value)
  : M unit :=
  fun w => (Ok tt, w, [Log lvl message args]).

Definition result_of {A} (out : res A * world * list event) : res A :=
  fst (fst out).

Definition trace_of {A} (out : res A * world * list event) : list event :=
  snd out.

Definition world_of {A} (out : res A * world * list event) : world :=
  snd (fst out).

(** The bodies handed to [create_result], oldest first. *)
Fixpoint submissions (t : list event) : list request :=
  match t with
  | [] => []
  | Submit r :: t' => r :: submissions t'
  | _ :: t' => submissions t'
  end.

(** The messages logged at level [lvl], oldest first. *)
Fixpoint logged (lvl : level) (t : list event) : list log_message :=
  match t with
  | [] => []
  | Log l message _ :: t' =>
      match l, lvl with
      | WARNING, WARNING | ERROR, ERROR => message :: logged lvl t'
      | _, _ => logged lvl t'
      end
  | _ :: t' => logged lvl t'
  end.

(** What the handlers take from their environment. *)
Record environment : Type := {
  (** [str(uuid.uuid4())], by the number of UUIDs drawn before *)
  uuid4 : nat -> string;
  (** whether ResultsDB answers the POST of a body with a 2xx status, by the
      number of requests sent before *)
  post_ok : nat -> request -> bool;
  (** the ['data'] list of the answer to [GET /groups?description=...], or
      the exception the request ends in *)
  groups_found : nat -> string -> res (list value);
  (** [str(v)] for a value that is not a string *)
  repr : value -> string;
  (** [int(s)] on a string; [None] is a [ValueError] *)
  parse_int : string -> option Z
}.

Section Handlers.

Variable env : environment.

(** ['{0}'.format(v)] *)
Definition fmt (v : value) : string :=
  match v with
  | VStr s => s
  | _ => repr env v
  end.

(** [int(v)] *)
Definition py_int (v : value) : res Z :=
  match v with
  | VInt z => Ok z
  | VBool b => Ok (if b then 1%Z else 0%Z)
  | VStr s => match parse_int env s with
              | Some z => Ok z
              | None => Raise ValueError
              end
  | _ => Raise TypeError
  end.

Definition gen_uuid : M string :=
  fun w => (Ok (uuid4 env (uuids_drawn w)),
            {| uuids_drawn := S (uuids_drawn w);
               requests_sent := requests_sent w |},
            []).

(** utils.py, [update_publisher_id]; the updated [data] is returned. *)
Definition update_publisher_id (data msg : value) : res value :=
  headers <~ getitem msg "headers" ;;
  msg_publisher_id <~ get headers "JMSXUserID" ;;
  if truthy msg_publisher_id
  then setitem data "publisher_id" msg_publisher_id
  else Ok data.

(** utils.py, [create_result]: [groups or []], [note or ''], the POST and
    [raise_for_status] *)
Definition create_result (testcase outcome ref_url data groups note : value)
  : M unit :=
  fun w =>
    let r := {| req_testcase := testcase;
                req_groups := py_or groups (VList []);
                req_outcome := outcome;
                req_ref_url := ref_url;
                req_note := py_or note (VStr EmptyString);
                req_data := data |} in
    (if post_ok env (requests_sent w) r then Ok tt else Raise HTTPError,
     {| uuids_drawn := uuids_drawn w;
        requests_sent := S (requests_sent w) |},
     [Submit r]).

(** utils.py, [get_first_group] *)
Definition get_first_group (description : value) : M value :=
  fun w =>
    (match groups_found env (requests_sent w) (fmt description) with
     | Ok (g :: _) => Ok g
     | Ok [] => Ok (VDict [])
     | Raise e => Raise e
     end,
     {| uuids_drawn := uuids_drawn w;
        requests_sent := S (requests_sent w) |},
     [GroupQuery (fmt description)]).

(* ------------------------------------------------------------------ *)
(** *** Legacy CI-metrics messages (utils.py, [handle_ci_metrics]) *)

(** ['failed' in test and int(test['failed']) == 0] *)
Definition subtest_passed (test : value) : res bool :=
  has_failed <~ contains_str "failed" test ;;
  if has_failed
  then (failed <~ getitem test "failed" ;;
        n <~ py_int failed ;;
        Ok (Z.eqb n 0))
  else Ok false.

(** The body of the loop over [tests], with the loop itself. [test] is
    updated in place in the source; here the updated value is threaded. *)
Fixpoint ci_metrics_tests (msg team test_name testcase_url component
  recipients ci_tier artifact brew_task_id group_tests_ref_url groups : value)
  (test_type : string) (tests : list value) (overall_outcome : string)
  : M string :=
  match tests with
  | [] => ret overall_outcome
  | test :: rest =>
      passed <- lift (subtest_passed test) ;;
      let outcome := if passed then "PASSED" else "FAILED" in
      let overall_outcome := if passed then overall_outcome else "FAILED" in
      executor <- lift (get_default test "executor" (VStr "unknown")) ;;
      let testcase :=
        VDict [("name", VStr (fmt team ++ "." ++ fmt test_name ++ "."
                              ++ fmt executor));
               ("ref_url", testcase_url)] in
      test <- lift (setitem test "item" component) ;;
      test <- lift (setitem test "type" (VStr test_type)) ;;
      test <- lift (setitem test "recipients" recipients) ;;
      test <- lift (setitem test "CI_tier" ci_tier) ;;
      test <- lift (setitem test "job_name" test_name) ;;
      test <- lift (setitem test "artifact" artifact) ;;
      test <- lift (setitem test "brew_task_id" brew_task_id) ;;
      test <- lift (update_publisher_id test msg) ;;
      create_result testcase (VStr outcome) group_tests_ref_url test groups
        VNone ;;;
      ci_metrics_tests msg team test_name testcase_url component recipients
        ci_tier artifact brew_task_id group_tests_ref_url groups test_type
        rest overall_outcome
  end.

Definition handle_ci_metrics (msg : value) : M unit :=
  headers <- lift (getitem msg "headers") ;;
  msg_id <- lift (getitem headers "message-id") ;;
  body <- lift (getitem msg "body") ;;
  m <- lift (getitem body "msg") ;;
  team <- lift (get_default m "team" (VStr "unassigned")) ;;
  (if eq_str team "unassigned"
   then log WARNING MissingTeam [msg_id]
   else ret tt) ;;;
  has_job_name <- lift (contains_str "job_name" m) ;;
  test_name <- (if has_job_name
                then lift (getitem m "job_name")
                else (job_names <- lift (getitem m "job_names") ;;
                      log WARNING JobNamesField [msg_id] ;;;
                      ret job_names)) ;;
  testcase_url <- lift (getitem m "jenkins_job_url") ;;
  group_ref_url <- lift (getitem m "jenkins_build_url") ;;
  build_type <- lift (get_default m "build_type" (VStr "unknown")) ;;
  artifact <- lift (get_default m "artifact" (VStr "unknown")) ;;
  brew_task_id <- lift (get_default m "brew_task_id" (VStr "unknown")) ;;
  tests <- lift (getitem m "tests") ;;
  stripped <- lift (str_method group_ref_url (rstrip "/")) ;;
  let group_tests_ref_url := VStr (stripped ++ "/console") in
  component <- lift (get_default m "component" (VStr "unknown")) ;;
  recipients_field <- lift (get_default m "recipients" (VStr "unknown")) ;;
  recipients <- lift (str_method recipients_field
                        (fun s => VList (map VStr (split "," s)))) ;;
  ci_tier <- lift (get_default m "CI_tier" (VList [VStr "unknown"])) ;;
  let test_type := "unknown" in
  let test_type :=
    if negb (eq_str brew_task_id "unknown") then "koji_build" else test_type in
  let test_type :=
    if eq_str build_type "scratch" then test_type ++ "_scratch"
    else test_type in
  uuid <- gen_uuid ;;
  let groups := VList [VDict [("uuid", VStr uuid);
                              ("ref_url", group_ref_url)]] in
  tests <- lift (iterate tests) ;;
  overall_outcome <-
    ci_metrics_tests msg team test_name testcase_url component recipients
      ci_tier artifact brew_task_id group_tests_ref_url groups test_type
      tests "PASSED" ;;
  let testcase := VDict [("name", VStr (fmt team ++ "." ++ fmt test_name));
                         ("ref_url", testcase_url)] in
  let result_data := VDict [("item", component);
                            ("type", VStr test_type);
                            ("recipients", recipients);
                            ("CI_tier", ci_tier);
                            ("job_name", test_name);
                            ("artifact", artifact);
                            ("brew_task_id", brew_task_id)] in
  result_data <- lift (update_publisher_id result_data msg) ;;
  create_result testcase (VStr overall_outcome) group_tests_ref_url
    result_data groups VNone.

(* ------------------------------------------------------------------ *)
(** *** Topic against test case name (utils.py,
    [verify_topic_and_testcase_name]) *)

Definition verify_topic_and_testcase_name (topic testcase_name : string)
  : M bool :=
  let topic_namespace := namespace_from_topic topic in
  (* [not topic_namespace]: [None] or the empty string *)
  if match topic_namespace with
     | None => true
     | Some ns => String.eqb ns EmptyString
     end
  then
    log WARNING OldTopicScheme [VStr topic; VStr testcase_name] ;;;
    ret true
  else
    let topic_namespace :=
      match topic_namespace with Some ns => ns | None => EmptyString end in
    let testcase_namespace := namespace_from_testcase_name testcase_name in
    if negb (String.eqb testcase_namespace topic_namespace)
    then
      log WARNING NamespaceMismatch
        [VStr testcase_name; VStr testcase_namespace; VStr topic;
         VStr topic_namespace] ;;;
      ret false
    else ret true.

(* ------------------------------------------------------------------ *)
(** *** Unified message bus (utils.py, [handle_ci_umb]) *)

(** utils.py, [_construct_testcase_dict] *)
Definition _construct_testcase_dict (msg : value) : res value :=
  namespace <~ get_default msg "namespace" (VStr "unknown") ;;
  test_type <~ get_default msg "type" (VStr "unknown") ;;
  category <~ get_default msg "category" (VStr "unknown") ;;
  name <~ py_join "." [namespace; test_type; category] ;;
  ci <~ getitem msg "ci" ;;
  url <~ getitem ci "url" ;;
  Ok (VDict [("name", VStr name); ("ref_url", url)]).

(** [{key: value for key, value in pairs if value is not None}] *)
Definition without_none (pairs : dict) : dict :=
  fold_left (fun d kv => match snd kv with
                         | VNone => d
                         | v => dict_set (fst kv) v d
                         end) pairs [].

(** [system = system[0] if system else {}] when [system] is a list *)
Definition first_system (system : value) : value :=
  match system with
  | VList (first :: _) => first
  | VList [] => VDict []
  | _ => system
  end.

(** The [productmd-compose] branch: [result_data] *)
Definition productmd_compose_data (msg_body system item_type : value)
  : res value :=
  architecture <~ getitem system "architecture" ;;
  variant <~ get system "variant" ;;
  artifact <~ getitem msg_body "artifact" ;;
  artifact_id <~ get artifact "id" ;;
  compose_id <~ (if truthy artifact_id then Ok artifact_id
                 else getitem artifact "compose_id") ;;
  let item := VStr (fmt compose_id ++ "/"
                    ++ fmt (py_or variant (VStr "unknown")) ++ "/"
                    ++ fmt architecture) in
  ci <~ getitem msg_body "ci" ;;
  ci_name <~ getitem ci "name" ;;
  ci_team <~ getitem ci "team" ;;
  ci_url <~ getitem ci "url" ;;
  ci_irc <~ get ci "irc" ;;
  ci_email <~ getitem ci "email" ;;
  run <~ getitem msg_body "run" ;;
  run_log <~ getitem run "log" ;;
  provider <~ getitem system "provider" ;;
  category <~ get msg_body "category" ;;
  Ok (VDict (without_none
    [("item", item);
     ("ci_name", ci_name); ("ci_team", ci_team); ("ci_url", ci_url);
     ("ci_irc", ci_irc); ("ci_email", ci_email);
     ("log", run_log);
     ("type", item_type); ("productmd.compose.id", compose_id);
     ("system_provider", provider); ("system_architecture", architecture);
     ("system_variant", variant);
     ("category", category)])).

(** The [component-version] branch: [result_data] *)
Definition component_version_data (msg_body item_type : value) : res value :=
  artifact <~ getitem msg_body "artifact" ;;
  component <~ getitem artifact "component" ;;
  version <~ getitem artifact "version" ;;
  let item := VStr (fmt component ++ "-" ++ fmt version) in
  ci <~ getitem msg_body "ci" ;;
  ci_name <~ getitem ci "name" ;;
  ci_team <~ getitem ci "team" ;;
  ci_url <~ getitem ci "url" ;;
  ci_irc <~ get ci "irc" ;;
  ci_email <~ getitem ci "email" ;;
  run <~ getitem msg_body "run" ;;
  run_log <~ getitem run "log" ;;
  category <~ get msg_body "category" ;;
  Ok (VDict (without_none
    [("item", item);
     ("ci_name", ci_name); ("ci_team", ci_team); ("ci_url", ci_url);
     ("ci_irc", ci_irc); ("ci_email", ci_email);
     ("log", run_log);
     ("type", item_type); ("component", component); ("version", version);
     ("category", category)])).

(** The [container-image] branch: [result_data] *)
Definition container_image_data (msg_body system item_type : value)
  : res value :=
  artifact <~ getitem msg_body "artifact" ;;
  repo <~ getitem artifact "repository" ;;
  digest <~ getitem artifact "digest" ;;
  let item := VStr (fmt repo ++ "@" ++ fmt digest) in
  ci <~ getitem msg_body "ci" ;;
  ci_name <~ getitem ci "name" ;;
  ci_team <~ getitem ci "team" ;;
  ci_url <~ getitem ci "url" ;;
  ci_irc <~ get ci "irc" ;;
  ci_environment <~ get ci "environment" ;;
  ci_email <~ getitem ci "email" ;;
  run <~ getitem msg_body "run" ;;
  run_log <~ getitem run "log" ;;
  rebuild <~ get run "rebuild" ;;
  xunit <~ get msg_body "xunit" ;;
  repository <~ get artifact "repository" ;;
  digest' <~ get artifact "digest" ;;
  format <~ get artifact "format" ;;
  pull_ref <~ get artifact "pull_ref" ;;
  scratch <~ get artifact "scratch" ;;
  nvr <~ get artifact "nvr" ;;
  issuer <~ get artifact "issuer" ;;
  system_os <~ get system "os" ;;
  system_provider <~ get system "provider" ;;
  system_architecture <~ get system "architecture" ;;
  category <~ get msg_body "category" ;;
  Ok (VDict (without_none
    [("item", item);
     ("ci_name", ci_name); ("ci_team", ci_team); ("ci_url", ci_url);
     ("ci_irc", ci_irc); ("ci_environment", ci_environment);
     ("ci_email", ci_email);
     ("log", run_log); ("rebuild", rebuild); ("xunit", xunit);
     ("type", item_type); ("repository", repository); ("digest", digest');
     ("format", format); ("pull_ref", pull_ref); ("scratch", scratch);
     ("nvr", nvr); ("issuer", issuer);
     ("system_os", system_os); ("system_provider", system_provider);
     ("system_architecture", system_architecture);
     ("category", category)])).

(** The [redhat-module] branch: [result_data], or [None] when the handler
    returns [False] for an [nsvc] the pattern does not match *)
Definition redhat_module_data (msg_body system item_type : value)
  : M (option value) :=
  msg_body_ci <- lift (getitem msg_body "ci") ;;
  artifact <- lift (getitem msg_body "artifact") ;;
  nsvc_field <- lift (getitem artifact "nsvc") ;;
  match nsvc_field with
  | VStr s =>
      match nsvc_match s with
      | None =>
          (* [None.groups()]: the [AttributeError] that is caught *)
          log ERROR InvalidNsvc [nsvc_field] ;;;
          ret None
      | Some (name, stream, version, context) =>
          let stream := replace "-" "_" stream in
          let nsvc := VStr (name ++ "-" ++ stream ++ "-" ++ version ++ "."
                            ++ context) in
          lift (
            mbs_id <~ get artifact "id" ;;
            category <~ getitem msg_body "category" ;;
            artifact_context <~ getitem artifact "context" ;;
            artifact_name <~ getitem artifact "name" ;;
            artifact_stream <~ getitem artifact "stream" ;;
            artifact_version <~ getitem artifact "version" ;;
            issuer <~ get artifact "issuer" ;;
            run <~ getitem msg_body "run" ;;
            rebuild <~ get run "rebuild" ;;
            run_log <~ getitem run "log" ;;
            system_os <~ get system "os" ;;
            system_provider <~ get system "provider" ;;
            ci_name <~ get msg_body_ci "name" ;;
            ci_url <~ get msg_body_ci "url" ;;
            ci_team <~ get msg_body_ci "team" ;;
            ci_irc <~ get msg_body_ci "irc" ;;
            ci_email <~ get msg_body_ci "email" ;;
            Ok (Some (VDict
              [("item", nsvc); ("type", item_type); ("mbs_id", mbs_id);
               ("category", category); ("context", artifact_context);
               ("name", artifact_name); ("nsvc", nsvc);
               ("stream", artifact_stream); ("version", artifact_version);
               ("issuer", issuer); ("rebuild", rebuild); ("log", run_log);
               ("system_os", system_os);
               ("system_provider", system_provider);
               ("ci_name", ci_name); ("ci_url", ci_url);
               ("ci_team", ci_team); ("ci_irc", ci_irc);
               ("ci_email", ci_email)])))
      end
  | _ => raise TypeError (* [re.match] on something that is not a string *)
  end.

(** [v += 'lit'] *)
Definition iadd_str (v : value) (lit : string) : res value :=
  match v with
  | VStr s => Ok (VStr (s ++ lit))
  | VList l => Ok (VList (l ++ map VStr (chars lit))%list)
  | _ => Raise TypeError
  end.

(** The default branch (brew builds): [result_data] *)
Definition default_data (msg_body system item_type : value) : res value :=
  msg_body_ci <~ getitem msg_body "ci" ;;
  artifact <~ getitem msg_body "artifact" ;;
  item <~ getitem artifact "nvr" ;;
  component <~ getitem artifact "component" ;;
  scratch <~ get_default artifact "scratch" (VStr EmptyString) ;;
  brew_task_id <~ get artifact "id" ;;
  scratch <~ match scratch with
             | VBool b => Ok b
             | VStr s => Ok (String.eqb (lower s) "true")
             | _ => Raise AttributeError
             end ;;
  item_type <~ (if scratch then iadd_str item_type "_scratch"
                else Ok item_type) ;;
  category <~ getitem msg_body "category" ;;
  issuer <~ get artifact "issuer" ;;
  run <~ getitem msg_body "run" ;;
  rebuild <~ get run "rebuild" ;;
  run_log <~ getitem run "log" ;;
  system_os <~ get system "os" ;;
  system_provider <~ get system "provider" ;;
  ci_name <~ get msg_body_ci "name" ;;
  ci_url <~ get msg_body_ci "url" ;;
  ci_environment <~ get msg_body_ci "environment" ;;
  ci_team <~ get msg_body_ci "team" ;;
  ci_irc <~ get msg_body_ci "irc" ;;
  ci_email <~ get msg_body_ci "email" ;;
  Ok (VDict
    [("item", item); ("type", item_type); ("brew_task_id", brew_task_id);
     ("category", category); ("component", component);
     ("scratch", VBool scratch); ("issuer", issuer); ("rebuild", rebuild);
     ("log", run_log); ("system_os", system_os);
     ("system_provider", system_provider);
     ("ci_name", ci_name); ("ci_url", ci_url);
     ("ci_environment", ci_environment); ("ci_team", ci_team);
     ("ci_irc", ci_irc); ("ci_email", ci_email)]).

(** The branch on [artifact.type] *)
Definition umb_result_data (msg_body system item_type : value)
  : M (option value) :=
  if eq_str item_type "productmd-compose" then
    lift (d <~ productmd_compose_data msg_body system item_type ;; Ok (Some d))
  else if eq_str item_type "component-version" then
    lift (d <~ component_version_data msg_body item_type ;; Ok (Some d))
  else if eq_str item_type "container-image" then
    lift (d <~ container_image_data msg_body system item_type ;; Ok (Some d))
  else if eq_str item_type "redhat-module" then
    redhat_module_data msg_body system item_type
  else
    lift (d <~ default_data msg_body system item_type ;; Ok (Some d)).

(** What follows the branch: recipients, publisher, test case, the check of
    the topic and the submission. Returns [None]. *)
Definition umb_submit (msg msg_id msg_body test_run_url outcome groups
  result_data : value) : M value :=
  recipients <- lift (get_default msg_body "recipients" (VList [])) ;;
  result_data <- lift (setitem result_data "recipients" recipients) ;;
  result_data <- lift (update_publisher_id result_data msg) ;;
  testcase <- lift (_construct_testcase_dict msg_body) ;;
  name <- lift (getitem testcase "name") ;;
  has_unknown <- lift (contains_str "unknown" name) ;;
  (if has_unknown then log WARNING IncompleteTestcase [msg_id; name]
   else ret tt) ;;;
  topic <- lift (getitem msg "topic") ;;
  valid <- match topic, name with
           | VStr topic, VStr name => verify_topic_and_testcase_name topic name
           | _, _ => raise AttributeError
           end ;;
  if negb valid then ret VNone
  else
    create_result testcase outcome test_run_url result_data groups VNone ;;;
    ret VNone.

Definition handle_ci_umb (msg : value) : M value :=
  headers <- lift (getitem msg "headers") ;;
  msg_id <- lift (getitem headers "message-id") ;;
  body <- lift (getitem msg "body") ;;
  msg_body <- lift (getitem body "msg") ;;
  artifact <- lift (getitem msg_body "artifact") ;;
  item_type <- lift (getitem artifact "type") ;;
  run <- lift (getitem msg_body "run") ;;
  test_run_url <- lift (getitem run "url") ;;
  outcome <- lift (_test_result_outcome msg) ;;
  uuid <- gen_uuid ;;
  let groups := VList [VDict [("uuid", VStr uuid); ("url", test_run_url)]] in
  system <- lift (get_default msg_body "system" (VDict [])) ;;
  let system := first_system system in
  built <- umb_result_data msg_body system item_type ;;
  match built with
  | None => ret (VBool false)
  | Some result_data =>
      umb_submit msg msg_id msg_body test_run_url outcome groups result_data
  end.

(* ------------------------------------------------------------------ *)
(** *** ResultsDB format (utils.py, [handle_resultsdb_format]) *)

(** [d.items()] *)
Definition items (v : value) : res (list (string * value)) :=
  match v with
  | VDict d => Ok d
  | _ => Raise AttributeError
  end.

(** The loop over [msg_body['results'].items()] *)
Fixpoint resultsdb_bulk (msg groups : value) (results : list (string * value))
  : M unit :=
  match results with
  | [] => ret tt
  | (testcase, result) :: rest =>
      result_data <- lift (get_default result "data" (VDict [])) ;;
      result_data <- lift (update_publisher_id result_data msg) ;;
      outcome <- lift (getitem result "outcome") ;;
      ref_url <- lift (get_default result "ref_url" (VStr EmptyString)) ;;
      note <- lift (get_default result "note" (VStr EmptyString)) ;;
      create_result (VStr testcase) outcome ref_url result_data groups note ;;;
      resultsdb_bulk msg groups rest
  end.

(** The rewriting of [ref_url] for rpmdiff results *)
Definition rpmdiff_group_ref_url (ref_url : value) : res value :=
  match ref_url with
  | VStr s =>
      match rpmdiff_match s with
      | Some (url_prefix, run, _) => Ok (VStr (url_prefix ++ run))
      | None => Raise ValueError
      end
  | _ => Raise TypeError
  end.

Definition handle_resultsdb_format (msg : value) : M unit :=
  body <- lift (getitem msg "body") ;;
  msg_body <- lift (getitem body "msg") ;;
  group_ref_url <- lift (getitem msg_body "ref_url") ;;
  testcase <- lift (get_default msg_body "testcase" (VDict [])) ;;
  name <- lift (get_default testcase "name" (VStr EmptyString)) ;;
  is_rpmdiff <- lift (str_method name (startswith "dist.rpmdiff")) ;;
  group_ref_url <- lift (if is_rpmdiff
                         then rpmdiff_group_ref_url group_ref_url
                         else Ok group_ref_url) ;;
  results <- lift (get msg_body "results") ;;
  if truthy results then
    uuid <- gen_uuid ;;
    let groups := VList [VDict [("uuid", VStr uuid);
                                ("ref_url", group_ref_url)]] in
    results <- lift (items results) ;;
    resultsdb_bulk msg groups results
  else
    first_group <- get_first_group group_ref_url ;;
    match first_group with
    | VDict _ =>
        fresh <- gen_uuid ;;
        uuid <- lift (get_default first_group "uuid" (VStr fresh)) ;;
        let groups := VList [VDict [("uuid", uuid);
                                    ("ref_url", group_ref_url);
                                    ("description", group_ref_url)]] in
        result_data <- lift (getitem msg_body "data") ;;
        result_data <- lift (update_publisher_id result_data msg) ;;
        testcase <- lift (getitem msg_body "testcase") ;;
        outcome <- lift (getitem msg_body "outcome") ;;
        ref_url <- lift (getitem msg_body "ref_url") ;;
        note <- lift (get_default msg_body "note" (VStr EmptyString)) ;;
        create_result testcase outcome ref_url result_data groups note
    | _ => raise AttributeError (* [.get] on what is not a mapping *)
    end.

End Handlers.

(* ================================================================== *)
(** ** Credentials for ResultsDB (utils.py, [get_http_auth]) *)

(** What [get_http_auth] raises: the two [RuntimeError]s, by their message,
    and the [AttributeError] of [url.startswith] on what is not a string *)
Inductive auth_exn : Type :=
| RuntimeError_not_configured  (* "User or password not configured ..." *)
| RuntimeError_without_https   (* "... should not be used without HTTPS!" *)
| AttributeError_url.

(** The configured user, password and URL are what [CONFIG.get] gives:
    a value, [None] when the key is not set. The result is [None] or the
    pair [(user, password)]. *)
Definition get_http_auth (user password url : value)
  : auth_exn + option (value * value) :=
  match
    (if andb (negb (truthy user)) (negb (truthy password)) then inr None
     else if andb (truthy user) (truthy password)
          then inr (Some (user, password))
          else inl RuntimeError_not_configured)
  with
  | inl e => inl e
  | inr None => inr None
  | inr (Some auth) =>
      match url with
      | VStr u => if negb (startswith "https://" u)
                  then inl RuntimeError_without_https
                  else inr (Some auth)
      | _ => inl AttributeError_url
      end
  end.

(* ================================================================== *)
(** * The vocabulary of the properties *)

(** ** Strings *)

(** The number of occurrences of [c] in [s] *)
Fixpoint count_char (c : ascii) (s : string) : nat :=
  match s with
  | EmptyString => 0
  | String a s' => (if Ascii.eqb a c then 1 else 0) + count_char c s'
  end.

(** The last character of [s] *)
Fixpoint last_char (s : string) : option ascii :=
  match s with
  | EmptyString => None
  | String c EmptyString => Some c
  | String _ s' => last_char s'
  end.

(** Every character of [s] satisfies [p]. *)
Fixpoint all_chars (p : ascii -> bool) (s : string) : bool :=
  match s with
  | EmptyString => true
  | String c s' => andb (p c) (all_chars p s')
  end.

(** Any byte but the letter [r] *)
Definition not_r (c : ascii) : bool := negb (Ascii.eqb c "r").

(** [t] is one decimal digit: a digit [0] to [9], or the encoding of a
    decimal digit of another script *)
Definition decimal_digit (t : string) : Prop :=
  t <> EmptyString /\ digit_width t = String.length t.

(** A decimal number: one decimal digit or more *)
Inductive decimal_number : string -> Prop :=
| number_digit (t : string) : decimal_digit t -> decimal_number t
| number_more (t s : string) :
    decimal_digit t -> decimal_number s -> decimal_number (t ++ s).

(** The run id [123] in Arabic-Indic digits (U+0661 to U+0663) *)
Definition arabic_indic_123 : string :=
  String "217" (String "161" (String "217" (String "162"
    (String "217" (String "163" EmptyString))))).

(** The line feed *)
Definition newline : string := String "010" EmptyString.

(** ** Patterns *)

(** A continuation that only accepts inputs with at least [n] colons *)
Definition needs_colons {A} (n : nat) (k : string -> option A) : Prop :=
  forall s a, k s = Some a -> n <= count_char ":" s.

(** What may follow the run id: nothing, a slash, or a slash and a result
    id; with it the [result] group *)
Inductive rpmdiff_tail : string -> option string -> Prop :=
| tail_none : rpmdiff_tail EmptyString None
| tail_slash : rpmdiff_tail "/" None
| tail_result (result : string) :
    decimal_number result ->
    rpmdiff_tail ("/" ++ result) (Some result).

(** ** Topics *)

(** The topic has the fixed prefix and exactly seven components. *)
Definition structured_topic (topic : string) : bool :=
  andb (startswith topic_prefix topic)
       (Nat.eqb (List.length (split "." topic)) 7).

(** ** Specifications of handler steps *)

(** [spec m P Q]: whatever the world, every body [m] submits satisfies [P],
    and a value [m] returns satisfies [Q]. *)
Definition spec {A} (m : M A) (P : request -> Prop) (Q : A -> Prop) : Prop :=
  forall w,
    Forall P (submissions (trace_of (m w)))
    /\ (forall a, result_of (m w) = Ok a -> Q a).

(** [runs m w Q]: from the world [w], [m] returns a value without raising,
    and the value, the world it leaves and the bodies it submitted satisfy
    [Q]. *)
Definition runs {A} (m : M A) (w : world)
  (Q : A -> world -> list request -> Prop) : Prop :=
  exists a w' t, m w = (Ok a, w', t) /\ Q a w' (submissions t).

(** Goes through the successful steps of a chain of [<~] in [H]. *)
Ltac res_steps H :=
  repeat match type of H with
         | res_bind ?r _ = _ =>
             let E := fresh "E" in
             destruct r eqn:E; simpl in H; [|discriminate H]
         end.

(** ** Dictionaries *)

(** ['k' in data] for a mapping [data] *)
Definition has_key (k : string) (data : value) : Prop :=
  exists x, getitem data k = Ok x.

(** One step of the comprehension that drops [None] *)
Definition keep_not_none (d : dict) (kv : string * value) : dict :=
  match snd kv with
  | VNone => d
  | v => dict_set (fst kv) v d
  end.

(** ** Fields of a message *)

(** [body.msg] of a message *)
Definition message_body (msg : value) : res value :=
  body <~ getitem msg "body" ;;
  getitem body "msg".

(** The artifact type the branch of [handle_ci_umb] is taken on *)
Definition artifact_type (msg : value) : res value :=
  body <~ getitem msg "body" ;;
  msg_body <~ getitem body "msg" ;;
  artifact <~ getitem msg_body "artifact" ;;
  getitem artifact "type".

(** A field of [body.msg.artifact] *)
Definition artifact_field (msg : value) (k : string) : res value :=
  body <~ getitem msg "body" ;;
  msg_body <~ getitem body "msg" ;;
  artifact <~ getitem msg_body "artifact" ;;
  getitem artifact k.

(** [headers.message-id] of a message *)
Definition message_id (msg : value) : res value :=
  headers <~ getitem msg "headers" ;;
  getitem headers "message-id".

(** [body.msg.run.url] of a message *)
Definition run_url (msg : value) : res value :=
  body <~ getitem msg "body" ;;
  msg_body <~ getitem body "msg" ;;
  run <~ getitem msg_body "run" ;;
  getitem run "url".

(** [body.msg.recipients], by default the empty list *)
Definition recipients_field (msg : value) : res value :=
  msg_body <~ message_body msg ;;
  get_default msg_body "recipients" (VList []).

(** [body.msg.testcase.name] as the handler reads it, with its defaults *)
Definition resultsdb_testcase_name (msg : value) : res value :=
  msg_body <~ message_body msg ;;
  testcase <~ get_default msg_body "testcase" (VDict []) ;;
  get_default testcase "name" (VStr EmptyString).

(** [body.msg.ref_url] *)
Definition resultsdb_ref_url (msg : value) : res value :=
  msg_body <~ message_body msg ;;
  getitem msg_body "ref_url".

(** ** Submissions *)

(** The item the pattern and the formatting of the [redhat-module] branch
    produce from the [nsvc] string *)
Definition module_item (name stream version context : string) : string :=
  name ++ "-" ++ replace "-" "_" stream ++ "-" ++ version ++ "." ++ context.

(** [data] is a mapping in which only [recipients] may be [None] *)
Definition none_only_at_recipients (data : value) : Prop :=
  exists d, data = VDict d
            /\ forall k v, In (k, v) d -> v = VNone -> k = "recipients".

(** The [result_data] of [r] has an [item] and a [type] key. *)
Definition has_item_and_type (r : request) : Prop :=
  has_key "item" (req_data r) /\ has_key "type" (req_data r).

(** The [ref_url] of each group a submission names *)
Definition group_ref_urls (r : request) : list (res value) :=
  match req_groups r with
  | VList groups => map (fun g => getitem g "ref_url") groups
  | _ => []
  end.

(** The outcome of [r] is FAILED. *)
Definition is_failed (r : request) : bool := eq_str (req_outcome r) "FAILED".

(** ** CI-metrics messages *)

(** The outcome the loop gives a sub-test *)
Definition subtest_outcome (env : environment) (test : value) : string :=
  match subtest_passed env test with
  | Ok true => "PASSED"
  | _ => "FAILED"
  end.

(** A sub-test record: a mapping whose [failed], if there, converts with
    [int] *)
Definition well_formed_subtest (env : environment) (test : value) : Prop :=
  (exists d, test = VDict d) /\ exists b, subtest_passed env test = Ok b.

(** A CI-metrics message with the sub-test records [tests]: the fields the
    handler reads without a default are there, the build URL and the
    recipients, if given, are strings. *)
Definition ci_metrics_well_formed (env : environment) (msg : value)
  (tests : list value) : Prop :=
  (exists headers mid,
      getitem msg "headers" = Ok (VDict headers)
      /\ assoc "message-id" headers = Some mid)
  /\ exists m,
       message_body msg = Ok (VDict m)
       /\ (assoc "job_name" m <> None \/ assoc "job_names" m <> None)
       /\ assoc "jenkins_job_url" m <> None
       /\ (exists url, assoc "jenkins_build_url" m = Some (VStr url))
       /\ assoc "tests" m = Some (VList tests)
       /\ (assoc "recipients" m = None
           \/ exists s, assoc "recipients" m = Some (VStr s))
       /\ Forall (well_formed_subtest env) tests.

(** [test.get('executor', 'unknown')] *)
Definition subtest_executor (test : value) : value :=
  match get_default test "executor" (VStr "unknown") with
  | Ok executor => executor
  | Raise _ => VStr "unknown"
  end.

(** [r] is the submission of the sub-test record [test]: it names the group,
    the test case [prefix.executor] and the outcome of the record. *)
Definition subtest_submission (env : environment) (group : value)
  (prefix : string) (test : value) (r : request) : Prop :=
  req_groups r = group
  /\ req_outcome r = VStr (subtest_outcome env test)
  /\ getitem (req_testcase r) "name"
     = Ok (VStr (prefix ++ "." ++ fmt env (subtest_executor test))).

(** The group every submission of a CI-metrics message names *)
Definition ci_metrics_group (env : environment) (msg : value) (w : world)
  : res value :=
  m <~ message_body msg ;;
  group_ref_url <~ getitem m "jenkins_build_url" ;;
  Ok (VList [VDict [("uuid", VStr (uuid4 env (uuids_drawn w)));
                    ("ref_url", group_ref_url)]]).

(** ** Sample environment and messages *)

(** Every request is accepted, no group exists yet. *)
Definition sample_env : environment :=
  {| uuid4 := fun n => "uuid-" ++ String (ascii_of_nat (48 + n)) EmptyString;
     post_ok := fun _ _ => true;
     groups_found := fun _ _ => Ok [];
     repr := fun _ => "<repr>";
     parse_int := fun _ => None |}.

(** Nothing drawn, nothing sent *)
Definition world0 : world := {| uuids_drawn := 0; requests_sent := 0 |}.

(** Headers with a publisher *)
Definition sample_headers : value :=
  VDict [("message-id", VStr "ID:messaging-devops-broker01-1");
         ("JMSXUserID", VStr "msg-client-ci")].

(** A [ci] mapping without [irc] *)
Definition sample_ci : value :=
  VDict [("name", VStr "BaseOS CI"); ("team", VStr "BaseOS");
         ("url", VStr "https://baseos-jenkins.example.com");
         ("email", VStr "baseos-ci@example.com")].

(** A [run] mapping without [rebuild] *)
Definition sample_run : value :=
  VDict [("url", VStr "https://baseos-jenkins.example.com/job/ci/42/");
         ("log", VStr "https://baseos-jenkins.example.com/job/ci/42/console")].

(** A unified-bus message for the artifact [artifact], sent to [topic] *)
Definition umb_message (topic : string) (artifact : value)
  (extra : dict) : value :=
  VDict [("topic", VStr topic);
         ("headers", sample_headers);
         ("body", VDict [("msg", VDict
            ([("artifact", artifact);
              ("run", sample_run);
              ("ci", sample_ci);
              ("category", VStr "functional");
              ("namespace", VStr "baseos-ci.redhat-module");
              ("type", VStr "tier1");
              ("status", VStr "PASS")] ++ extra)%list)])].

(** A structured topic of the namespace [baseos-ci] *)
Definition module_topic : string :=
  "/topic/VirtualTopic.eng.ci.baseos-ci.redhat-module.test.complete".

(** A module artifact with the given [nsvc] *)
Definition module_artifact (nsvc : string) (extra : dict) : value :=
  VDict ([("type", VStr "redhat-module");
          ("nsvc", VStr nsvc);
          ("name", VStr "testmodule");
          ("stream", VStr "rhel-8");
          ("version", VStr "20180816142114");
          ("context", VStr "c2c572ec")] ++ extra)%list.

(** A redhat-module message with the given [nsvc] *)
Definition module_message (nsvc : string) : value :=
  umb_message module_topic (module_artifact nsvc [("id", VInt 1234)]) [].

(** A container image artifact; [extra] may add the digest *)
Definition container_image_artifact (extra : dict) : value :=
  VDict ([("type", VStr "container-image");
          ("repository", VStr "registry.example.com/rhel8/postgresql");
          ("nvr", VStr "postgresql-container-10-42")] ++ extra)%list.

(** A structured topic for container images *)
Definition container_image_topic : string :=
  "/topic/VirtualTopic.eng.ci.baseos-ci.container-image.test.complete".

(** A component-version artifact *)
Definition component_version_artifact : value :=
  VDict [("type", VStr "component-version");
         ("component", VStr "dotnet"); ("version", VStr "2.1")].

(** A structured topic for component versions *)
Definition component_version_topic : string :=
  "/topic/VirtualTopic.eng.ci.baseos-ci.component-version.test.complete".

(** A brew build, handled by the default branch *)
Definition brew_build_artifact : value :=
  VDict [("type", VStr "brew-build");
         ("nvr", VStr "setup-2.8.71-7.el7_4");
         ("component", VStr "setup");
         ("id", VInt 14546275)].

(** A structured topic for brew builds *)
Definition brew_build_topic : string :=
  "/topic/VirtualTopic.eng.ci.baseos-ci.brew-build.test.complete".

(** A message in ResultsDB format with one result *)
Definition resultsdb_message (testcase_name ref_url : string) (data : value)
  : value :=
  VDict [("topic", VStr "/topic/VirtualTopic.eng.resultsdb.result.new");
         ("headers", sample_headers);
         ("body", VDict [("msg", VDict
            [("testcase", VDict [("name", VStr testcase_name);
                                 ("ref_url", VStr "https://ci.example.com")]);
             ("outcome", VStr "PASSED");
             ("ref_url", VStr ref_url);
             ("data", data)])])].

(** A message in ResultsDB format with a [results] mapping *)
Definition resultsdb_bulk_message (ref_url : string) (results : dict) : value :=
  VDict [("headers", sample_headers);
         ("body", VDict [("msg", VDict
            [("ref_url", VStr ref_url); ("results", VDict results)])])].

(** A CI-metrics message with the sub-test records [tests] *)
Definition ci_metrics_message (tests : list value) : value :=
  VDict [("topic", VStr "/topic/VirtualTopic.eng.ci.metrics");
         ("headers", sample_headers);
         ("body", VDict [("msg", VDict
            [("team", VStr "rhivos");
             ("job_name", VStr "kernel-tier1");
             ("jenkins_job_url",
              VStr "https://jenkins.example.com/job/kernel-tier1");
             ("jenkins_build_url",
              VStr "https://jenkins.example.com/job/kernel-tier1/12/");
             ("brew_task_id", VInt 14655525);
             ("component", VStr "kernel-4.18.0-80.el8");
             ("tests", VList tests)])])].

(** A sub-test record run by [executor] *)
Definition subtest (executor : string) (fields : dict) : value :=
  VDict (("executor", VStr executor) :: fields).

(** One sub-test without failures, one with a failure *)
Definition two_subtests : list value :=
  [subtest "beaker" [("failed", VInt 0)];
   subtest "CI-OSP" [("failed", VInt 1)]].

(** The second sub-test has no [failed] key. *)
Definition subtests_one_without_failed : list value :=
  [subtest "beaker" [("failed", VInt 0)];
   subtest "CI-OSP" [("arch", VStr "x86_64")]].

(** ** Beyond the claims *)

(** Whether [verify_topic_and_testcase_name] lets the test case pass *)
Definition topic_accepts (topic testcase_name : string) : bool :=
  match namespace_from_topic topic with
  | None => true
  | Some ns =>
      orb (String.eqb ns EmptyString)
          (String.eqb (namespace_from_testcase_name testcase_name) ns)
  end.

(** [body.msg.system] as [handle_ci_umb] reads it: by default the empty
    mapping, of a list the first element *)
Definition message_system (msg : value) : res value :=
  msg_body <~ message_body msg ;;
  system <~ get_default msg_body "system" (VDict []) ;;
  Ok (first_system system).

(** The test case [handle_ci_umb] builds for a message *)
Definition umb_testcase (msg : value) : res value :=
  msg_body <~ message_body msg ;;
  _construct_testcase_dict msg_body.

(** The [JMSXUserID] header, [None] when it is not there *)
Definition publisher_header (msg : value) : res value :=
  headers <~ getitem msg "headers" ;;
  get headers "JMSXUserID".

(** A handler run submits nothing, or it submits once as its last step: it
    then returns, or raises the [HTTPError] of that submission. *)
Definition submits_last {A} (m : M A) (w : world) : Prop :=
  submissions (trace_of (m w)) = []
  \/ exists r, submissions (trace_of (m w)) = [r]
               /\ ((exists a, result_of (m w) = Ok a)
                   \/ result_of (m w) = Raise HTTPError).

(** The [scratch] flag the default branch of [handle_ci_umb] derives from
    the field [artifact.scratch]: a boolean as it is, a string by comparing
    its lower case with [true], a missing field as [False] *)
Definition scratch_flag (field : res value) (flag : bool) : Prop :=
  (field = Raise KeyError /\ flag = false)
  \/ field = Ok (VBool flag)
  \/ exists s, field = Ok (VStr s) /\ flag = String.eqb (lower s) "true".

(** [artifact.type] names one of the four variants with a branch of their
    own. *)
Definition named_variant (item_type : string) : bool :=
  orb (String.eqb item_type "productmd-compose")
      (orb (String.eqb item_type "component-version")
           (orb (String.eqb item_type "container-image")
                (String.eqb item_type "redhat-module"))).

(** ** Messages in ResultsDB format *)

(** The [ref_url] of the group: for an rpmdiff test case the run URL the
    pattern yields ([None] when it does not match), for every other test
    case the [ref_url] of the message *)
Definition group_ref_url_of (testcase_name ref_url : string) : option string :=
  if startswith "dist.rpmdiff" testcase_name
  then match rpmdiff_match ref_url with
       | Some (url_prefix, run, _) => Some (url_prefix ++ run)
       | None => None
       end
  else Some ref_url.

(** One entry of [results]: a mapping with an [outcome] whose [data], if
    there, is a mapping *)
Definition well_formed_result (result : value) : Prop :=
  exists fields,
    result = VDict fields
    /\ assoc "outcome" fields <> None
    /\ (assoc "data" fields = None
        \/ exists d, assoc "data" fields = Some (VDict d)).

(** A message with the [results] mapping [results]: headers, a string
    [ref_url] that gives the group URL [group_url], results that are not
    empty and well formed *)
Definition bulk_message (msg : value) (results : dict) (group_url : string)
  : Prop :=
  (exists headers, getitem msg "headers" = Ok (VDict headers))
  /\ exists fields name ref_url,
       message_body msg = Ok (VDict fields)
       /\ assoc "ref_url" fields = Some (VStr ref_url)
       /\ resultsdb_testcase_name msg = Ok (VStr name)
       /\ group_ref_url_of name ref_url = Some group_url
       /\ assoc "results" fields = Some (VDict results)
       /\ results <> []
       /\ Forall (fun entry => well_formed_result (snd entry)) results.

(** A message with one result: headers, a string [ref_url] that gives the
    group URL [group_url], no [results] (or empty ones), a test case, an
    outcome and a mapping as [data] *)
Definition single_message (msg : value) (testcase outcome : value)
  (ref_url group_url : string) : Prop :=
  (exists headers, getitem msg "headers" = Ok (VDict headers))
  /\ exists fields name,
       message_body msg = Ok (VDict fields)
       /\ assoc "ref_url" fields = Some (VStr ref_url)
       /\ assoc "testcase" fields = Some testcase
       /\ get_default testcase "name" (VStr EmptyString) = Ok (VStr name)
       /\ group_ref_url_of name ref_url = Some group_url
       /\ match assoc "results" fields with
          | Some results => truthy results = false
          | None => True
          end
       /\ assoc "outcome" fields = Some outcome
       /\ exists d, assoc "data" fields = Some (VDict d).

(** The group [get_first_group] returns for the groups ResultsDB found *)
Definition first_group (found : list value) : value :=
  match found with
  | g :: _ => g
  | [] => VDict []
  end.

(** The submission of one entry of [results] under the group [groups] *)
Definition bulk_submission (groups : value) (entry : string * value)
  (r : request) : Prop :=
  req_testcase r = VStr (fst entry)
  /\ Ok (req_outcome r) = getitem (snd entry) "outcome"
  /\ Ok (req_ref_url r) = get_default (snd entry) "ref_url" (VStr EmptyString)
  /\ req_groups r = groups.

(** ** Topics and test case names *)

(** [body.msg.namespace], [type] and [category] as
    [_construct_testcase_dict] reads them, each [unknown] when missing *)
Definition testcase_part (msg_body : value) (k : string) : res value :=
  get_default msg_body k (VStr "unknown").

(** The number of colons in the first line of [s] *)
Fixpoint line_colons (s : string) : nat :=
  match s with
  | EmptyString => 0
  | String c s' =>
      if dot c then (if Ascii.eqb c ":" then 1 else 0) + line_colons s'
      else 0
  end.

(** A continuation that only accepts inputs with at least [n] colons in
    their first line *)
Definition needs_line_colons {A} (n : nat) (k : string -> option A) : Prop :=
  forall s a, k s = Some a -> n <= line_colons s.

(** ** CI-metrics messages: the fields of a submission *)

(** A field of [body.msg] the handler reads with a default *)
Definition ci_metrics_field (msg : value) (k : string) (default : value)
  : res value :=
  m <~ message_body msg ;;
  get_default m k default.

(** A field of [body.msg] the handler reads without a default *)
Definition ci_metrics_required (msg : value) (k : string) : res value :=
  m <~ message_body msg ;;
  getitem m k.

(** The name of the job: [job_name], or the deprecated [job_names] when
    there is no [job_name] *)
Definition ci_metrics_job (msg : value) : res value :=
  m <~ message_body msg ;;
  has_job_name <~ contains_str "job_name" m ;;
  if has_job_name then getitem m "job_name" else getitem m "job_names".

(** The type of the tested item, from the brew task and the build type *)
Definition ci_metrics_test_type (brew_task_id build_type : value) : string :=
  (if negb (eq_str brew_task_id "unknown") then "koji_build" else "unknown")
  ++ (if eq_str build_type "scratch" then "_scratch" else EmptyString).

(** [n] times the character [c] *)
Fixpoint repeat_char (c : ascii) (n : nat) : string :=
  match n with
  | O => EmptyString
  | S n' => String c (repeat_char c n')
  end.

(** What all submissions of a CI-metrics message have in common *)
Definition ci_metrics_common (env : environment) (msg : value) (r : request)
  : Prop :=
  (exists url, ci_metrics_required msg "jenkins_build_url" = Ok (VStr url)
               /\ req_ref_url r = VStr (rstrip "/" url ++ "/console"))
  /\ getitem (req_data r) "item"
     = ci_metrics_field msg "component" (VStr "unknown")
  /\ getitem (req_data r) "artifact"
     = ci_metrics_field msg "artifact" (VStr "unknown")
  /\ getitem (req_data r) "brew_task_id"
     = ci_metrics_field msg "brew_task_id" (VStr "unknown")
  /\ getitem (req_data r) "CI_tier"
     = ci_metrics_field msg "CI_tier" (VList [VStr "unknown"])
  /\ getitem (req_data r) "job_name" = ci_metrics_job msg
  /\ (exists brew_task_id build_type,
        ci_metrics_field msg "brew_task_id" (VStr "unknown") = Ok brew_task_id
        /\ ci_metrics_field msg "build_type" (VStr "unknown") = Ok build_type
        /\ getitem (req_data r) "type"
           = Ok (VStr (ci_metrics_test_type brew_task_id build_type)))
  /\ (exists recipients,
        ci_metrics_field msg "recipients" (VStr "unknown")
        = Ok (VStr recipients)
        /\ getitem (req_data r) "recipients"
           = Ok (VList (map VStr (split "," recipients)))).

(** ** Compose messages *)

(** The compose a message is about: [artifact.id], or the deprecated
    [artifact.compose_id] when [id] is missing or empty *)
Definition compose_id (msg : value) : res value :=
  msg_body <~ message_body msg ;;
  artifact <~ getitem msg_body "artifact" ;;
  artifact_id <~ get artifact "id" ;;
  if truthy artifact_id then Ok artifact_id else getitem artifact "compose_id".

(** A field the handler reads from the system with [system[k]] *)
Definition system_field (msg : value) (k : string) : res value :=
  system <~ message_system msg ;;
  getitem system k.

(** A field the handler reads from the system with [system.get(k)] *)
Definition system_get (msg : value) (k : string) : res value :=
  system <~ message_system msg ;;
  get system k.

(** A compose artifact *)
Definition compose_artifact (extra : dict) : value :=
  VDict ([("type", VStr "productmd-compose")] ++ extra)%list.

(** A structured topic for composes *)
Definition compose_topic : string :=
  "/topic/VirtualTopic.eng.ci.baseos-ci.productmd-compose.test.complete".

(** A compose message with its system given as a list of one *)
Definition compose_message : value :=
  umb_message compose_topic
    (compose_artifact [("compose_id", VStr "RHEL-8.0-20180816.1")])
    [("system", VList [VDict [("architecture", VStr "x86_64");
                              ("provider", VStr "beaker")]])].

(** ** Sample results *)

(** Two results of one run, the second with [data] *)
Definition sample_results : dict :=
  [("dist.depcheck", VDict [("outcome", VStr "PASSED")]);
   ("dist.rpmlint",
    VDict [("outcome", VStr "FAILED");
           ("data", VDict [("item", VStr "setup-2.8.71-7.el7_4")])])].

(** The URL of that run *)
Definition sample_run_url : string := "https://ci.example.com/run/1".

(** A ResultsDB that refuses the request number [k] and accepts the others *)
Definition rejecting_env (k : nat) : environment :=
  {| uuid4 := uuid4 sample_env;
     post_ok := fun n _ => negb (Nat.eqb n k);
     groups_found := groups_found sample_env;
     repr := repr sample_env;
     parse_int := parse_int sample_env |}.

(** ** Runs that submit nothing *)

(** Whenever [m] returns without having submitted anything, [Q] holds of
    the value it returns and of what it has logged and queried *)
Definition unsubmitted {A} (m : M A) (Q : A -> list event -> Prop) : Prop :=
  forall w a,
    result_of (m w) = Ok a ->
    submissions (trace_of (m w)) = [] ->
    Q a (trace_of (m w)).

(** The two ways [handle_ci_umb] drops a message: it returns [False] after
    the error about the [nsvc], or [None] after the warning about the
    namespace *)
Definition drop_reported (v : value) (t : list event) : Prop :=
  (v = VBool false /\ In InvalidNsvc (logged ERROR t))
  \/ (v = VNone /\ In NamespaceMismatch (logged WARNING t)).

(** ** What a handler logs *)

(** Whenever [m] returns, [Q] holds of the value it returns and of what it
    has submitted, logged and queried *)
Definition returns {A} (m : M A) (Q : A -> list event -> Prop) : Prop :=
  forall w a, result_of (m w) = Ok a -> Q a (trace_of (m w)).

(** Nothing logged, neither a warning nor an error *)
Definition no_log (t : list event) : Prop :=
  logged WARNING t = [] /\ logged ERROR t = [].

(** The warning the topic of a message calls for, given the name of the
    test case: none for a structured topic of the namespace of the test
    case *)
Definition topic_warnings (topic testcase_name : string) : list log_message :=
  match namespace_from_topic topic with
  | None => [OldTopicScheme]
  | Some ns =>
      if String.eqb ns EmptyString then [OldTopicScheme]
      else if String.eqb (namespace_from_testcase_name testcase_name) ns
           then []
           else [NamespaceMismatch]
  end.

(** The warnings a unified-bus message calls for: one for a test case name
    with [unknown] in it, then the one for the topic *)
Definition umb_warnings (msg : value) : res (list log_message) :=
  testcase <~ umb_testcase msg ;;
  name <~ getitem testcase "name" ;;
  topic <~ getitem msg "topic" ;;
  match topic, name with
  | VStr topic, VStr name =>
      Ok ((if contains "unknown" name then [IncompleteTestcase] else [])
          ++ topic_warnings topic name)%list
  | _, _ => Raise AttributeError
  end.

(** What [handle_ci_umb] has logged when it returns [v] *)
Definition umb_log (msg v : value) (t : list event) : Prop :=
  (v = VBool false
   /\ logged WARNING t = [] /\ logged ERROR t = [InvalidNsvc])
  \/ (v = VNone
      /\ Ok (logged WARNING t) = umb_warnings msg /\ logged ERROR t = []).

(** The warnings a CI-metrics message calls for: one for the missing team,
    one for the deprecated [job_names] *)
Definition ci_metrics_warnings (msg : value) : res (list log_message) :=
  m <~ message_body msg ;;
  team <~ get_default m "team" (VStr "unassigned") ;;
  has_job_name <~ contains_str "job_name" m ;;
  Ok ((if eq_str team "unassigned" then [MissingTeam] else [])
      ++ (if has_job_name then [] else [JobNamesField]))%list.

(** ** The data of a message in ResultsDB format *)

(** [body.msg.data] *)
Definition resultsdb_data_field (msg : value) : res value :=
  msg_body <~ message_body msg ;;
  getitem msg_body "data".

(** The [data] a message in ResultsDB format gives for a result:
    [body.msg.data], or the [data] of an entry of [body.msg.results], by
    default the empty mapping *)
Definition message_data (msg data : value) : Prop :=
  resultsdb_data_field msg = Ok data
  \/ exists msg_body results testcase result,
       message_body msg = Ok msg_body
       /\ get msg_body "results" = Ok (VDict results)
       /\ In (testcase, result) results
       /\ get_default result "data" (VDict []) = Ok data.

(** The submission passes the data of the message on: its data is what
    [update_publisher_id] makes of it, so that every key but [publisher_id]
    is as in the message. *)
Definition passes_data_on (msg : value) (r : request) : Prop :=
  exists data,
    message_data msg data
    /\ update_publisher_id data msg = Ok (req_data r)
    /\ forall k, k <> "publisher_id" ->
                 getitem (req_data r) k = getitem data k.

(** ** Complete module messages *)

(** A redhat-module message that has all the handler reads besides the
    [nsvc], on a topic that accepts the name of its test case *)
Definition complete_module_message (msg : value) : Prop :=
  (exists headers,
      getitem msg "headers" = Ok (VDict headers)
      /\ assoc "message-id" headers <> None)
  /\ (exists outcome, _test_result_outcome msg = Ok outcome)
  /\ (exists topic testcase name,
        getitem msg "topic" = Ok (VStr topic)
        /\ umb_testcase msg = Ok testcase
        /\ getitem testcase "name" = Ok (VStr name)
        /\ topic_accepts topic name = true)
  /\ (exists system, message_system msg = Ok (VDict system))
  /\ exists fields artifact run ci,
       message_body msg = Ok (VDict fields)
       /\ assoc "artifact" fields = Some (VDict artifact)
       /\ assoc "context" artifact <> None
       /\ assoc "name" artifact <> None
       /\ assoc "stream" artifact <> None
       /\ assoc "version" artifact <> None
       /\ assoc "run" fields = Some (VDict run)
       /\ assoc "url" run <> None
       /\ assoc "log" run <> None
       /\ assoc "ci" fields = Some (VDict ci)
       /\ assoc "category" fields <> None.

(* ================================================================== *)
(** * Properties *)

(** ** The patterns on sample strings *)

Example nsvc_match_example :
  nsvc_match "python:3.6-beta:20180816142114:6c81f848" =
  Some ("python", "3.6-beta", "20180816142114", "6c81f848").
Proof. reflexivity. Qed.

Example nsvc_match_greedy :
  nsvc_match "a:b:c:d:e" = Some ("a:b", "c", "d", "e").
Proof. reflexivity. Qed.

Example rpmdiff_match_example :
  rpmdiff_match "https://rpmdiff.example.com/run/97881/26" =
  Some ("https://rpmdiff.example.com/run/", "97881", Some "26").
Proof. reflexivity. Qed.

Example rpmdiff_match_no_result :
  rpmdiff_match "https://rpmdiff.example.com/run/97881" =
  Some ("https://rpmdiff.example.com/run/", "97881", None).
Proof. reflexivity. Qed.

Example rpmdiff_match_fails :
  rpmdiff_match "https://rpmdiff.example.com/runs/97881" = None.
Proof. reflexivity. Qed.

(** ** Strings *)

Example split_example :
  split "." "/topic/VirtualTopic.eng.ci.osci.brew-build.test.complete"
  = ["/topic/VirtualTopic"; "eng"; "ci"; "osci"; "brew-build"; "test";
     "complete"]
  /\ split "," "a@example.com,b@example.com," = ["a@example.com";
                                                  "b@example.com"; ""]
  /\ split "," "" = [""].
Proof. repeat split. Qed.

Example split1_example :
  split1 "." "baseos-ci.redhat-module.tier1.functional"
  = ["baseos-ci"; "redhat-module.tier1.functional"]
  /\ split1 "." "unknown" = ["unknown"].
Proof. split; reflexivity. Qed.

Example rstrip_example :
  rstrip "/" "https://jenkins.example.com/job/a/12//"
  = "https://jenkins.example.com/job/a/12"
  /\ rstrip "/" "a/b" = "a/b" /\ rstrip "/" "//" = "".
Proof. repeat split. Qed.

Example lower_example : lower "PASS" = "pass" /\ lower "Failure-1" = "failure-1".
Proof. split; reflexivity. Qed.

Example endswith_example :
  endswith ".error" "/topic/VirtualTopic.eng.ci.osci.brew-build.test.error"
  = true
  /\ endswith ".error" "error" = false.
Proof. split; reflexivity. Qed.

Lemma endswith_refl (s : string) : endswith s s = true.
Proof.
  destruct s; simpl.
  - reflexivity.
  - now rewrite Ascii.eqb_refl, String.eqb_refl.
Qed.

Lemma endswith_append (suf p : string) : endswith suf (p ++ suf) = true.
Proof.
  induction p as [|c p IH]; simpl.
  - apply endswith_refl.
  - destruct (String.eqb suf (String c (p ++ suf))); [reflexivity | exact IH].
Qed.

Lemma endswith_inv (suf s : string) :
  endswith suf s = true -> exists p, s = p ++ suf.
Proof.
  induction s as [|c s IH]; simpl.
  - destruct (String.eqb_spec suf EmptyString) as [->|]; [|discriminate].
    intros _. now exists EmptyString.
  - destruct (String.eqb_spec suf (String c s)) as [->|].
    + intros _. now exists EmptyString.
    + intros H. destruct (IH H) as [p ->]. now exists (String c p).
Qed.

Lemma endswith_empty (suf : string) :
  endswith suf EmptyString = true -> suf = EmptyString.
Proof.
  simpl. destruct (String.eqb_spec suf EmptyString); [auto | discriminate].
Qed.

Lemma endswith_last_char (suf s : string) :
  suf <> EmptyString -> endswith suf s = true -> last_char s = last_char suf.
Proof.
  intros Hne. induction s as [|c s IH].
  - intros H. apply endswith_empty in H. contradiction.
  - simpl. destruct (String.eqb_spec suf (String c s)) as [->|_].
    + reflexivity.
    + intros H. destruct s as [|c' s'].
      * apply endswith_empty in H. contradiction.
      * exact (IH H).
Qed.

(** No topic has two of the three suffixes. *)
Lemma topic_suffixes_exclusive (topic : string) :
  (endswith ".error" topic = true -> endswith ".queued" topic = false
                                    /\ endswith ".running" topic = false)
  /\ (endswith ".queued" topic = true -> endswith ".error" topic = false
                                       /\ endswith ".running" topic = false)
  /\ (endswith ".running" topic = true -> endswith ".error" topic = false
                                        /\ endswith ".queued" topic = false).
Proof.
  assert (L : forall a b, a <> EmptyString -> b <> EmptyString ->
              last_char a <> last_char b ->
              endswith a topic = true -> endswith b topic = false).
  { intros a b Ha Hb Hab H. destruct (endswith b topic) eqn:E; [|reflexivity].
    apply (endswith_last_char _ _ Ha) in H.
    apply (endswith_last_char _ _ Hb) in E. congruence. }
  split; [|split]; intros H; split; revert H; apply L; simpl; congruence.
Qed.

(* ------------------------------------------------------------------ *)
(** ** C1: the outcome classifier *)

(** C1. For a message with topic [topic]: a topic ending in [.error] gives
    FAILED, in [.queued] QUEUED, in [.running] RUNNING, whatever the body
    holds. With none of these suffixes the outcome is read from
    [body.msg.status]: lower-cased [pass] gives PASSED, [fail] and [failure]
    give FAILED, every other status is returned as it was given; a
    [body.msg] without [status] raises [KeyError]. *)
Theorem test_result_outcome_classification :
  forall (message : value) (topic : string),
    getitem message "topic" = Ok (VStr topic) ->
    (endswith ".error" topic = true ->
       _test_result_outcome message = Ok (VStr "FAILED"))
    /\ (endswith ".queued" topic = true ->
          _test_result_outcome message = Ok (VStr "QUEUED"))
    /\ (endswith ".running" topic = true ->
          _test_result_outcome message = Ok (VStr "RUNNING"))
    /\ (endswith ".error" topic = false ->
        endswith ".queued" topic = false ->
        endswith ".running" topic = false ->
        forall body msg,
          getitem message "body" = Ok body ->
          getitem body "msg" = Ok msg ->
          (forall status,
             getitem msg "status" = Ok (VStr status) ->
             (lower status = "pass" ->
                _test_result_outcome message = Ok (VStr "PASSED"))
             /\ (lower status = "fail" \/ lower status = "failure" ->
                   _test_result_outcome message = Ok (VStr "FAILED"))
             /\ (lower status <> "pass" -> lower status <> "fail" ->
                 lower status <> "failure" ->
                   _test_result_outcome message = Ok (VStr status)))
          /\ (forall d,
                msg = VDict d -> assoc "status" d = None ->
                _test_result_outcome message = Raise KeyError)).
Proof.
  intros message topic Ht.
  destruct (topic_suffixes_exclusive topic) as (He & Hq & Hr).
  unfold _test_result_outcome. rewrite Ht. simpl.
  split; [|split; [|split]].
  - intros H. now rewrite H.
  - intros H. destruct (Hq H) as [-> _]. now rewrite H.
  - intros H. destruct (Hr H) as [-> ->]. now rewrite H.
  - intros -> -> -> body msg Hb Hm. rewrite Hb. simpl. rewrite Hm. simpl.
    split.
    + intros status Hs. rewrite Hs. simpl. repeat split.
      * intros ->. reflexivity.
      * intros [-> | ->]; reflexivity.
      * intros H1 H2 H3.
        destruct (String.eqb_spec (lower status) "pass"); [contradiction|].
        destruct (String.eqb_spec (lower status) "fail"); [contradiction|].
        destruct (String.eqb_spec (lower status) "failure"); [contradiction|].
        reflexivity.
    + intros d -> Hd. simpl. now rewrite Hd.
Qed.

(* ------------------------------------------------------------------ *)
(** ** C2: topic namespace against test case namespace *)

Lemma split1_head_no_separator (c : ascii) (a b : string) :
  count_char c a = 0 ->
  nth 0 (split1 c (a ++ String c b)) EmptyString = a.
Proof.
  induction a as [|x a IH]; simpl.
  - now rewrite Ascii.eqb_refl.
  - destruct (Ascii.eqb x c); [discriminate|].
    intros Ha. specialize (IH Ha).
    destruct (split1 c (a ++ String c b)); simpl in *; now subst.
Qed.

Lemma split1_no_separator (c : ascii) (a : string) :
  count_char c a = 0 -> split1 c a = [a].
Proof.
  induction a as [|x a IH]; simpl.
  - reflexivity.
  - destruct (Ascii.eqb x c); [discriminate|].
    intros Ha. now rewrite (IH Ha).
Qed.

(** The namespace of a test case name is what stands before its first dot,
    or the whole name when it has no dot. *)
Lemma namespace_from_testcase_name_first_segment (a b : string) :
  count_char "." a = 0 ->
  namespace_from_testcase_name (a ++ "." ++ b) = a
  /\ namespace_from_testcase_name a = a.
Proof.
  intros H. unfold namespace_from_testcase_name. split.
  - now apply split1_head_no_separator.
  - now rewrite split1_no_separator.
Qed.

Lemma split_cons (c : ascii) (s : string) :
  exists h t, split c s = h :: t.
Proof.
  induction s as [|x s (h & t & IH)]; simpl.
  - now exists EmptyString, [].
  - rewrite IH. destruct (Ascii.eqb x c); eauto.
Qed.

Lemma split_append_separator (c : ascii) (a b : string) :
  count_char c a = 0 ->
  split c (a ++ String c b) = a :: split c b.
Proof.
  induction a as [|x a IH]; simpl.
  - intros _. destruct (split_cons c b) as (h & t & ->).
    now rewrite Ascii.eqb_refl.
  - destruct (Ascii.eqb x c); [discriminate|].
    intros Ha. now rewrite (IH Ha).
Qed.

Lemma split_append_separator' (c : ascii) (a b : string) :
  count_char c a = 0 ->
  split c (a ++ String c EmptyString ++ b) = a :: split c b.
Proof. exact (split_append_separator c a b). Qed.

Lemma split_no_separator (c : ascii) (a : string) :
  count_char c a = 0 -> split c a = [a].
Proof.
  induction a as [|x a IH]; simpl.
  - reflexivity.
  - destruct (Ascii.eqb x c); [discriminate|].
    intros Ha. now rewrite (IH Ha).
Qed.

(** A topic written in the documented scheme
    [/topic/VirtualTopic.eng.ci.<namespace>.<artifact>.<event>.<status>]
    is structured and has [<namespace>] as component 3. *)
Lemma namespace_from_documented_topic (ns artifact event status : string) :
  count_char "." ns = 0 -> count_char "." artifact = 0 ->
  count_char "." event = 0 -> count_char "." status = 0 ->
  let topic := topic_prefix ++ ns ++ "." ++ artifact ++ "." ++ event ++ "."
               ++ status in
  structured_topic topic = true /\ namespace_from_topic topic = Some ns.
Proof.
  intros Hn Ha He Hs topic.
  assert (Hsplit : split "." topic
                   = ["/topic/VirtualTopic"; "eng"; "ci"; ns; artifact; event;
                      status]).
  { unfold topic, topic_prefix.
    change ("/topic/VirtualTopic.eng.ci." ++ ?x)
      with ("/topic/VirtualTopic" ++ "." ++ "eng" ++ "." ++ "ci" ++ "." ++ x).
    repeat (rewrite split_append_separator' by (assumption || reflexivity)).
    now rewrite split_no_separator. }
  assert (Hp : startswith topic_prefix topic = true).
  { unfold topic, topic_prefix. reflexivity. }
  unfold structured_topic, namespace_from_topic.
  rewrite Hp, Hsplit. split; reflexivity.
Qed.

(** The claim as worded fails on a structured topic with an empty namespace
    component: the check is skipped and the message counts as valid although
    the namespaces differ. *)
Lemma empty_topic_namespace_is_accepted :
  let topic := "/topic/VirtualTopic.eng.ci..brew-build.test.complete" in
  let testcase_name := "osci.brew-build.tier0.functional" in
  let w := {| uuids_drawn := 0; requests_sent := 0 |} in
  structured_topic topic = true
  /\ nth 3 (split "." topic) EmptyString
     <> namespace_from_testcase_name testcase_name
  /\ result_of (verify_topic_and_testcase_name topic testcase_name w)
     = Ok true.
Proof.
  cbv zeta. split; [reflexivity|]. split; [|reflexivity].
  vm_compute. discriminate.
Qed.

(** C2 (amended). A structured topic (the fixed prefix and exactly seven
    dot-separated components) has component 3 as its namespace, and it is
    valid exactly when that namespace is empty or equals the test case
    name's segment before its first dot. Every other topic has no namespace
    and is valid. *)
Theorem verify_topic_and_testcase_name_spec :
  forall (topic testcase_name : string) (w : world),
    (structured_topic topic = true ->
       let ns := nth 3 (split "." topic) EmptyString in
       namespace_from_topic topic = Some ns
       /\ result_of (verify_topic_and_testcase_name topic testcase_name w)
          = Ok (orb (String.eqb ns EmptyString)
                    (String.eqb (namespace_from_testcase_name testcase_name)
                                ns)))
    /\ (structured_topic topic = false ->
          namespace_from_topic topic = None
          /\ result_of (verify_topic_and_testcase_name topic testcase_name w)
             = Ok true).
Proof.
  intros topic testcase_name w.
  unfold structured_topic, verify_topic_and_testcase_name,
    namespace_from_topic.
  destruct (startswith topic_prefix topic); simpl.
  - destruct (Nat.eqb (List.length (split "." topic)) 7); simpl.
    + split; [|discriminate]. intros _. split; [reflexivity|].
      destruct (String.eqb (nth 3 (split "." topic) EmptyString) EmptyString);
        [reflexivity|].
      simpl.
      destruct (String.eqb (namespace_from_testcase_name testcase_name)
                  (nth 3 (split "." topic) EmptyString)); reflexivity.
    + split; [discriminate|]. intros _. split; reflexivity.
  - split; [discriminate|]. intros _. split; reflexivity.
Qed.

(* ------------------------------------------------------------------ *)
(** ** The backtracking matchers *)

Lemma count_char_append (c : ascii) (a b : string) :
  count_char c (a ++ b) = count_char c a + count_char c b.
Proof. induction a; simpl; [reflexivity | rewrite IHa; lia]. Qed.

Lemma append_empty_r (s : string) : s ++ EmptyString = s.
Proof. induction s; simpl; [reflexivity | now rewrite IHs]. Qed.

Lemma append_assoc (a b c : string) : (a ++ b) ++ c = a ++ b ++ c.
Proof. induction a; simpl; [reflexivity | now rewrite IHa]. Qed.

Lemma strip_prefix_sound (lit s s' : string) :
  strip_prefix lit s = Some s' -> s = lit ++ s'.
Proof.
  revert s. induction lit as [|a lit IH]; intros s; simpl.
  - now intros [= ->].
  - destruct s as [|b s]; [discriminate|].
    destruct (Ascii.eqb_spec a b) as [->|]; [|discriminate].
    intros H. now rewrite (IH _ H).
Qed.

Lemma strip_prefix_append (lit s : string) :
  strip_prefix lit (lit ++ s) = Some s.
Proof.
  induction lit as [|a lit IH]; simpl; [reflexivity|].
  now rewrite Ascii.eqb_refl.
Qed.

Lemma literal_sound {A} (lit : string) (k : string -> option A) s a :
  literal lit k s = Some a -> exists s', s = lit ++ s' /\ k s' = Some a.
Proof.
  unfold literal. destruct (strip_prefix lit s) as [s'|] eqn:E; [|discriminate].
  intros H. exists s'. split; [now apply strip_prefix_sound | exact H].
Qed.

Lemma literal_append {A} (lit : string) (k : string -> option A) s :
  literal lit k (lit ++ s) = k s.
Proof. unfold literal. now rewrite strip_prefix_append. Qed.

(** What [greedy_star] returns is a split of the input: a run of
    [p]-characters and a rest the continuation accepts. *)
Lemma greedy_star_sound {A} (p : ascii -> bool) (k : string -> option A) :
  forall s g a,
    greedy_star p k s = Some (g, a) ->
    exists rest, s = g ++ rest /\ all_chars p g = true /\ k rest = Some a.
Proof.
  induction s as [|c s IH]; intros g a; simpl.
  - destruct (k EmptyString) eqn:E; simpl; [|discriminate].
    intros [= <- <-]. now exists EmptyString.
  - destruct (p c) eqn:Hc.
    + destruct (greedy_star p k s) as [[g' a']|] eqn:E.
      * intros [= <- <-]. destruct (IH _ _ eq_refl) as (rest & -> & Hg & Hk).
        exists rest. simpl. now rewrite Hc.
      * destruct (k (String c s)) eqn:E'; simpl; [|discriminate].
        intros [= <- <-]. now exists (String c s).
    + destruct (k (String c s)) eqn:E'; simpl; [|discriminate].
      intros [= <- <-]. now exists (String c s).
Qed.

(** [greedy_star] fails when the continuation refuses what follows every
    run of [p]-characters at the head of the input. *)
Lemma greedy_star_none {A} (p : ascii -> bool) (k : string -> option A) :
  forall s,
    (forall g r, s = g ++ r -> all_chars p g = true -> k r = None) ->
    greedy_star p k s = None.
Proof.
  induction s as [|c s IH]; intros H; simpl.
  - now rewrite (H EmptyString EmptyString eq_refl eq_refl).
  - rewrite (H EmptyString (String c s) eq_refl eq_refl).
    destruct (p c) eqn:Hc; [|reflexivity].
    rewrite IH; [reflexivity|].
    intros g r -> Hg. apply (H (String c g) r eq_refl). simpl.
    now rewrite Hc.
Qed.

(** [greedy_star] takes the run [g] when the continuation accepts what
    follows it and refuses every later position. *)
Lemma greedy_star_longest {A} (p : ascii -> bool) (k : string -> option A) :
  forall g rest a,
    all_chars p g = true ->
    k rest = Some a ->
    (forall g' r', g' <> EmptyString -> all_chars p g' = true ->
                   rest = g' ++ r' -> k r' = None) ->
    greedy_star p k (g ++ rest) = Some (g, a).
Proof.
  induction g as [|c g IH]; intros rest a Hg Hk Hlater; simpl.
  - destruct rest as [|c s]; simpl.
    + now rewrite Hk.
    + rewrite Hk. destruct (p c) eqn:Hc; [|reflexivity].
      rewrite (greedy_star_none p k s); [reflexivity|].
      intros g' r' -> Hg'. apply (Hlater (String c g') r'); [easy| |easy].
      simpl. now rewrite Hc.
  - simpl in Hg. apply andb_prop in Hg as [Hc Hg]. rewrite Hc.
    now rewrite (IH rest a Hg Hk Hlater).
Qed.

Lemma greedy_star_whole {A} (p : ascii -> bool) (a : A) (g : string) :
  all_chars p g = true ->
  greedy_star p (fun _ => Some a) g = Some (g, a).
Proof.
  induction g as [|c g IH]; simpl; [reflexivity|].
  intros H. apply andb_prop in H as [-> Hg]. now rewrite (IH Hg).
Qed.

(** *** The module pattern *)

Lemma needs_colons_literal {A} n (k : string -> option A) :
  needs_colons n k -> needs_colons (S n) (literal ":" k).
Proof.
  intros H s a Hs. apply literal_sound in Hs as (s' & -> & Hk).
  apply H in Hk. simpl. lia.
Qed.

Lemma needs_colons_star {A} n (k : string -> option A) :
  needs_colons n k ->
  needs_colons n (fun s => greedy_star dot k s).
Proof.
  intros H s [g a] Hs. apply greedy_star_sound in Hs as (rest & -> & _ & Hk).
  apply H in Hk. rewrite count_char_append. lia.
Qed.

Lemma needs_colons_0 {A} (k : string -> option A) : needs_colons 0 k.
Proof. intros s a _. lia. Qed.

(** One colon-terminated field: the greedy group stops at the colon when
    the rest holds just the colons the continuation needs. *)
Lemma greedy_field {A} (k : string -> option A) (g rest : string) (a : A) :
  all_chars dot g = true ->
  k rest = Some a ->
  needs_colons (count_char ":" rest) k ->
  greedy_star dot (literal ":" k) (g ++ ":" ++ rest) = Some (g, a).
Proof.
  intros Hg Hk Hneeds. apply greedy_star_longest.
  - exact Hg.
  - now rewrite literal_append.
  - intros g' r' Hne _ Hsplit.
    destruct (literal ":" k r') as [b|] eqn:E; [|reflexivity].
    apply needs_colons_literal in Hneeds. apply Hneeds in E.
    assert (Hcount : count_char ":" (":" ++ rest)
                     = count_char ":" g' + count_char ":" r')
      by (rewrite Hsplit; apply count_char_append).
    destruct g' as [|c g']; [contradiction|].
    simpl in Hsplit. injection Hsplit as <- _.
    simpl in Hcount. lia.
Qed.

Lemma nsvc_match_needs_three_colons (s : string) :
  count_char ":" s < 3 -> nsvc_match s = None.
Proof.
  intros Hlt. unfold nsvc_match.
  destruct (greedy_star dot _ s) as [[name [stream [version [context u]]]]|]
    eqn:E; [|reflexivity].
  exfalso. revert E.
  match goal with
  | |- greedy_star dot ?k s = _ -> _ =>
      assert (Hneeds : needs_colons 3 (fun x => greedy_star dot k x))
  end.
  { repeat (apply needs_colons_star; try apply needs_colons_literal).
    apply needs_colons_0. }
  intros E. apply Hneeds in E. lia.
Qed.

(** The pattern gives back the four parts of a colon-joined string whose
    parts hold neither a colon nor a newline. *)
Lemma nsvc_match_joined (name stream version context : string) :
  all_chars dot name = true -> all_chars dot stream = true ->
  all_chars dot version = true -> all_chars dot context = true ->
  count_char ":" stream = 0 -> count_char ":" version = 0 ->
  count_char ":" context = 0 ->
  nsvc_match (name ++ ":" ++ stream ++ ":" ++ version ++ ":" ++ context)
  = Some (name, stream, version, context).
Proof.
  intros Dn Ds Dv Dc Cs Cv Cc. unfold nsvc_match.
  rewrite (greedy_field _ name _ (stream, (version, (context, tt)))).
  - reflexivity.
  - exact Dn.
  - rewrite (greedy_field _ stream _ (version, (context, tt))).
    + reflexivity.
    + exact Ds.
    + rewrite (greedy_field _ version _ (context, tt)).
      * reflexivity.
      * exact Dv.
      * now apply greedy_star_whole.
      * rewrite Cc. apply needs_colons_0.
    + rewrite !count_char_append, Cv, Cc. simpl.
      apply needs_colons_star, needs_colons_literal, needs_colons_0.
  - rewrite !count_char_append, Cs, Cv, Cc. simpl.
    apply needs_colons_star, needs_colons_literal,
      needs_colons_star, needs_colons_literal, needs_colons_0.
Qed.

(* ------------------------------------------------------------------ *)
(** ** A program logic for handler steps

    [spec m P Q]: whatever the world, every body [m] submits satisfies [P],
    and a value [m] returns satisfies [Q]. *)

Lemma submissions_app (t1 t2 : list event) :
  submissions (t1 ++ t2) = (submissions t1 ++ submissions t2)%list.
Proof.
  induction t1 as [|e t1 IH]; simpl; [reflexivity|].
  destruct e; simpl; now rewrite IH.
Qed.

Lemma spec_ret {A} (a : A) P (Q : A -> Prop) : Q a -> spec (ret a) P Q.
Proof. intros H w. split; [constructor|]. now intros b [= <-]. Qed.

Lemma spec_raise {A} (e : exn) P (Q : A -> Prop) : spec (raise e) P Q.
Proof. intros w. split; [constructor|]. discriminate. Qed.

Lemma spec_lift {A} (r : res A) P (Q : A -> Prop) :
  (forall a, r = Ok a -> Q a) -> spec (lift r) P Q.
Proof. intros H w. split; [constructor | exact H]. Qed.

Lemma spec_log lvl message args P (Q : unit -> Prop) :
  Q tt -> spec (log lvl message args) P Q.
Proof. intros H w. split; [constructor|]. now intros [] _. Qed.

Lemma spec_weaken {A} (m : M A) (P P' : request -> Prop) (Q Q' : A -> Prop) :
  spec m P Q ->
  (forall r, P r -> P' r) -> (forall a, Q a -> Q' a) ->
  spec m P' Q'.
Proof.
  intros H HP HQ w. destruct (H w) as [Ht Ha]. split.
  - eapply Forall_impl; [exact HP | exact Ht].
  - intros a E. auto.
Qed.

Lemma spec_bind {A B} (m : M A) (f : A -> M B) P (Q1 : A -> Prop)
  (Q : B -> Prop) :
  spec m P Q1 ->
  (forall a, Q1 a -> spec (f a) P Q) ->
  spec (bind m f) P Q.
Proof.
  intros Hm Hf w. unfold bind, trace_of, result_of.
  destruct (Hm w) as [Ht Ha]. unfold trace_of, result_of in Ht, Ha.
  destruct (m w) as [[r w1] t1]. simpl in Ht, Ha.
  destruct r as [a|e]; simpl.
  - destruct (Hf a (Ha a eq_refl) w1) as [Ht' Ha'].
    unfold trace_of, result_of in Ht', Ha'.
    destruct (f a w1) as [[r2 w2] t2]. simpl in *. split.
    + rewrite submissions_app. apply Forall_app. now split.
    + exact Ha'.
  - split; [exact Ht | discriminate].
Qed.

Lemma spec_bind_lift {A B} (r : res A) (f : A -> M B) P (Q : B -> Prop) :
  (forall a, r = Ok a -> spec (f a) P Q) ->
  spec (bind (lift r) f) P Q.
Proof.
  intros H. apply spec_bind with (Q1 := fun a => r = Ok a).
  - now apply spec_lift.
  - exact H.
Qed.

Lemma spec_bind_log {B} lvl message args (f : unit -> M B) P (Q : B -> Prop) :
  spec (f tt) P Q -> spec (bind (log lvl message args) f) P Q.
Proof.
  intros H. apply spec_bind with (Q1 := fun _ => True).
  - now apply spec_log.
  - now intros [] _.
Qed.

Section Logic.

Variable env : environment.

Lemma spec_gen_uuid P (Q : string -> Prop) :
  (forall u, Q u) -> spec (gen_uuid env) P Q.
Proof. intros H w. split; [constructor|]. intros a _. apply H. Qed.

Lemma spec_create_result testcase outcome ref_url data groups note
  (P : request -> Prop) (Q : unit -> Prop) :
  P {| req_testcase := testcase;
       req_groups := py_or groups (VList []);
       req_outcome := outcome;
       req_ref_url := ref_url;
       req_note := py_or note (VStr EmptyString);
       req_data := data |} ->
  Q tt ->
  spec (create_result env testcase outcome ref_url data groups note) P Q.
Proof.
  intros HP HQ w. split.
  - simpl. constructor; [exact HP | constructor].
  - now intros [] _.
Qed.

Lemma spec_get_first_group description P (Q : value -> Prop) :
  (forall g, Q g) -> spec (get_first_group env description) P Q.
Proof. intros H w. split; [constructor|]. intros a _. apply H. Qed.

End Logic.

(* ------------------------------------------------------------------ *)
(** ** Dictionaries *)

Lemma assoc_dict_set_same (k : string) (v : value) (d : dict) :
  assoc k (dict_set k v d) = Some v.
Proof.
  induction d as [|[k' v'] d IH]; simpl.
  - now rewrite String.eqb_refl.
  - destruct (String.eqb k k') eqn:E; simpl; rewrite E; [reflexivity | exact IH].
Qed.

Lemma assoc_dict_set_other (k k' : string) (v : value) (d : dict) :
  k <> k' -> assoc k' (dict_set k v d) = assoc k' d.
Proof.
  intros Hne. induction d as [|[k0 v0] d IH]; simpl.
  - destruct (String.eqb_spec k' k); [congruence | reflexivity].
  - destruct (String.eqb_spec k k0) as [->|]; simpl.
    + destruct (String.eqb_spec k' k0); [congruence | reflexivity].
    + now rewrite IH.
Qed.

Lemma assoc_dict_set_keeps (k k' : string) (v : value) (d : dict) :
  assoc k' d <> None -> assoc k' (dict_set k v d) <> None.
Proof.
  intros H. destruct (String.eqb_spec k k') as [->|Hne].
  - now rewrite assoc_dict_set_same.
  - now rewrite assoc_dict_set_other.
Qed.

Lemma in_dict_set (k k' : string) (v v' : value) (d : dict) :
  In (k', v') (dict_set k v d) -> In (k', v') d \/ (k' = k /\ v' = v).
Proof.
  induction d as [|[k0 v0] d IH]; simpl.
  - intros [[= <- <-]|[]]. now right.
  - destruct (String.eqb_spec k k0) as [->|]; simpl.
    + intros [[= <- <-]|H]; [now right | now left; right].
    + intros [H|H]; [now left; left|].
      destruct (IH H) as [H'|H']; [now left; right | now right].
Qed.

Lemma has_key_setitem (k k' : string) (x data data' : value) :
  setitem data k x = Ok data' -> has_key k' data -> has_key k' data'.
Proof.
  destruct data; try discriminate. simpl. intros [= <-] [y Hy].
  unfold has_key. simpl in *.
  destruct (assoc k' d) eqn:E; [|discriminate].
  assert (H : assoc k' (dict_set k x d) <> None)
    by (apply assoc_dict_set_keeps; congruence).
  destruct (assoc k' (dict_set k x d)); [eauto | contradiction].
Qed.

Lemma has_key_setitem_same (k : string) (x data data' : value) :
  setitem data k x = Ok data' -> has_key k data'.
Proof.
  destruct data; try discriminate. simpl. intros [= <-].
  exists x. simpl. now rewrite assoc_dict_set_same.
Qed.

Lemma getitem_setitem_other (k k' : string) (x data data' : value) :
  k <> k' -> setitem data k x = Ok data' ->
  getitem data' k' = getitem data k'.
Proof.
  intros Hne. destruct data; try discriminate. simpl. intros [= <-].
  simpl. now rewrite assoc_dict_set_other.
Qed.

Lemma has_key_update_publisher_id (k : string) (data data' msg : value) :
  update_publisher_id data msg = Ok data' -> has_key k data -> has_key k data'.
Proof.
  unfold update_publisher_id.
  destruct (getitem msg "headers") as [h|]; [simpl|discriminate].
  destruct (get h "JMSXUserID") as [p|]; [simpl|discriminate].
  destruct (truthy p).
  - apply has_key_setitem.
  - now intros [= <-].
Qed.

Lemma getitem_update_publisher_id (k : string) (data data' msg : value) :
  k <> "publisher_id" ->
  update_publisher_id data msg = Ok data' ->
  getitem data' k = getitem data k.
Proof.
  intros Hne. unfold update_publisher_id.
  destruct (getitem msg "headers") as [h|]; [simpl|discriminate].
  destruct (get h "JMSXUserID") as [p|]; [simpl|discriminate].
  destruct (truthy p).
  - apply getitem_setitem_other. congruence.
  - now intros [= <-].
Qed.

(** *** The comprehension that drops [None] *)

Lemma without_none_fold (pairs : dict) :
  without_none pairs = fold_left keep_not_none pairs [].
Proof. reflexivity. Qed.

Lemma fold_keep_keeps_key (k : string) (pairs d : dict) :
  assoc k d <> None -> assoc k (fold_left keep_not_none pairs d) <> None.
Proof.
  revert d. induction pairs as [|[k0 v0] pairs IH]; intros d H; simpl.
  - exact H.
  - apply IH. unfold keep_not_none. simpl.
    destruct v0; try exact H; now apply assoc_dict_set_keeps.
Qed.

Lemma fold_keep_has_key (k : string) (v : value) (pairs d : dict) :
  In (k, v) pairs -> v <> VNone ->
  assoc k (fold_left keep_not_none pairs d) <> None.
Proof.
  revert d. induction pairs as [|[k0 v0] pairs IH]; intros d Hin Hv; simpl.
  - destruct Hin.
  - destruct Hin as [[= -> ->]|Hin].
    + apply fold_keep_keeps_key. unfold keep_not_none. simpl.
      destruct v; try contradiction; now rewrite assoc_dict_set_same.
    + now apply IH.
Qed.

Lemma without_none_has_key (k : string) (v : value) (pairs : dict) :
  In (k, v) pairs -> v <> VNone -> has_key k (VDict (without_none pairs)).
Proof.
  intros Hin Hv. unfold has_key. simpl. rewrite without_none_fold.
  pose proof (fold_keep_has_key k v pairs [] Hin Hv) as H.
  destruct (assoc k (fold_left keep_not_none pairs [])); [eauto | contradiction].
Qed.

Lemma fold_keep_no_none (pairs d : dict) :
  (forall k v, In (k, v) d -> v <> VNone) ->
  forall k v, In (k, v) (fold_left keep_not_none pairs d) -> v <> VNone.
Proof.
  revert d. induction pairs as [|[k0 v0] pairs IH]; intros d H; simpl.
  - exact H.
  - apply IH. intros k v Hin. unfold keep_not_none in Hin. simpl in Hin.
    destruct v0; try (now apply (H k v));
      (apply in_dict_set in Hin as [Hin|[_ ->]];
       [now apply (H k v) | discriminate]).
Qed.

Lemma without_none_no_none (pairs : dict) :
  forall k v, In (k, v) (without_none pairs) -> v <> VNone.
Proof.
  rewrite without_none_fold. apply fold_keep_no_none. intros k v [].
Qed.

(* ------------------------------------------------------------------ *)
(** ** The unified-bus handler, step by step *)

Section UnifiedBus.

Variable env : environment.

(** What [umb_submit] submits is the [result_data] of the branch with
    [recipients] and, possibly, [publisher_id] set. *)
Lemma umb_submit_spec (msg msg_id msg_body test_run_url outcome groups
  result_data : value) (R : value -> Prop) :
  (forall recipients d1 d2,
      get_default msg_body "recipients" (VList []) = Ok recipients ->
      setitem result_data "recipients" recipients = Ok d1 ->
      update_publisher_id d1 msg = Ok d2 -> R d2) ->
  spec (umb_submit env msg msg_id msg_body test_run_url outcome groups
          result_data)
       (fun r => R (req_data r) /\ req_groups r = py_or groups (VList []))
       (fun v => v = VNone).
Proof.
  intros HR. unfold umb_submit.
  apply spec_bind_lift; intros recipients Hrec.
  apply spec_bind_lift; intros d1 H1.
  apply spec_bind_lift; intros d2 H2.
  apply spec_bind_lift; intros testcase _.
  apply spec_bind_lift; intros name _.
  apply spec_bind_lift; intros has_unknown _.
  apply spec_bind with (Q1 := fun _ => True).
  { destruct has_unknown; [now apply spec_log | now apply spec_ret]. }
  intros _ _.
  apply spec_bind_lift; intros topic _.
  apply spec_bind with (Q1 := fun _ => True).
  { destruct topic; try apply spec_raise.
    destruct name; try apply spec_raise.
    unfold verify_topic_and_testcase_name.
    destruct (match namespace_from_topic s with
              | Some ns => String.eqb ns EmptyString
              | None => true
              end).
    - apply spec_bind_log. now apply spec_ret.
    - destruct (negb _).
      + apply spec_bind_log. now apply spec_ret.
      + now apply spec_ret. }
  intros valid _. destruct (negb valid).
  - now apply spec_ret.
  - apply spec_bind with (Q1 := fun _ => True).
    + apply spec_create_result; [|exact I]. simpl. split; [|reflexivity].
      now apply (HR recipients d1 d2).
    + intros _ _. now apply spec_ret.
Qed.

(** [handle_ci_umb] is its branch on the artifact type followed by
    [umb_submit]. *)
Lemma handle_ci_umb_spec (msg : value) (R0 : option value -> Prop)
  (P : request -> Prop) (Q : value -> Prop) :
  (forall msg_body system item_type,
      artifact_type msg = Ok item_type ->
      message_body msg = Ok msg_body ->
      spec (umb_result_data env msg_body system item_type)
           (fun _ => False) R0) ->
  (R0 None -> Q (VBool false)) ->
  (forall d msg_id msg_body test_run_url outcome uuid,
      message_body msg = Ok msg_body ->
      R0 (Some d) ->
      spec (umb_submit env msg msg_id msg_body test_run_url outcome
              (VList [VDict [("uuid", VStr uuid); ("url", test_run_url)]]) d)
           P Q) ->
  spec (handle_ci_umb env msg) P Q.
Proof.
  intros Hbranch Hnone Hsubmit. unfold handle_ci_umb.
  apply spec_bind_lift; intros headers _.
  apply spec_bind_lift; intros msg_id _.
  apply spec_bind_lift; intros body Hbody.
  apply spec_bind_lift; intros msg_body Hmsg.
  apply spec_bind_lift; intros artifact Hartifact.
  apply spec_bind_lift; intros item_type Htype.
  apply spec_bind_lift; intros run _.
  apply spec_bind_lift; intros test_run_url _.
  apply spec_bind_lift; intros outcome _.
  apply spec_bind with (Q1 := fun _ => True);
    [now apply spec_gen_uuid | intros uuid _].
  apply spec_bind_lift; intros system _.
  apply spec_bind with (Q1 := R0).
  - eapply spec_weaken.
    + apply Hbranch.
      * unfold artifact_type. rewrite Hbody. simpl. rewrite Hmsg. simpl.
        rewrite Hartifact. simpl. exact Htype.
      * unfold message_body. rewrite Hbody. simpl. exact Hmsg.
    + intros r [].
    + auto.
  - intros [d|] H0.
    + apply Hsubmit; [|exact H0].
      unfold message_body. rewrite Hbody. simpl. exact Hmsg.
    + apply spec_ret. now apply Hnone.
Qed.

End UnifiedBus.

Example module_message_submitted :
  map (fun r => (req_outcome r, getitem (req_data r) "item"))
      (submissions (trace_of (handle_ci_umb sample_env
         (module_message "testmodule:rhel-8:20180816142114:c2c572ec") world0)))
  = [(VStr "PASSED", Ok (VStr "testmodule-rhel_8-20180816142114.c2c572ec"))].
Proof. reflexivity. Qed.

(* ------------------------------------------------------------------ *)
(** ** C3: an [nsvc] with a newline *)

(** The claim as worded fails when a part holds a newline: the pattern's
    groups stop at a line end, and the item loses what follows it. *)
Lemma module_item_cut_at_newline :
  let name := "testmodule" in
  let stream := "rhel-8" in
  let version := "20180816142114" in
  let context := "c2c572ec" ++ newline ++ "beta" in
  let nsvc := name ++ ":" ++ stream ++ ":" ++ version ++ ":" ++ context in
  (count_char ":" name = 0 /\ count_char ":" stream = 0
   /\ count_char ":" version = 0 /\ count_char ":" context = 0)
  /\ map (fun r => getitem (req_data r) "item")
         (submissions (trace_of (handle_ci_umb sample_env
                                   (module_message nsvc) world0)))
     = [Ok (VStr "testmodule-rhel_8-20180816142114.c2c572ec")]
  /\ VStr "testmodule-rhel_8-20180816142114.c2c572ec"
     <> VStr (module_item name stream version context).
Proof.
  cbv zeta. split; [repeat split|split]; try reflexivity.
  vm_compute. discriminate.
Qed.

(* ------------------------------------------------------------------ *)
(** ** Running a handler step by step *)

Lemma bind_lift_ok {A B} (r : res A) (a : A) (f : A -> M B) (w : world) :
  r = Ok a -> bind (lift r) f w = f a w.
Proof.
  intros ->. unfold bind, lift. now destruct (f a w) as [[r' w'] t'].
Qed.

Lemma bind_lift_raise {A B} (r : res A) (e : exn) (f : A -> M B) (w : world) :
  r = Raise e -> bind (lift r) f w = (Raise e, w, []).
Proof. now intros ->. Qed.

Lemma bind_ret {A B} (a : A) (f : A -> M B) (w : world) :
  bind (ret a) f w = f a w.
Proof. unfold bind, ret. now destruct (f a w) as [[r' w'] t']. Qed.

Lemma bind_log {B} lvl message args (f : unit -> M B) (w : world) :
  bind (log lvl message args) f w
  = (result_of (f tt w), world_of (f tt w),
     Log lvl message args :: trace_of (f tt w)).
Proof. unfold bind, log. now destruct (f tt w) as [[r' w'] t']. Qed.

Lemma bind_gen_uuid {B} env (f : string -> M B) (w : world) :
  bind (gen_uuid env) f w
  = f (uuid4 env (uuids_drawn w))
      {| uuids_drawn := S (uuids_drawn w); requests_sent := requests_sent w |}.
Proof. unfold bind, gen_uuid. now destruct (f _ _) as [[r' w'] t']. Qed.

Lemma getitem_is_dict (v x : value) (k : string) :
  getitem v k = Ok x -> exists d, v = VDict d.
Proof. destruct v; try discriminate. eauto. Qed.

Lemma get_default_dict (d : dict) (k : string) (default : value) :
  exists x, get_default (VDict d) k default = Ok x.
Proof. simpl. destruct (assoc k d); eauto. Qed.

(* ------------------------------------------------------------------ *)
(** ** C4: a module build with an [nsvc] the pattern refuses *)

(** C4. A redhat-module message (message id, run URL, outcome and [ci]
    present) whose [artifact.nsvc] is a string the four-part pattern does not
    match, as is every string with fewer than three colons, is dropped: the
    handler logs one error, returns [False] without raising, and neither
    submits a result nor sends any other request. *)
Theorem invalid_nsvc_is_skipped :
  forall (env : environment) (msg : value) (w : world)
         (headers msg_id body msg_body artifact run test_run_url outcome ci
            : value) (nsvc : string),
    getitem msg "headers" = Ok headers ->
    getitem headers "message-id" = Ok msg_id ->
    getitem msg "body" = Ok body ->
    getitem body "msg" = Ok msg_body ->
    getitem msg_body "artifact" = Ok artifact ->
    getitem artifact "type" = Ok (VStr "redhat-module") ->
    getitem msg_body "run" = Ok run ->
    getitem run "url" = Ok test_run_url ->
    _test_result_outcome msg = Ok outcome ->
    getitem msg_body "ci" = Ok ci ->
    getitem artifact "nsvc" = Ok (VStr nsvc) ->
    nsvc_match nsvc = None \/ count_char ":" nsvc < 3 ->
    handle_ci_umb env msg w
    = (Ok (VBool false),
       {| uuids_drawn := S (uuids_drawn w);
          requests_sent := requests_sent w |},
       [Log ERROR InvalidNsvc [VStr nsvc]])
    /\ submissions (trace_of (handle_ci_umb env msg w)) = []
    /\ logged ERROR (trace_of (handle_ci_umb env msg w)) = [InvalidNsvc].
Proof.
  intros env msg w headers msg_id body msg_body artifact run test_run_url
    outcome ci nsvc Hh Hid Hb Hm Ha Ht Hr Hu Ho Hci Hn Hno.
  assert (Hmatch : nsvc_match nsvc = None).
  { destruct Hno as [H|H]; [exact H | now apply nsvc_match_needs_three_colons]. }
  assert (Hrun : handle_ci_umb env msg w
                 = (Ok (VBool false),
                    {| uuids_drawn := S (uuids_drawn w);
                       requests_sent := requests_sent w |},
                    [Log ERROR InvalidNsvc [VStr nsvc]])).
  { unfold handle_ci_umb.
    rewrite (bind_lift_ok _ _ _ _ Hh), (bind_lift_ok _ _ _ _ Hid),
      (bind_lift_ok _ _ _ _ Hb), (bind_lift_ok _ _ _ _ Hm),
      (bind_lift_ok _ _ _ _ Ha), (bind_lift_ok _ _ _ _ Ht),
      (bind_lift_ok _ _ _ _ Hr), (bind_lift_ok _ _ _ _ Hu),
      (bind_lift_ok _ _ _ _ Ho), bind_gen_uuid.
    destruct (getitem_is_dict _ _ _ Ha) as [d ->].
    destruct (get_default_dict d "system" (VDict [])) as [system Hs].
    rewrite (bind_lift_ok _ _ _ _ Hs).
    unfold umb_result_data, redhat_module_data. simpl eq_str. cbv iota.
    unfold bind at 1.
    rewrite (bind_lift_ok _ _ _ _ Hci), (bind_lift_ok _ _ _ _ Ha),
      (bind_lift_ok _ _ _ _ Hn), Hmatch.
    reflexivity. }
  rewrite Hrun. repeat split; reflexivity.
Qed.

(* ------------------------------------------------------------------ *)
(** ** C5: a container image without digest *)

Example container_image_with_digest_submitted :
  map (fun r => (getitem (req_data r) "item",
                 getitem (req_data r) "repository"))
      (submissions (trace_of (handle_ci_umb sample_env
         (umb_message container_image_topic
            (container_image_artifact [("digest", VStr "sha256:0f41e")]) [])
         world0)))
  = [(Ok (VStr "registry.example.com/rhel8/postgresql@sha256:0f41e"),
      Ok (VStr "registry.example.com/rhel8/postgresql"))].
Proof. reflexivity. Qed.

(** The claim as worded fails: without [digest] the handler raises
    [KeyError] where it reads [artifact['digest']] for the item, and nothing
    is submitted. *)
Lemma container_image_without_digest_raises :
  let msg := umb_message container_image_topic
               (container_image_artifact []) [] in
  artifact_type msg = Ok (VStr "container-image")
  /\ artifact_field msg "digest" = Raise KeyError
  /\ result_of (handle_ci_umb sample_env msg world0) = Raise KeyError
  /\ submissions (trace_of (handle_ci_umb sample_env msg world0)) = [].
Proof. cbv zeta. repeat split; reflexivity. Qed.

(** C5 (amended). For every container-image message whose artifact has no
    [digest] key the handler ends in an exception and submits nothing; no
    [result_data] is built. When the message id, the run URL, the outcome and
    [artifact.repository] are there, the exception is the [KeyError] of the
    missing [digest]. *)
Theorem container_image_needs_digest :
  forall (env : environment) (msg : value) (w : world),
    artifact_type msg = Ok (VStr "container-image") ->
    artifact_field msg "digest" = Raise KeyError ->
    (exists e, result_of (handle_ci_umb env msg w) = Raise e)
    /\ submissions (trace_of (handle_ci_umb env msg w)) = []
    /\ (forall mid url outcome repo,
          message_id msg = Ok mid -> run_url msg = Ok url ->
          _test_result_outcome msg = Ok outcome ->
          artifact_field msg "repository" = Ok repo ->
          result_of (handle_ci_umb env msg w) = Raise KeyError).
Proof.
  intros env msg w Htype Hdigest.
  assert (Hspec : spec (handle_ci_umb env msg)
                    (fun _ => False) (fun _ => False)).
  { apply handle_ci_umb_spec with (R0 := fun _ => False); try easy.
    intros msg_body system item_type Htype' Hbody.
    rewrite Htype in Htype'. injection Htype' as <-.
    unfold artifact_field in Hdigest. unfold message_body in Hbody.
    destruct (getitem msg "body") as [body|]; [simpl in *|discriminate].
    rewrite Hbody in Hdigest. simpl in Hdigest.
    unfold umb_result_data. simpl eq_str. cbv iota.
    apply spec_lift. intros built H. unfold container_image_data in H.
    destruct (getitem msg_body "artifact") as [artifact|];
      [simpl in *|discriminate].
    destruct (getitem artifact "repository"); [simpl in H|discriminate].
    rewrite Hdigest in H. discriminate. }
  destruct (Hspec w) as [Hsub Hres]. split; [|split].
  - destruct (result_of (handle_ci_umb env msg w)) as [v|e]; [|eauto].
    destruct (Hres v eq_refl).
  - destruct (submissions (trace_of (handle_ci_umb env msg w))) as [|r l];
      [reflexivity|].
    inversion Hsub as [|? ? []].
  - intros mid url outcome repo Hid Hurl Ho Hrepo.
    unfold message_id in Hid. unfold run_url in Hurl.
    unfold artifact_type in Htype.
    unfold artifact_field in Hdigest, Hrepo.
    destruct (getitem msg "headers") as [headers|] eqn:Hh;
      [simpl in Hid|discriminate].
    destruct (getitem msg "body") as [body|] eqn:Hb; [simpl in *|discriminate].
    destruct (getitem body "msg") as [msg_body|] eqn:Hm;
      [simpl in *|discriminate].
    destruct (getitem msg_body "artifact") as [artifact|] eqn:Ha;
      [simpl in *|discriminate].
    destruct (getitem msg_body "run") as [run|] eqn:Hr;
      [simpl in *|discriminate].
    unfold handle_ci_umb.
    rewrite (bind_lift_ok _ _ _ _ Hh), (bind_lift_ok _ _ _ _ Hid),
      (bind_lift_ok _ _ _ _ Hb), (bind_lift_ok _ _ _ _ Hm),
      (bind_lift_ok _ _ _ _ Ha), (bind_lift_ok _ _ _ _ Htype),
      (bind_lift_ok _ _ _ _ Hr), (bind_lift_ok _ _ _ _ Hurl),
      (bind_lift_ok _ _ _ _ Ho), bind_gen_uuid.
    destruct (getitem_is_dict _ _ _ Ha) as [d ->].
    destruct (get_default_dict d "system" (VDict [])) as [system Hs].
    rewrite (bind_lift_ok _ _ _ _ Hs).
    unfold umb_result_data. simpl eq_str. cbv iota.
    unfold bind, lift, container_image_data.
    rewrite Ha. simpl res_bind. rewrite Hrepo. simpl res_bind.
    rewrite Hdigest. reflexivity.
Qed.

(* ------------------------------------------------------------------ *)
(** ** C6: [None] values in [result_data] *)

(** The claim as worded fails: the redhat-module and the default branch send
    [None] for the optional fields a message leaves out, and every branch
    sends the [recipients] of the message as they are, [None] included. *)
Lemma result_data_with_none_values :
  map (fun r => getitem (req_data r) "rebuild")
      (submissions (trace_of (handle_ci_umb sample_env
         (module_message "testmodule:rhel-8:20180816142114:c2c572ec")
         world0)))
  = [Ok VNone]
  /\ map (fun r => getitem (req_data r) "ci_irc")
         (submissions (trace_of (handle_ci_umb sample_env
            (umb_message brew_build_topic brew_build_artifact []) world0)))
     = [Ok VNone]
  /\ map (fun r => getitem (req_data r) "recipients")
         (submissions (trace_of (handle_ci_umb sample_env
            (umb_message component_version_topic component_version_artifact
               [("recipients", VNone)]) world0)))
     = [Ok VNone].
Proof. repeat split; reflexivity. Qed.

Lemma eq_str_true (v : value) (lit : string) :
  eq_str v lit = true -> v = VStr lit.
Proof.
  destruct v; try discriminate. simpl.
  destruct (String.eqb_spec s lit); [now subst | discriminate].
Qed.

Lemma truthy_not_none (v : value) : truthy v = true -> v <> VNone.
Proof. now destruct v. Qed.

(** C6 (amended). For every unified-bus message of the productmd-compose,
    component-version or container-image variant, the [result_data] of a
    submission is a mapping in which no key other than [recipients] has the
    value [None]: a field whose value is absent is left out. [recipients] is
    what the message gives, the empty list by default. *)
Theorem filtered_variants_omit_none :
  forall (env : environment) (msg : value) (w : world) (item_type : value),
    artifact_type msg = Ok item_type ->
    eq_str item_type "productmd-compose" = true
    \/ eq_str item_type "component-version" = true
    \/ eq_str item_type "container-image" = true ->
    Forall (fun r => none_only_at_recipients (req_data r)
                     /\ getitem (req_data r) "recipients"
                        = recipients_field msg)
           (submissions (trace_of (handle_ci_umb env msg w))).
Proof.
  intros env msg w item_type Htype Hvariant.
  assert (Hspec : spec (handle_ci_umb env msg)
                    (fun r => none_only_at_recipients (req_data r)
                              /\ getitem (req_data r) "recipients"
                                 = recipients_field msg)
                    (fun _ => True)).
  { apply handle_ci_umb_spec
      with (R0 := fun built =>
                    exists d, built = Some (VDict d)
                              /\ forall k v, In (k, v) d -> v <> VNone).
    - intros msg_body system item_type' Htype' _.
      rewrite Htype in Htype'. injection Htype' as <-.
      unfold umb_result_data.
      destruct Hvariant as [H|[H|H]]; apply eq_str_true in H; subst item_type;
        simpl eq_str; cbv iota; apply spec_lift; intros built H;
        res_steps H; injection H as <-;
        match goal with
        | E : ?f = Ok _ |- _ =>
            unfold productmd_compose_data, component_version_data,
              container_image_data in E;
            res_steps E; injection E as <-
        end;
        (eexists; split; [reflexivity | apply without_none_no_none]).
    - easy.
    - intros data msg_id msg_body test_run_url outcome uuid Hbody
        (d & [= ->] & Hd).
      eapply spec_weaken; [apply umb_submit_spec with
        (R := fun data => none_only_at_recipients data
                          /\ getitem data "recipients" = recipients_field msg)
        | now intros r [H _] | auto].
      intros recipients d1 d2 Hrec H1 H2.
      assert (H3 : getitem d2 "recipients" = recipients_field msg).
      { rewrite (getitem_update_publisher_id "recipients" d1 d2 msg) by easy.
        unfold recipients_field. rewrite Hbody. simpl res_bind. rewrite Hrec.
        simpl in H1. injection H1 as <-. simpl.
        now rewrite assoc_dict_set_same. }
      split; [|exact H3].
      simpl in H1. injection H1 as <-.
      unfold update_publisher_id in H2.
      destruct (getitem msg "headers") as [h|]; [simpl in H2|discriminate].
      destruct (get h "JMSXUserID") as [p|]; [simpl in H2|discriminate].
      destruct (truthy p) eqn:Hp.
      + simpl in H2. injection H2 as <-. eexists. split; [reflexivity|].
        intros k v Hin Hv.
        apply in_dict_set in Hin as [Hin|[-> ->]].
        * apply in_dict_set in Hin as [Hin|[-> _]]; [|reflexivity].
          now destruct (Hd k v Hin).
        * now destruct (truthy_not_none _ Hp).
      + injection H2 as <-. eexists. split; [reflexivity|].
        intros k v Hin Hv.
        apply in_dict_set in Hin as [Hin|[-> _]]; [|reflexivity].
        now destruct (Hd k v Hin). }
  exact (proj1 (Hspec w)).
Qed.

(* ------------------------------------------------------------------ *)
(** ** C7: data without [item] and [type] *)

(** The claim as worded fails for the ResultsDB format: the data of the
    message is passed on as it is, whether it names an item and a type or
    not. *)
Lemma resultsdb_format_passes_data_on :
  map (fun r => (req_data r, getitem (req_data r) "item",
                 getitem (req_data r) "type"))
      (submissions (trace_of (handle_resultsdb_format sample_env
         (resultsdb_message "dist.abicheck" "https://ci.example.com/job/7"
            (VDict [("arch", VStr "x86_64")]))
         world0)))
  = [(VDict [("arch", VStr "x86_64"); ("publisher_id", VStr "msg-client-ci")],
      Raise KeyError, Raise KeyError)]
  /\ map (fun r => (req_data r, getitem (req_data r) "item"))
         (submissions (trace_of (handle_resultsdb_format sample_env
            (resultsdb_bulk_message "https://ci.example.com/job/7"
               [("dist.depcheck", VDict [("outcome", VStr "PASSED")])])
            world0)))
     = [(VDict [("publisher_id", VStr "msg-client-ci")], Raise KeyError)].
Proof. split; reflexivity. Qed.

Section ItemAndType.

Variable env : environment.

Lemma ci_metrics_tests_item_and_type (msg team test_name testcase_url
  component recipients ci_tier artifact brew_task_id group_tests_ref_url
  groups : value) (test_type : string) :
  forall tests overall_outcome,
    spec (ci_metrics_tests env msg team test_name testcase_url component
            recipients ci_tier artifact brew_task_id group_tests_ref_url
            groups test_type tests overall_outcome)
         has_item_and_type (fun _ => True).
Proof.
  induction tests as [|test rest IH]; intros overall_outcome; simpl.
  - now apply spec_ret.
  - apply spec_bind_lift; intros passed _.
    apply spec_bind_lift; intros executor _.
    apply spec_bind_lift; intros t1 H1.
    apply spec_bind_lift; intros t2 H2.
    apply spec_bind_lift; intros t3 H3.
    apply spec_bind_lift; intros t4 H4.
    apply spec_bind_lift; intros t5 H5.
    apply spec_bind_lift; intros t6 H6.
    apply spec_bind_lift; intros t7 H7.
    apply spec_bind_lift; intros t8 H8.
    apply spec_bind with (Q1 := fun _ => True).
    + apply spec_create_result; [|exact I]. split; simpl.
      * apply (has_key_update_publisher_id _ _ _ _ H8).
        apply (has_key_setitem _ _ _ _ _ H7), (has_key_setitem _ _ _ _ _ H6),
          (has_key_setitem _ _ _ _ _ H5), (has_key_setitem _ _ _ _ _ H4),
          (has_key_setitem _ _ _ _ _ H3), (has_key_setitem _ _ _ _ _ H2).
        exact (has_key_setitem_same _ _ _ _ H1).
      * apply (has_key_update_publisher_id _ _ _ _ H8).
        apply (has_key_setitem _ _ _ _ _ H7), (has_key_setitem _ _ _ _ _ H6),
          (has_key_setitem _ _ _ _ _ H5), (has_key_setitem _ _ _ _ _ H4),
          (has_key_setitem _ _ _ _ _ H3).
        exact (has_key_setitem_same _ _ _ _ H2).
    + intros _ _. apply IH.
Qed.

Lemma handle_ci_metrics_item_and_type (msg : value) :
  spec (handle_ci_metrics env msg) has_item_and_type (fun _ => True).
Proof.
  unfold handle_ci_metrics.
  apply spec_bind_lift; intros headers _.
  apply spec_bind_lift; intros msg_id _.
  apply spec_bind_lift; intros body _.
  apply spec_bind_lift; intros m _.
  apply spec_bind_lift; intros team _.
  apply spec_bind with (Q1 := fun _ => True).
  { destruct (eq_str team "unassigned");
      [now apply spec_log | now apply spec_ret]. }
  intros _ _.
  apply spec_bind_lift; intros has_job_name _.
  apply spec_bind with (Q1 := fun _ => True).
  { destruct has_job_name.
    - now apply spec_lift.
    - apply spec_bind_lift; intros job_names _.
      apply spec_bind_log. now apply spec_ret. }
  intros test_name _.
  apply spec_bind_lift; intros testcase_url _.
  apply spec_bind_lift; intros group_ref_url _.
  apply spec_bind_lift; intros build_type _.
  apply spec_bind_lift; intros artifact _.
  apply spec_bind_lift; intros brew_task_id _.
  apply spec_bind_lift; intros tests _.
  apply spec_bind_lift; intros stripped _.
  apply spec_bind_lift; intros component _.
  apply spec_bind_lift; intros recipients_field _.
  apply spec_bind_lift; intros recipients _.
  apply spec_bind_lift; intros ci_tier _.
  apply spec_bind with (Q1 := fun _ => True);
    [now apply spec_gen_uuid | intros uuid _].
  apply spec_bind_lift; intros tests_list _.
  apply spec_bind with (Q1 := fun _ => True);
    [apply ci_metrics_tests_item_and_type | intros overall_outcome _].
  apply spec_bind_lift; intros result_data H.
  apply spec_create_result; [|exact I]. split; simpl.
  - apply (has_key_update_publisher_id _ _ _ _ H). now eexists.
  - apply (has_key_update_publisher_id _ _ _ _ H). now eexists.
Qed.

Lemma umb_result_data_item_and_type (msg_body system item_type : value) :
  spec (umb_result_data env msg_body system item_type)
       (fun _ => False)
       (fun built => forall d, built = Some d
                               -> has_key "item" d /\ has_key "type" d).
Proof.
  unfold umb_result_data.
  destruct (eq_str item_type "productmd-compose") eqn:E1;
    [|destruct (eq_str item_type "component-version") eqn:E2;
      [|destruct (eq_str item_type "container-image") eqn:E3;
        [|destruct (eq_str item_type "redhat-module") eqn:E4]]].
  1-3: match goal with
       | E : eq_str _ _ = true |- _ => apply eq_str_true in E; subst item_type
       end;
       apply spec_lift; intros built H; res_steps H; injection H as <-;
       match goal with
       | E : ?f = Ok _ |- _ =>
           unfold productmd_compose_data, component_version_data,
             container_image_data in E;
           res_steps E; injection E as <-
       end;
       intros d [= <-]; split;
       (eapply without_none_has_key; [simpl; eauto 15 | discriminate]).
  - unfold redhat_module_data.
    apply spec_bind_lift; intros ci _.
    apply spec_bind_lift; intros artifact _.
    apply spec_bind_lift; intros nsvc_field _.
    destruct nsvc_field; try apply spec_raise.
    destruct (nsvc_match s) as [[[[name stream] version] context]|].
    + apply spec_lift. intros built H. res_steps H. injection H as <-.
      intros d [= <-]. split; eexists; reflexivity.
    + apply spec_bind_log. now apply spec_ret.
  - apply spec_lift. intros built H. res_steps H. injection H as <-.
    unfold default_data in E. res_steps E. injection E as <-.
    intros d [= <-]. split; eexists; reflexivity.
Qed.

End ItemAndType.

(* ------------------------------------------------------------------ *)
(** ** Handler steps that complete

    [runs m w Q]: from the world [w], [m] returns a value without raising,
    and the value, the world it leaves and the bodies it submitted satisfy
    [Q]. *)

Lemma runs_weaken {A} (m : M A) w (Q Q' : A -> world -> list request -> Prop) :
  runs m w Q -> (forall a w' s, Q a w' s -> Q' a w' s) -> runs m w Q'.
Proof. intros (a & w' & t & E & H) HQ. exists a, w', t. auto. Qed.

Lemma runs_ret {A} (a : A) w (Q : A -> world -> list request -> Prop) :
  Q a w [] -> runs (ret a) w Q.
Proof. intros H. now exists a, w, []. Qed.

Lemma runs_lift {A} (r : res A) (a : A) w
  (Q : A -> world -> list request -> Prop) :
  r = Ok a -> Q a w [] -> runs (lift r) w Q.
Proof. intros -> H. now exists a, w, []. Qed.

Lemma runs_log lvl message args w (Q : unit -> world -> list request -> Prop) :
  Q tt w [] -> runs (log lvl message args) w Q.
Proof. intros H. now exists tt, w, [Log lvl message args]. Qed.

Lemma runs_bind {A B} (m : M A) (f : A -> M B) w
  (Q1 : A -> world -> list request -> Prop)
  (Q : B -> world -> list request -> Prop) :
  runs m w Q1 ->
  (forall a w1 s1, Q1 a w1 s1 ->
     runs (f a) w1 (fun b w2 s2 => Q b w2 (s1 ++ s2)%list)) ->
  runs (bind m f) w Q.
Proof.
  intros (a & w1 & t1 & E1 & H1) Hf.
  destruct (Hf a w1 _ H1) as (b & w2 & t2 & E2 & H2).
  exists b, w2, (t1 ++ t2)%list. unfold bind. rewrite E1, E2.
  split; [reflexivity|]. now rewrite submissions_app.
Qed.

Lemma runs_bind_lift {A B} (r : res A) (a : A) (f : A -> M B) w
  (Q : B -> world -> list request -> Prop) :
  r = Ok a -> runs (f a) w Q -> runs (bind (lift r) f) w Q.
Proof.
  intros Hr H. apply runs_bind with (Q1 := fun x w1 s1 => x = a /\ w1 = w
                                                          /\ s1 = []).
  - now apply runs_lift with (a := a).
  - now intros x w1 s1 (-> & -> & ->).
Qed.

(** A step that only logs, or does nothing *)
Lemma runs_bind_silent {A B} (m : M A) (f : A -> M B) w
  (Q : B -> world -> list request -> Prop) :
  runs m w (fun _ w1 s1 => w1 = w /\ s1 = []) ->
  (forall a, runs (f a) w Q) ->
  runs (bind m f) w Q.
Proof.
  intros Hm Hf. apply runs_bind with (1 := Hm).
  intros a w1 s1 (-> & ->). apply Hf.
Qed.

Lemma runs_bind_gen_uuid {B} env (f : string -> M B) w
  (Q : B -> world -> list request -> Prop) :
  runs (f (uuid4 env (uuids_drawn w)))
       {| uuids_drawn := S (uuids_drawn w); requests_sent := requests_sent w |}
       Q ->
  runs (bind (gen_uuid env) f) w Q.
Proof.
  intros H.
  apply runs_bind
    with (Q1 := fun u w1 s1 =>
                  u = uuid4 env (uuids_drawn w)
                  /\ w1 = {| uuids_drawn := S (uuids_drawn w);
                             requests_sent := requests_sent w |}
                  /\ s1 = []).
  - eexists _, _, []. split; [reflexivity|]. now repeat split.
  - now intros u w1 s1 (-> & -> & ->).
Qed.

Lemma runs_create_result env testcase outcome ref_url data groups note w
  (Q : unit -> world -> list request -> Prop) :
  (forall n r, post_ok env n r = true) ->
  Q tt {| uuids_drawn := uuids_drawn w; requests_sent := S (requests_sent w) |}
    [{| req_testcase := testcase;
        req_groups := py_or groups (VList []);
        req_outcome := outcome;
        req_ref_url := ref_url;
        req_note := py_or note (VStr EmptyString);
        req_data := data |}] ->
  runs (create_result env testcase outcome ref_url data groups note) w Q.
Proof.
  intros Hpost H. eexists tt, _, _. unfold create_result.
  rewrite Hpost. split; [reflexivity | exact H].
Qed.

Lemma update_publisher_id_dict (msg : value) (headers d : dict) :
  getitem msg "headers" = Ok (VDict headers) ->
  exists d', update_publisher_id (VDict d) msg = Ok (VDict d').
Proof.
  intros H. unfold update_publisher_id. rewrite H. simpl.
  destruct (assoc "JMSXUserID" headers) as [p|]; simpl; [|eauto].
  destruct (truthy p); simpl; eauto.
Qed.

(* ------------------------------------------------------------------ *)
(** ** C8 and C10: the submissions of a CI-metrics message *)

Section CIMetrics.

Variable env : environment.

Hypothesis post_always_ok : forall n r, post_ok env n r = true.

Lemma ci_metrics_tests_runs (msg team test_name testcase_url component
  recipients ci_tier artifact brew_task_id group_tests_ref_url groups : value)
  (test_type : string) (headers : dict) :
  getitem msg "headers" = Ok (VDict headers) ->
  truthy groups = true ->
  forall tests overall_outcome w,
    Forall (well_formed_subtest env) tests ->
    runs (ci_metrics_tests env msg team test_name testcase_url component
            recipients ci_tier artifact brew_task_id group_tests_ref_url
            groups test_type tests overall_outcome) w
         (fun final w' subs =>
            final = (if forallb (fun t => String.eqb (subtest_outcome env t)
                                            "PASSED") tests
                     then overall_outcome else "FAILED")
            /\ uuids_drawn w' = uuids_drawn w
            /\ Forall2 (subtest_submission env groups
                          (fmt env team ++ "." ++ fmt env test_name))
                       tests subs).
Proof.
  intros Hh Hg.
  induction tests as [|test rest IH]; intros overall_outcome w Hwf; simpl.
  - apply runs_ret. repeat split. constructor.
  - inversion Hwf as [|? ? [[d ->] [b Hb]] Hrest]; subst.
    apply runs_bind_lift with (1 := Hb).
    destruct (get_default_dict d "executor" (VStr "unknown")) as [ex Hex].
    apply runs_bind_lift with (1 := Hex).
    do 7 (eapply runs_bind_lift; [reflexivity|]).
    destruct (update_publisher_id_dict msg headers
                (dict_set "brew_task_id" brew_task_id
                   (dict_set "artifact" artifact
                      (dict_set "job_name" test_name
                         (dict_set "CI_tier" ci_tier
                            (dict_set "recipients" recipients
                               (dict_set "type" (VStr test_type)
                                  (dict_set "item" component d)))))))
                Hh) as [d' Hd'].
    apply runs_bind_lift with (1 := Hd').
    eapply runs_bind.
    + apply runs_create_result with
        (Q := fun _ w1 s1 =>
                uuids_drawn w1 = uuids_drawn w
                /\ exists r, s1 = [r] /\ req_groups r = groups
                             /\ req_outcome r
                                = VStr (if b then "PASSED" else "FAILED")
                             /\ getitem (req_testcase r) "name"
                                = Ok (VStr ((fmt env team ++ "."
                                             ++ fmt env test_name)
                                            ++ "." ++ fmt env ex)));
        [exact post_always_ok|].
      split; [reflexivity|]. eexists. split; [reflexivity|]. simpl.
      split; [unfold py_or; now rewrite Hg|]. split; [reflexivity|].
      now rewrite !append_assoc.
    + intros [] w1 s1 (Hw1 & r & -> & Hgr & Hout & Hname).
      eapply runs_weaken; [apply (IH _ w1 Hrest)|].
      intros final w' subs (-> & Hw' & Hsubs). simpl.
      assert (Ho : subtest_outcome env (VDict d)
                   = if b then "PASSED" else "FAILED").
      { unfold subtest_outcome. rewrite Hb. now destruct b. }
      rewrite Ho. split; [|split].
      * destruct b; simpl; [reflexivity|]. now destruct (forallb _ rest).
      * congruence.
      * constructor; [|exact Hsubs]. unfold subtest_submission.
        rewrite Ho. unfold subtest_executor. now rewrite Hex.
Qed.

Lemma handle_ci_metrics_runs (msg : value) (tests : list value) (w : world) :
  ci_metrics_well_formed env msg tests ->
  exists group,
    ci_metrics_group env msg w = Ok group
    /\ runs (handle_ci_metrics env msg) w
         (fun _ w' subs =>
            uuids_drawn w' = S (uuids_drawn w)
            /\ exists prefix sub agg,
                 subs = (sub ++ [agg])%list
                 /\ Forall2 (subtest_submission env group prefix) tests sub
                 /\ req_groups agg = group
                 /\ getitem (req_testcase agg) "name" = Ok (VStr prefix)
                 /\ req_outcome agg
                    = VStr (if forallb (fun t => String.eqb
                                                   (subtest_outcome env t)
                                                   "PASSED") tests
                            then "PASSED" else "FAILED")).
Proof.
  intros ((headers & mid & Hh & Hmid) & m & Hbody & Hjob & Hjurl
          & (url & Hburl) & Htests & Hrec & Hwf).
  unfold ci_metrics_group. rewrite Hbody. simpl. rewrite Hburl. simpl.
  eexists. split; [reflexivity|].
  unfold message_body in Hbody.
  destruct (getitem msg "body") as [body|] eqn:Hb; [simpl in Hbody|discriminate].
  unfold handle_ci_metrics.
  apply runs_bind_lift with (1 := Hh).
  eapply runs_bind_lift; [simpl; rewrite Hmid; reflexivity|].
  apply runs_bind_lift with (1 := Hb).
  apply runs_bind_lift with (1 := Hbody).
  destruct (get_default_dict m "team" (VStr "unassigned")) as [team Hteam].
  apply runs_bind_lift with (1 := Hteam).
  apply runs_bind_silent.
  { destruct (eq_str team "unassigned"); [apply runs_log | apply runs_ret];
      now split. }
  intros _.
  eapply runs_bind_lift; [reflexivity|].
  apply runs_bind_silent.
  { destruct (assoc "job_name" m) as [jn|] eqn:Ejn.
    - eapply runs_lift; [simpl; rewrite Ejn; reflexivity | now split].
    - destruct Hjob as [Hjob|Hjob]; [contradiction|].
      destruct (assoc "job_names" m) as [jns|] eqn:Ejns; [|contradiction].
      eapply runs_bind_lift; [simpl; rewrite Ejns; reflexivity|].
      apply runs_bind_silent; [apply runs_log; now split|].
      intros _. apply runs_ret. now split. }
  intros test_name.
  destruct (assoc "jenkins_job_url" m) as [testcase_url|] eqn:Eju;
    [|contradiction].
  eapply runs_bind_lift; [simpl; rewrite Eju; reflexivity|].
  eapply runs_bind_lift; [simpl; rewrite Hburl; reflexivity|].
  destruct (get_default_dict m "build_type" (VStr "unknown"))
    as [build_type Hbt].
  apply runs_bind_lift with (1 := Hbt).
  destruct (get_default_dict m "artifact" (VStr "unknown")) as [artifact Hart].
  apply runs_bind_lift with (1 := Hart).
  destruct (get_default_dict m "brew_task_id" (VStr "unknown"))
    as [brew_task_id Hbrew].
  apply runs_bind_lift with (1 := Hbrew).
  eapply runs_bind_lift; [simpl; rewrite Htests; reflexivity|].
  eapply runs_bind_lift; [reflexivity|].
  destruct (get_default_dict m "component" (VStr "unknown"))
    as [component Hcomp].
  apply runs_bind_lift with (1 := Hcomp).
  assert (Hrecipients : exists s, get_default (VDict m) "recipients"
                                    (VStr "unknown") = Ok (VStr s)).
  { simpl. destruct Hrec as [->|[s ->]]; eauto. }
  destruct Hrecipients as [rs Hrs].
  apply runs_bind_lift with (1 := Hrs).
  eapply runs_bind_lift; [reflexivity|].
  destruct (get_default_dict m "CI_tier" (VList [VStr "unknown"]))
    as [ci_tier Htier].
  apply runs_bind_lift with (1 := Htier).
  apply runs_bind_gen_uuid.
  eapply runs_bind_lift; [reflexivity|].
  eapply runs_bind.
  { apply ci_metrics_tests_runs with (headers := headers);
      [exact Hh | reflexivity | exact Hwf]. }
  intros final w1 sub (-> & Hw1 & Hsub).
  match goal with
  | |- runs (bind (lift (update_publisher_id (VDict ?d) msg)) _) _ _ =>
      destruct (update_publisher_id_dict msg headers d Hh) as [d' Hd']
  end.
  apply runs_bind_lift with (1 := Hd').
  apply runs_create_result; [exact post_always_ok|].
  split; [exact Hw1|]. eexists _, sub, _. split; [reflexivity|].
  split; [exact Hsub|]. repeat split.
Qed.

End CIMetrics.

Lemma subtest_outcome_cases (env : environment) (t : value) :
  (subtest_outcome env t = "PASSED" /\ subtest_passed env t = Ok true)
  \/ (subtest_outcome env t = "FAILED" /\ subtest_passed env t <> Ok true).
Proof.
  unfold subtest_outcome.
  destruct (subtest_passed env t) as [[|]|]; [left | right | right];
    split; congruence.
Qed.

Lemma failed_iff_not_all_passed (env : environment) (group : value)
  (prefix : string) (tests : list value) (sub : list request) :
  Forall2 (subtest_submission env group prefix) tests sub ->
  existsb is_failed sub
  = negb (forallb (fun t => String.eqb (subtest_outcome env t) "PASSED") tests).
Proof.
  induction 1 as [|t r tests sub (_ & Hout & _) _ IH]; simpl; [reflexivity|].
  rewrite IH. unfold is_failed. rewrite Hout. simpl.
  destruct (subtest_outcome_cases env t) as [[-> _]|[-> _]]; reflexivity.
Qed.

Lemma Forall2_nth_error {A B} (R : A -> B -> Prop) (l1 : list A)
  (l2 : list B) :
  Forall2 R l1 l2 ->
  forall i a, nth_error l1 i = Some a ->
              exists b, nth_error l2 i = Some b /\ R a b.
Proof.
  induction 1 as [|x y l1 l2 Hxy _ IH]; intros [|i] a; simpl; try discriminate.
  - intros [= <-]. eauto.
  - apply IH.
Qed.

Lemma forallb_nth_error_false {A} (f : A -> bool) (l : list A) i a :
  nth_error l i = Some a -> f a = false -> forallb f l = false.
Proof.
  revert i. induction l as [|x l IH]; intros [|i]; simpl; try discriminate.
  - intros [= ->] ->. reflexivity.
  - intros H Hf. rewrite (IH _ H Hf). apply andb_false_r.
Qed.

(** C8. For a well-formed CI-metrics message with [n] sub-test records,
    when ResultsDB accepts every submission, the handler returns without
    raising after exactly [n + 1] submissions: one for each sub-test record,
    in order, for the test case [team.test_name.executor], and then the
    aggregate for [team.test_name]. It draws exactly one UUID, and every
    submission names the same single group of that UUID and the build URL.
    The aggregate outcome is FAILED if the outcome of at least one sub-test
    submission is FAILED, and PASSED otherwise. *)
Theorem ci_metrics_submissions :
  forall (env : environment) (msg : value) (tests : list value) (w : world),
    (forall n r, post_ok env n r = true) ->
    ci_metrics_well_formed env msg tests ->
    result_of (handle_ci_metrics env msg w) = Ok tt
    /\ List.length (submissions (trace_of (handle_ci_metrics env msg w)))
       = S (List.length tests)
    /\ uuids_drawn (world_of (handle_ci_metrics env msg w))
       = S (uuids_drawn w)
    /\ exists group prefix sub agg,
         ci_metrics_group env msg w = Ok group
         /\ submissions (trace_of (handle_ci_metrics env msg w))
            = (sub ++ [agg])%list
         /\ Forall2 (subtest_submission env group prefix) tests sub
         /\ getitem (req_testcase agg) "name" = Ok (VStr prefix)
         /\ Forall (fun r => req_groups r = group) (sub ++ [agg])
         /\ req_outcome agg
            = VStr (if existsb is_failed sub then "FAILED" else "PASSED").
Proof.
  intros env msg tests w Hpost Hwf.
  destruct (handle_ci_metrics_runs env Hpost msg tests w Hwf)
    as (group & Hgroup & [] & w' & t & Hrun & Hw' & prefix & sub & agg
        & Hsubs & Hsub & Hagg_group & Hagg_name & Hagg).
  rewrite Hrun. unfold result_of, trace_of, world_of. simpl.
  pose proof (Forall2_length Hsub) as Hlen.
  split; [reflexivity|]. split; [|split; [exact Hw'|]].
  - rewrite Hsubs, length_app. simpl. lia.
  - exists group, prefix, sub, agg. split; [exact Hgroup|].
    split; [exact Hsubs|]. split; [exact Hsub|]. split; [exact Hagg_name|].
    split.
    + apply Forall_app. split.
      * clear - Hsub. induction Hsub as [|? ? ? ? [H _]]; constructor; auto.
      * now constructor.
    + rewrite Hagg,
        (failed_iff_not_all_passed env group prefix tests sub Hsub).
      now destruct (forallb _ tests).
Qed.

(** C10. In a well-formed CI-metrics message whose submissions ResultsDB
    accepts, a sub-test record without a [failed] key is classified FAILED,
    as is a record whose [failed] count is an integer other than zero: its
    submission has the outcome FAILED, and so has the aggregate submission
    of the message. *)
Theorem subtest_without_failed_key_fails :
  forall (env : environment) (msg : value) (tests : list value) (w : world)
         (i : nat) (d : dict),
    (forall n r, post_ok env n r = true) ->
    ci_metrics_well_formed env msg tests ->
    nth_error tests i = Some (VDict d) ->
    assoc "failed" d = None ->
    subtest_outcome env (VDict d) = "FAILED"
    /\ (forall d' z, assoc "failed" d' = Some (VInt z) -> z <> 0%Z ->
                     subtest_outcome env (VDict d') = "FAILED")
    /\ (exists r,
          nth_error (submissions (trace_of (handle_ci_metrics env msg w))) i
          = Some r
          /\ req_outcome r = VStr "FAILED")
    /\ (exists agg,
          nth_error (submissions (trace_of (handle_ci_metrics env msg w)))
                    (List.length tests)
          = Some agg
          /\ req_outcome agg = VStr "FAILED").
Proof.
  intros env msg tests w i d Hpost Hwf Hi Hd.
  assert (Hout : subtest_outcome env (VDict d) = "FAILED").
  { unfold subtest_outcome, subtest_passed. simpl. now rewrite Hd. }
  split; [exact Hout|]. split.
  { intros d' z Hd' Hz. unfold subtest_outcome, subtest_passed. simpl.
    rewrite Hd'. simpl. destruct (Z.eqb_spec z 0); [contradiction|reflexivity]. }
  destruct (handle_ci_metrics_runs env Hpost msg tests w Hwf)
    as (group & Hgroup & [] & w' & t & Hrun & Hw' & prefix & sub & agg
        & Hsubs & Hsub & Hagg_group & Hagg_name & Hagg).
  rewrite Hrun. unfold trace_of. simpl. rewrite Hsubs.
  pose proof (Forall2_length Hsub) as Hlen.
  destruct (Forall2_nth_error _ _ _ Hsub i _ Hi) as (r & Hr & _ & Hrout & _).
  split.
  - exists r. split.
    + rewrite nth_error_app1; [exact Hr|].
      apply nth_error_Some. congruence.
    + now rewrite Hrout, Hout.
  - exists agg. split.
    + rewrite nth_error_app2 by lia. rewrite Hlen, Nat.sub_diag. reflexivity.
    + rewrite Hagg.
      rewrite (forallb_nth_error_false _ tests i (VDict d) Hi);
        [reflexivity|]. now rewrite Hout.
Qed.

(* ------------------------------------------------------------------ *)
(** ** The rpmdiff pattern *)

Lemma all_chars_append (p : ascii -> bool) (a b : string) :
  all_chars p (a ++ b) = andb (all_chars p a) (all_chars p b).
Proof.
  induction a as [|c a IH]; simpl; [reflexivity|].
  now rewrite IH, andb_assoc.
Qed.

Lemma all_chars_impl (p q : ascii -> bool) (s : string) :
  (forall c, p c = true -> q c = true) ->
  all_chars p s = true -> all_chars q s = true.
Proof.
  intros H. induction s as [|c s IH]; simpl; [reflexivity|].
  intros Hs. apply andb_prop in Hs as [Hc Hs]. now rewrite (H c Hc), IH.
Qed.

(** [greedy_star] takes a whole run that ends the input or stops at a
    character outside [p], when the continuation accepts what follows. *)
Lemma greedy_star_run {A} (p : ascii -> bool) (k : string -> option A)
  (g rest : string) (a : A) :
  all_chars p g = true ->
  (forall c r, rest = String c r -> p c = false) ->
  k rest = Some a ->
  greedy_star p k (g ++ rest) = Some (g, a).
Proof.
  intros Hg Hstop Hk. apply greedy_star_longest; [exact Hg | exact Hk |].
  intros g' r' Hne Hg' ->. destruct g' as [|c g']; [contradiction|].
  simpl in Hg'. rewrite (Hstop c (g' ++ r') eq_refl) in Hg'. discriminate.
Qed.

(** *** Decimal digits *)

Lemma ascii_digit_not_r (c : ascii) :
  ascii_digit c = true -> not_r c = true.
Proof.
  intros H. unfold not_r. destruct (Ascii.eqb_spec c "r") as [->|];
    [discriminate H | reflexivity].
Qed.

Lemma lead_not_r (c : ascii) :
  (N_of_ascii c <? 192)%N = false -> not_r c = true.
Proof.
  intros H. unfold not_r. destruct (Ascii.eqb_spec c "r") as [->|];
    [discriminate H | reflexivity].
Qed.

Lemma continuation_not_r (c : ascii) (bits : N) :
  continuation c = Some bits -> not_r c = true.
Proof.
  intros H. unfold not_r. destruct (Ascii.eqb_spec c "r") as [->|];
    [discriminate H | reflexivity].
Qed.

Ltac width_cases :=
  repeat match goal with
         | |- context [match continuation ?c with _ => _ end] =>
             destruct (continuation c) eqn:?
         | |- context [if ?b then _ else _] => destruct b eqn:?
         end.

(** A digit is recognised by its own bytes, whatever follows them. *)
Lemma digit_width_append (t rest : string) :
  decimal_digit t -> digit_width (t ++ rest) = String.length t.
Proof.
  intros [Hne H]. revert H.
  destruct t as [|a [|b [|c [|d [|e t]]]]]; [contradiction|..];
    cbn [append String.length digit_width]; width_cases;
    intros H; try discriminate H; try reflexivity;
    destruct rest; reflexivity.
Qed.

(** No byte of a digit is the letter [r]. *)
Lemma decimal_digit_not_r (t : string) :
  decimal_digit t -> all_chars not_r t = true.
Proof.
  intros [Hne H]. revert H.
  destruct t as [|a [|b [|c [|d [|e t]]]]]; [contradiction|..];
    cbn [String.length digit_width all_chars]; width_cases;
    intros H; try discriminate H;
    repeat match goal with
           | E : ascii_digit ?c = true |- _ =>
               rewrite (ascii_digit_not_r c E); clear E
           | E : (N_of_ascii ?c <? 192)%N = false |- _ =>
               rewrite (lead_not_r c E); clear E
           | E : continuation ?c = Some _ |- _ =>
               rewrite (continuation_not_r c _ E); clear E
           end; reflexivity.
Qed.

Lemma decimal_number_not_r (s : string) :
  decimal_number s -> all_chars not_r s = true.
Proof.
  induction 1 as [t Ht|t s Ht _ IH].
  - now apply decimal_digit_not_r.
  - now rewrite all_chars_append, (decimal_digit_not_r t Ht), IH.
Qed.

(** The digits [0] to [9] make a decimal number. *)
Lemma ascii_decimal_number (s : string) :
  s <> EmptyString -> all_chars ascii_digit s = true -> decimal_number s.
Proof.
  induction s as [|c s IH]; [contradiction|]. intros _ H.
  simpl in H. apply andb_prop in H as [Hc Hs].
  assert (Hd : decimal_digit (String c EmptyString)).
  { split; [discriminate|]. simpl. now rewrite Hc. }
  destruct s as [|c' s].
  - now apply number_digit.
  - apply (number_more (String c EmptyString) (String c' s) Hd).
    apply IH; [discriminate | exact Hs].
Qed.

Lemma decimal_star_stop {A} (k : string -> option A) (s : string) :
  digit_width s = 0 ->
  decimal_star k s = option_map (pair EmptyString) (k s).
Proof.
  intros H. destruct s; [reflexivity|]. cbn [decimal_star]. now rewrite H.
Qed.

Lemma decimal_star_digit {A} (k : string -> option A) (t rest : string) :
  decimal_digit t ->
  decimal_star k (t ++ rest)
  = match decimal_star k rest with
    | Some (g, a) => Some (t ++ g, a)
    | None => option_map (pair EmptyString) (k (t ++ rest))
    end.
Proof.
  intros Ht. pose proof (digit_width_append t rest Ht) as Hw.
  destruct Ht as [Hne Ht].
  destruct t as [|a [|b [|c [|d [|e t]]]]]; [contradiction|..];
    cbn [append String.length] in Hw |- *.
  - cbn [decimal_star]. now rewrite Hw.
  - cbn [decimal_star]. now rewrite Hw.
  - cbn [decimal_star]. now rewrite Hw.
  - cbn [decimal_star]. now rewrite Hw.
  - exfalso. revert Ht. cbn [String.length digit_width]. width_cases;
      discriminate.
Qed.

Lemma decimal_plus_digit {A} (k : string -> option A) (t rest : string) :
  decimal_digit t ->
  decimal_plus k (t ++ rest)
  = match decimal_star k rest with
    | Some (g, a) => Some (t ++ g, a)
    | None => None
    end.
Proof.
  intros Ht. pose proof (digit_width_append t rest Ht) as Hw.
  destruct Ht as [Hne Ht]. unfold decimal_plus.
  destruct t as [|a [|b [|c [|d [|e t]]]]]; [contradiction|..];
    cbn [append String.length] in Hw |- *.
  - now rewrite Hw.
  - now rewrite Hw.
  - now rewrite Hw.
  - now rewrite Hw.
  - exfalso. revert Ht. cbn [String.length digit_width]. width_cases;
      discriminate.
Qed.

(** [decimal_star] takes a whole number when no digit follows it and the
    continuation accepts what does. *)
Lemma decimal_star_number {A} (k : string -> option A) (g rest : string)
  (a : A) :
  decimal_number g -> digit_width rest = 0 -> k rest = Some a ->
  decimal_star k (g ++ rest) = Some (g, a).
Proof.
  intros Hg Hstop Hk. induction Hg as [t Ht|t s Ht _ IH].
  - rewrite (decimal_star_digit k t rest Ht).
    rewrite (decimal_star_stop k rest Hstop), Hk. simpl.
    now rewrite append_empty_r.
  - rewrite append_assoc, (decimal_star_digit k t (s ++ rest) Ht).
    now rewrite IH.
Qed.

Lemma decimal_plus_number {A} (k : string -> option A) (g rest : string)
  (a : A) :
  decimal_number g -> digit_width rest = 0 -> k rest = Some a ->
  decimal_plus k (g ++ rest) = Some (g, a).
Proof.
  intros Hg Hstop Hk. destruct Hg as [t Ht|t s Ht Hs].
  - rewrite (decimal_plus_digit k t rest Ht).
    rewrite (decimal_star_stop k rest Hstop), Hk. simpl.
    now rewrite append_empty_r.
  - rewrite append_assoc, (decimal_plus_digit k t (s ++ rest) Ht).
    now rewrite (decimal_star_number k s rest a Hs Hstop Hk).
Qed.

(** *** The run URL *)

Lemma strip_run_none (s : string) :
  all_chars not_r s = true -> strip_prefix "/run/" s = None.
Proof.
  destruct s as [|a s]; [reflexivity|].
  cbn -[Ascii.eqb not_r].
  destruct (Ascii.eqb "/" a); [|reflexivity].
  destruct s as [|b s]; [reflexivity|].
  cbn -[Ascii.eqb not_r].
  destruct (Ascii.eqb_spec "r" b) as [<-|]; [|reflexivity].
  intros H. apply andb_prop in H as [_ H]. apply andb_prop in H as [H _].
  discriminate H.
Qed.

(** No later position of [/run/] followed by bytes other than [r] starts
    with [/run/]. *)
Lemma run_later_fails {A} (k : string -> option A) (x g' r' : string) :
  all_chars not_r x = true ->
  g' <> EmptyString ->
  "/run/" ++ x = g' ++ r' ->
  literal "/run/" k r' = None.
Proof.
  intros Hx Hne Hsplit. unfold literal.
  enough (H : strip_prefix "/run/" r' = None) by now rewrite H.
  destruct g' as [|c1 g']; [contradiction|].
  simpl in Hsplit. injection Hsplit as <- Hs.
  destruct g' as [|c2 g']; simpl in Hs; [now subst r'|].
  injection Hs as <- Hs.
  destruct g' as [|c3 g']; simpl in Hs; [now subst r'|].
  injection Hs as <- Hs.
  destruct g' as [|c4 g']; simpl in Hs; [now subst r'|].
  injection Hs as <- Hs.
  destruct g' as [|c5 g']; simpl in Hs.
  - subst r'. apply strip_run_none. simpl. exact Hx.
  - injection Hs as <- Hs. apply strip_run_none.
    rewrite Hs, all_chars_append in Hx. now apply andb_prop in Hx as [_ Hx].
Qed.

Lemma rpmdiff_tail_chars (tail : string) (result : option string) :
  rpmdiff_tail tail result ->
  all_chars not_r tail = true
  /\ digit_width tail = 0
  /\ optional_slash (optional_digits at_end) tail = Some (result, tt).
Proof.
  intros [| |res Hres].
  - repeat split.
  - repeat split.
  - split; [|split].
    + change ("/" ++ res) with (String "/" res). cbn [all_chars].
      now rewrite (decimal_number_not_r res Hres).
    + reflexivity.
    + unfold optional_slash. rewrite literal_append.
      unfold optional_digits.
      rewrite <- (append_empty_r res) at 1.
      now rewrite (decimal_plus_number at_end res EmptyString tt Hres).
Qed.

(** The pattern on a run URL: [url_prefix] runs up to the last [/run/],
    [run] is the run id. *)
Lemma rpmdiff_match_run_url (middle id tail : string) (result : option string) :
  middle <> EmptyString -> all_chars dot middle = true ->
  decimal_number id ->
  rpmdiff_tail tail result ->
  rpmdiff_match ("http" ++ middle ++ "/run/" ++ id ++ tail)
  = Some ("http" ++ middle ++ "/run/", id, result).
Proof.
  intros Hm Hmd Hid Htail.
  destruct (rpmdiff_tail_chars tail result Htail) as (Htc & Hstop & Hk2).
  unfold rpmdiff_match. rewrite literal_append.
  destruct middle as [|c middle]; [contradiction|].
  simpl in Hmd. apply andb_prop in Hmd as [Hc Hmd].
  change (String c middle ++ "/run/" ++ id ++ tail)
    with (String c (middle ++ "/run/" ++ id ++ tail)).
  unfold greedy_plus at 1. rewrite Hc.
  rewrite (greedy_star_longest dot _ middle ("/run/" ++ id ++ tail)
             (id, (result, tt))).
  - reflexivity.
  - exact Hmd.
  - rewrite literal_append.
    now apply decimal_plus_number.
  - intros g' r' Hne _ Hsplit.
    apply run_later_fails with (x := id ++ tail) (g' := g');
      [|exact Hne | exact Hsplit].
    now rewrite all_chars_append, Htc, (decimal_number_not_r id Hid).
Qed.

Example rpmdiff_match_arabic_indic :
  decimal_number arabic_indic_123
  /\ rpmdiff_match ("http://rpmdiff.example.com/run/" ++ arabic_indic_123)
     = Some ("http://rpmdiff.example.com/run/", arabic_indic_123, None).
Proof.
  split; [|reflexivity].
  apply (number_more (String "217" (String "161" EmptyString)));
    [now split|].
  apply (number_more (String "217" (String "162" EmptyString)));
    [now split|].
  apply number_digit. now split.
Qed.

(* ------------------------------------------------------------------ *)
(** ** An rpmdiff result and the groups of a [results] mapping *)

Example rpmdiff_result_submitted :
  map (fun r => (req_ref_url r, group_ref_urls r))
      (submissions (trace_of (handle_resultsdb_format sample_env
         (resultsdb_message "dist.rpmdiff.comparison.abi_symbols"
            "https://rpmdiff.example.com/run/97881/26"
            (VDict [("item", VStr "setup-2.8.71-7.el7_4");
                    ("type", VStr "koji_build")]))
         world0)))
  = [(VStr "https://rpmdiff.example.com/run/97881/26",
      [Ok (VStr "https://rpmdiff.example.com/run/97881")])].
Proof. reflexivity. Qed.

Section ResultsDBFormat.

Variable env : environment.

Lemma resultsdb_bulk_groups (msg groups : value) :
  forall results,
    spec (resultsdb_bulk env msg groups results)
         (fun r => req_groups r = py_or groups (VList []))
         (fun _ => True).
Proof.
  induction results as [|[testcase result] rest IH]; simpl.
  - now apply spec_ret.
  - apply spec_bind_lift; intros result_data _.
    apply spec_bind_lift; intros result_data' _.
    apply spec_bind_lift; intros outcome _.
    apply spec_bind_lift; intros ref_url _.
    apply spec_bind_lift; intros note _.
    apply spec_bind with (Q1 := fun _ => True).
    + now apply spec_create_result.
    + intros _ _. exact IH.
Qed.

End ResultsDBFormat.

(* ------------------------------------------------------------------ *)
(** ** The theorems at sample messages *)

Example two_subtests_three_submissions :
  map (fun r => (getitem (req_testcase r) "name", req_outcome r))
      (submissions (trace_of (handle_ci_metrics sample_env
                                (ci_metrics_message two_subtests) world0)))
  = [(Ok (VStr "rhivos.kernel-tier1.beaker"), VStr "PASSED");
     (Ok (VStr "rhivos.kernel-tier1.CI-OSP"), VStr "FAILED");
     (Ok (VStr "rhivos.kernel-tier1"), VStr "FAILED")].
Proof. reflexivity. Qed.

Lemma sample_ci_metrics_well_formed (tests : list value) :
  Forall (well_formed_subtest sample_env) tests ->
  ci_metrics_well_formed sample_env (ci_metrics_message tests) tests.
Proof.
  intros H. split.
  - eexists _, _. split; reflexivity.
  - eexists. split; [reflexivity|]. split; [left; discriminate|].
    split; [discriminate|]. split; [eexists; reflexivity|].
    split; [reflexivity|]. split; [left; reflexivity | exact H].
Defined.

Lemma sample_subtest_well_formed (executor : string) (fields : dict) (b : bool) :
  subtest_passed sample_env (subtest executor fields) = Ok b ->
  well_formed_subtest sample_env (subtest executor fields).
Proof. intros H. split; eexists; [reflexivity | exact H]. Defined.

Lemma test_result_outcome_classification_witness :
  getitem (module_message "a:b:c:d") "topic" = Ok (VStr module_topic)
  /\ _test_result_outcome (module_message "a:b:c:d") = Ok (VStr "PASSED").
Proof.
  split; [reflexivity|].
  destruct (test_result_outcome_classification
              (module_message "a:b:c:d") module_topic eq_refl)
    as (_ & _ & _ & H).
  destruct (H eq_refl eq_refl eq_refl _ _ eq_refl eq_refl) as [Hstatus _].
  exact (proj1 (Hstatus "PASS" eq_refl) eq_refl).
Defined.

Lemma verify_topic_and_testcase_name_spec_witness :
  structured_topic module_topic = true
  /\ result_of (verify_topic_and_testcase_name module_topic
                  "baseos-ci.redhat-module.tier1.functional" world0)
     = Ok true
  /\ result_of (verify_topic_and_testcase_name module_topic
                  "osci.redhat-module.tier1.functional" world0)
     = Ok false.
Proof.
  split; [reflexivity|]. split.
  - exact (proj2 (proj1 (verify_topic_and_testcase_name_spec module_topic
                           "baseos-ci.redhat-module.tier1.functional" world0)
                    eq_refl)).
  - exact (proj2 (proj1 (verify_topic_and_testcase_name_spec module_topic
                           "osci.redhat-module.tier1.functional" world0)
                    eq_refl)).
Defined.

Lemma invalid_nsvc_is_skipped_witness :
  let msg := module_message "testmodule-rhel-8" in
  nsvc_match "testmodule-rhel-8" = None
  /\ result_of (handle_ci_umb sample_env msg world0) = Ok (VBool false)
  /\ submissions (trace_of (handle_ci_umb sample_env msg world0)) = [].
Proof.
  cbv zeta. split; [reflexivity|].
  pose proof (invalid_nsvc_is_skipped sample_env
                (module_message "testmodule-rhel-8") world0
                _ _ _ _ _ _ _ _ _ "testmodule-rhel-8"
                eq_refl eq_refl eq_refl eq_refl eq_refl eq_refl eq_refl
                eq_refl eq_refl eq_refl eq_refl (or_introl eq_refl))
    as (Hrun & Hsub & _).
  split; [|exact Hsub]. now rewrite Hrun.
Defined.

Lemma container_image_needs_digest_witness :
  let msg := umb_message container_image_topic
               (container_image_artifact []) [] in
  artifact_type msg = Ok (VStr "container-image")
  /\ artifact_field msg "digest" = Raise KeyError
  /\ result_of (handle_ci_umb sample_env msg world0) = Raise KeyError.
Proof.
  cbv zeta. split; [reflexivity|]. split; [reflexivity|].
  destruct (container_image_needs_digest sample_env
              (umb_message container_image_topic
                 (container_image_artifact []) []) world0 eq_refl eq_refl)
    as (_ & _ & H).
  exact (H _ _ _ _ eq_refl eq_refl eq_refl eq_refl).
Defined.

Lemma filtered_variants_omit_none_witness :
  let msg := umb_message component_version_topic component_version_artifact
               [("recipients", VNone)] in
  artifact_type msg = Ok (VStr "component-version")
  /\ Forall (fun r => none_only_at_recipients (req_data r)
                      /\ getitem (req_data r) "recipients"
                         = recipients_field msg)
            (submissions (trace_of (handle_ci_umb sample_env msg world0))).
Proof.
  cbv zeta. split; [reflexivity|].
  exact (filtered_variants_omit_none sample_env
           (umb_message component_version_topic component_version_artifact
              [("recipients", VNone)])
           world0 (VStr "component-version") eq_refl
           (or_intror (or_introl eq_refl))).
Defined.

Lemma ci_metrics_submissions_witness :
  ci_metrics_well_formed sample_env (ci_metrics_message two_subtests)
    two_subtests
  /\ List.length (submissions (trace_of (handle_ci_metrics sample_env
                     (ci_metrics_message two_subtests) world0))) = 3.
Proof.
  assert (Hwf : ci_metrics_well_formed sample_env
                  (ci_metrics_message two_subtests) two_subtests).
  { apply sample_ci_metrics_well_formed.
    apply Forall_cons;
      [now apply sample_subtest_well_formed with (b := true)|].
    apply Forall_cons;
      [now apply sample_subtest_well_formed with (b := false)|].
    apply Forall_nil. }
  split; [exact Hwf|].
  exact (proj1 (proj2 (ci_metrics_submissions sample_env
                         (ci_metrics_message two_subtests) two_subtests world0
                         (fun _ _ => eq_refl) Hwf))).
Defined.

Lemma subtest_without_failed_key_fails_witness :
  ci_metrics_well_formed sample_env
    (ci_metrics_message subtests_one_without_failed)
    subtests_one_without_failed
  /\ exists agg,
       nth_error (submissions (trace_of (handle_ci_metrics sample_env
                    (ci_metrics_message subtests_one_without_failed) world0)))
                 2
       = Some agg
       /\ req_outcome agg = VStr "FAILED".
Proof.
  assert (Hwf : ci_metrics_well_formed sample_env
                  (ci_metrics_message subtests_one_without_failed)
                  subtests_one_without_failed).
  { apply sample_ci_metrics_well_formed.
    apply Forall_cons;
      [now apply sample_subtest_well_formed with (b := true)|].
    apply Forall_cons;
      [now apply sample_subtest_well_formed with (b := false)|].
    apply Forall_nil. }
  split; [exact Hwf|].
  exact (proj2 (proj2 (proj2 (subtest_without_failed_key_fails sample_env
           (ci_metrics_message subtests_one_without_failed)
           subtests_one_without_failed world0 1
           [("executor", VStr "CI-OSP"); ("arch", VStr "x86_64")]
           (fun _ _ => eq_refl) Hwf eq_refl eq_refl)))).
Defined.

(* ------------------------------------------------------------------ *)
(** ** Beyond the claims: credentials and the publisher *)

(** X1. [get_http_auth] returns the pair of user and password only when both
    are set and the URL is a string that starts with [https://]; with
    neither set it returns [None] whatever the URL is; with just one of them
    set it raises the [RuntimeError] of incomplete credentials whatever the
    URL is; with both set and a URL string of another scheme it raises the
    [RuntimeError] that refuses Basic authentication without HTTPS. *)
Theorem get_http_auth_cases :
  forall (user password url : value),
    (forall auth,
        get_http_auth user password url = inr (Some auth) ->
        auth = (user, password)
        /\ truthy user = true /\ truthy password = true
        /\ exists u, url = VStr u /\ startswith "https://" u = true)
    /\ (truthy user = false -> truthy password = false ->
        get_http_auth user password url = inr None)
    /\ (truthy user <> truthy password ->
        get_http_auth user password url = inl RuntimeError_not_configured)
    /\ (truthy user = true -> truthy password = true ->
        forall u, url = VStr u ->
          get_http_auth user password url
          = if startswith "https://" u then inr (Some (user, password))
            else inl RuntimeError_without_https).
Proof.
  intros user password url. unfold get_http_auth.
  destruct (truthy user), (truthy password); cbn -[startswith];
    (split; [|split; [|split]]); intros; try discriminate; try congruence.
  - destruct url; try discriminate.
    destruct (startswith "https://" s) eqn:E; cbn -[startswith] in *;
      [|discriminate].
    match goal with H : inr _ = inr _ |- _ => injection H as <- end.
    repeat split. now exists s.
  - subst url. now destruct (startswith "https://" u).
Qed.

(** X2. On a mapping [data] and a message whose headers are a mapping,
    [update_publisher_id] succeeds and changes no key but [publisher_id]:
    that key gets the [JMSXUserID] header when the header is there and true
    in a condition, and keeps what it had (or stays absent) when the header
    is missing, [None] or empty. *)
Theorem update_publisher_id_effect :
  forall (msg : value) (headers d : dict),
    getitem msg "headers" = Ok (VDict headers) ->
    exists d',
      update_publisher_id (VDict d) msg = Ok (VDict d')
      /\ (forall k, k <> "publisher_id" -> assoc k d' = assoc k d)
      /\ assoc "publisher_id" d'
         = match assoc "JMSXUserID" headers with
           | Some id => if truthy id then Some id else assoc "publisher_id" d
           | None => assoc "publisher_id" d
           end.
Proof.
  intros msg headers d Hh. unfold update_publisher_id. rewrite Hh. simpl.
  destruct (assoc "JMSXUserID" headers) as [id|]; simpl.
  - destruct (truthy id); simpl.
    + eexists. split; [reflexivity|]. split.
      * intros k Hk. apply assoc_dict_set_other. congruence.
      * apply assoc_dict_set_same.
    + exists d. now repeat split.
  - exists d. now repeat split.
Qed.

(* ------------------------------------------------------------------ *)
(** ** Beyond the claims: what the unified-bus handler submits *)

Lemma verify_topic_and_testcase_name_result (topic name : string) (w : world) :
  result_of (verify_topic_and_testcase_name topic name w)
  = Ok (topic_accepts topic name)
  /\ submissions (trace_of (verify_topic_and_testcase_name topic name w)) = []
  /\ world_of (verify_topic_and_testcase_name topic name w) = w.
Proof.
  unfold verify_topic_and_testcase_name, topic_accepts.
  destruct (namespace_from_topic topic) as [ns|]; [|now repeat split].
  destruct (String.eqb ns EmptyString); [now repeat split|]. simpl.
  destruct (String.eqb (namespace_from_testcase_name name) ns);
    now repeat split.
Qed.

Lemma spec_silent {A} (m : M A) (Q : A -> Prop) :
  spec m (fun _ => False) Q ->
  forall w, submissions (trace_of (m w)) = [].
Proof.
  intros H w. destruct (H w) as [Hs _].
  destruct (submissions (trace_of (m w))); [reflexivity|].
  inversion Hs as [|? ? []].
Qed.

Section UnifiedBusSubmission.

Variable env : environment.

(** The body [umb_submit] hands to [create_result], with all that is known
    when it does *)
Lemma umb_submit_request (msg msg_id msg_body test_run_url outcome groups
  result_data : value) (P : request -> Prop) :
  (forall recipients d1 d2 testcase name topic,
      get_default msg_body "recipients" (VList []) = Ok recipients ->
      setitem result_data "recipients" recipients = Ok d1 ->
      update_publisher_id d1 msg = Ok d2 ->
      _construct_testcase_dict msg_body = Ok testcase ->
      getitem testcase "name" = Ok (VStr name) ->
      getitem msg "topic" = Ok (VStr topic) ->
      topic_accepts topic name = true ->
      P {| req_testcase := testcase;
           req_groups := py_or groups (VList []);
           req_outcome := outcome;
           req_ref_url := test_run_url;
           req_note := VStr EmptyString;
           req_data := d2 |}) ->
  spec (umb_submit env msg msg_id msg_body test_run_url outcome groups
          result_data) P (fun v => v = VNone).
Proof.
  intros HP. unfold umb_submit.
  apply spec_bind_lift; intros recipients Hrec.
  apply spec_bind_lift; intros d1 H1.
  apply spec_bind_lift; intros d2 H2.
  apply spec_bind_lift; intros testcase Htc.
  apply spec_bind_lift; intros name Hname.
  apply spec_bind_lift; intros has_unknown _.
  apply spec_bind with (Q1 := fun _ => True).
  { destruct has_unknown; [now apply spec_log | now apply spec_ret]. }
  intros _ _.
  apply spec_bind_lift; intros topic Htopic.
  destruct topic as [| | |topic| |];
    try (apply spec_bind with (Q1 := fun _ => False);
         [apply spec_raise | intros ? []]).
  destruct name as [| | |name| |];
    try (apply spec_bind with (Q1 := fun _ => False);
         [apply spec_raise | intros ? []]).
  apply spec_bind with (Q1 := fun valid => valid = topic_accepts topic name).
  { intros w.
    destruct (verify_topic_and_testcase_name_result topic name w)
      as (Hr & Hs & _).
    rewrite Hs. split; [constructor|]. intros a Ha. congruence. }
  intros valid ->. destruct (topic_accepts topic name) eqn:Hacc; simpl.
  - apply spec_bind with (Q1 := fun _ => True).
    + apply spec_create_result; [|exact I].
      now apply (HP recipients d1 d2 testcase name topic).
    + intros _ _. now apply spec_ret.
  - now apply spec_ret.
Qed.

(** The submissions of [handle_ci_umb] from the world [w]: the branch on
    the artifact type, then [umb_submit] with the group of the UUID drawn *)
Lemma handle_ci_umb_submissions (msg : value) (w : world)
  (R0 : option value -> Prop) (P : request -> Prop) :
  (forall msg_body system item_type,
      artifact_type msg = Ok item_type ->
      message_body msg = Ok msg_body ->
      message_system msg = Ok system ->
      spec (umb_result_data env msg_body system item_type)
           (fun _ => False) R0) ->
  (forall d msg_id msg_body test_run_url outcome,
      message_body msg = Ok msg_body ->
      run_url msg = Ok test_run_url ->
      _test_result_outcome msg = Ok outcome ->
      R0 (Some d) ->
      spec (umb_submit env msg msg_id msg_body test_run_url outcome
              (VList [VDict [("uuid", VStr (uuid4 env (uuids_drawn w)));
                             ("url", test_run_url)]]) d)
           P (fun _ => True)) ->
  Forall P (submissions (trace_of (handle_ci_umb env msg w))).
Proof.
  intros Hbranch Hsubmit. unfold handle_ci_umb.
  destruct (getitem msg "headers") as [headers|e] eqn:Hh;
    [rewrite (bind_lift_ok _ _ _ _ eq_refl)
    |rewrite (bind_lift_raise _ _ _ _ eq_refl); constructor].
  destruct (getitem headers "message-id") as [msg_id|e] eqn:Hid;
    [rewrite (bind_lift_ok _ _ _ _ eq_refl)
    |rewrite (bind_lift_raise _ _ _ _ eq_refl); constructor].
  destruct (getitem msg "body") as [body|e] eqn:Hb;
    [rewrite (bind_lift_ok _ _ _ _ eq_refl)
    |rewrite (bind_lift_raise _ _ _ _ eq_refl); constructor].
  destruct (getitem body "msg") as [msg_body|e] eqn:Hm;
    [rewrite (bind_lift_ok _ _ _ _ eq_refl)
    |rewrite (bind_lift_raise _ _ _ _ eq_refl); constructor].
  destruct (getitem msg_body "artifact") as [artifact|e] eqn:Ha;
    [rewrite (bind_lift_ok _ _ _ _ eq_refl)
    |rewrite (bind_lift_raise _ _ _ _ eq_refl); constructor].
  destruct (getitem artifact "type") as [item_type|e] eqn:Ht;
    [rewrite (bind_lift_ok _ _ _ _ eq_refl)
    |rewrite (bind_lift_raise _ _ _ _ eq_refl); constructor].
  destruct (getitem msg_body "run") as [run|e] eqn:Hr;
    [rewrite (bind_lift_ok _ _ _ _ eq_refl)
    |rewrite (bind_lift_raise _ _ _ _ eq_refl); constructor].
  destruct (getitem run "url") as [test_run_url|e] eqn:Hu;
    [rewrite (bind_lift_ok _ _ _ _ eq_refl)
    |rewrite (bind_lift_raise _ _ _ _ eq_refl); constructor].
  destruct (_test_result_outcome msg) as [outcome|e] eqn:Ho;
    [rewrite (bind_lift_ok _ _ _ _ eq_refl)
    |rewrite (bind_lift_raise _ _ _ _ eq_refl); constructor].
  rewrite bind_gen_uuid.
  assert (Hbody : message_body msg = Ok msg_body).
  { unfold message_body. rewrite Hb. exact Hm. }
  assert (Hurl : run_url msg = Ok test_run_url).
  { unfold run_url. rewrite Hb. simpl. rewrite Hm. simpl. rewrite Hr.
    exact Hu. }
  assert (Htype : artifact_type msg = Ok item_type).
  { unfold artifact_type. rewrite Hb. simpl. rewrite Hm. simpl. rewrite Ha.
    exact Ht. }
  match goal with
  | |- Forall P (submissions (trace_of (?m ?w1))) =>
      enough (Hspec : spec m P (fun _ => True)) by exact (proj1 (Hspec w1))
  end.
  apply spec_bind_lift; intros system Hs.
  apply spec_bind with (Q1 := R0).
  - eapply spec_weaken;
      [apply Hbranch; [exact Htype | exact Hbody|] | intros r [] | auto].
    unfold message_system. rewrite Hbody. simpl. now rewrite Hs.
  - intros [d|] H0; [|now apply spec_ret].
    now apply Hsubmit.
Qed.

End UnifiedBusSubmission.

Lemma submits_last_bind_silent {A B} (m : M A) (f : A -> M B) (w : world) :
  submissions (trace_of (m w)) = [] ->
  (forall a w1, submits_last (f a) w1) ->
  submits_last (bind m f) w.
Proof.
  intros Hm Hf. unfold submits_last, bind, trace_of, result_of in *.
  destruct (m w) as [[r w1] t1]. simpl in Hm.
  destruct r as [a|e]; [|now left].
  specialize (Hf a w1). destruct (f a w1) as [[r2 w2] t2]. simpl in *.
  now rewrite submissions_app, Hm.
Qed.

Lemma submits_last_silent {A} (m : M A) (w : world) :
  submissions (trace_of (m w)) = [] -> submits_last m w.
Proof. intros H. now left. Qed.

Lemma structured_topic_namespace (topic : string) :
  structured_topic topic = true ->
  namespace_from_topic topic = Some (nth 3 (split "." topic) EmptyString).
Proof.
  unfold structured_topic, namespace_from_topic.
  destruct (startswith topic_prefix topic); [simpl|discriminate].
  now intros ->.
Qed.

Section UnifiedBusExtras.

Variable env : environment.

(** X3. From any world and for any message, [handle_ci_umb] submits at most
    one result, and the submission is its last step: after it the handler
    returns, or raises the [HTTPError] of the rejected submission. Every
    other exception (a missing field, a value of the wrong type) is raised
    before anything is submitted. *)
Theorem handle_ci_umb_submits_last (msg : value) (w : world) :
  submits_last (handle_ci_umb env msg) w.
Proof.
  unfold handle_ci_umb.
  do 9 (apply submits_last_bind_silent; [reflexivity | intros ? ?]).
  apply submits_last_bind_silent; [reflexivity | intros uuid ?].
  apply submits_last_bind_silent; [reflexivity | intros system ?].
  apply submits_last_bind_silent.
  { eapply spec_silent. apply umb_result_data_item_and_type. }
  intros [result_data|] w'; [|now apply submits_last_silent].
  unfold umb_submit.
  do 6 (apply submits_last_bind_silent; [reflexivity | intros ? ?]).
  apply submits_last_bind_silent.
  { match goal with |- context [if ?c then _ else _] => destruct c end;
      reflexivity. }
  intros _ ?.
  apply submits_last_bind_silent; [reflexivity | intros topic ?].
  apply submits_last_bind_silent.
  { destruct topic; try reflexivity.
    match goal with |- context [match ?n with VStr _ => _ | _ => _ end] =>
      destruct n end; try reflexivity.
    apply verify_topic_and_testcase_name_result. }
  intros valid wv. destruct (negb valid); [now apply submits_last_silent|].
  unfold submits_last, bind, create_result, ret, trace_of, result_of. simpl.
  destruct (post_ok env (requests_sent wv) _); simpl; right;
    (eexists; split; [reflexivity|]); eauto.
Qed.

(** X4. When the topic of a message is structured and its namespace
    component is not empty, every result [handle_ci_umb] submits is for a
    test case whose name starts with that namespace: a message whose test
    case namespace differs from the topic's is never submitted. *)
Theorem structured_topic_gates_submission (msg : value) (w : world)
  (topic : string) :
  getitem msg "topic" = Ok (VStr topic) ->
  structured_topic topic = true ->
  nth 3 (split "." topic) EmptyString <> EmptyString ->
  Forall (fun r => exists name,
                     getitem (req_testcase r) "name" = Ok (VStr name)
                     /\ namespace_from_testcase_name name
                        = nth 3 (split "." topic) EmptyString)
         (submissions (trace_of (handle_ci_umb env msg w))).
Proof.
  intros Htopic Hstructured Hns.
  apply handle_ci_umb_submissions with (R0 := fun _ => True).
  - intros msg_body system item_type _ _ _.
    eapply spec_weaken; [apply umb_result_data_item_and_type | auto | auto].
  - intros d msg_id msg_body test_run_url outcome _ _ _ _.
    eapply spec_weaken; [apply umb_submit_request | intros r H; exact H | auto].
    intros recipients d1 d2 testcase name topic' _ _ _ _ Hname Htopic' Hacc.
    simpl. exists name. split; [exact Hname|].
    rewrite Htopic in Htopic'. injection Htopic' as <-.
    unfold topic_accepts in Hacc.
    rewrite (structured_topic_namespace topic Hstructured) in Hacc.
    destruct (String.eqb_spec (nth 3 (split "." topic) EmptyString)
                EmptyString); [contradiction|].
    simpl in Hacc. now apply String.eqb_eq.
Qed.

(** X5. Every result [handle_ci_umb] submits carries the outcome
    [_test_result_outcome] gives the message, [body.msg.run.url] as its
    [ref_url], an empty note, the test case [_construct_testcase_dict]
    builds from [body.msg], and exactly one group: the UUID drawn in this
    run together with the run URL under the key [url]. *)
Theorem umb_submission_envelope (msg : value) (w : world) :
  Forall (fun r =>
            Ok (req_outcome r) = _test_result_outcome msg
            /\ Ok (req_ref_url r) = run_url msg
            /\ req_note r = VStr EmptyString
            /\ Ok (req_testcase r) = umb_testcase msg
            /\ req_groups r
               = VList [VDict [("uuid", VStr (uuid4 env (uuids_drawn w)));
                               ("url", req_ref_url r)]])
         (submissions (trace_of (handle_ci_umb env msg w))).
Proof.
  apply handle_ci_umb_submissions with (R0 := fun _ => True).
  - intros msg_body system item_type _ _ _.
    eapply spec_weaken; [apply umb_result_data_item_and_type | auto | auto].
  - intros d msg_id msg_body test_run_url outcome Hbody Hurl Hout _.
    eapply spec_weaken; [apply umb_submit_request | intros r H; exact H | auto].
    intros recipients d1 d2 testcase name topic _ _ _ Htc _ _ _.
    simpl. unfold umb_testcase. rewrite Hbody. simpl.
    now repeat split.
Qed.

End UnifiedBusExtras.

Lemma fold_keep_absent (k : string) (pairs d : dict) :
  existsb (String.eqb k) (map fst pairs) = false ->
  assoc k d = None ->
  assoc k (fold_left keep_not_none pairs d) = None.
Proof.
  revert d. induction pairs as [|[k0 v0] pairs IH]; intros d Hk Hd; simpl.
  - exact Hd.
  - simpl in Hk. apply orb_false_elim in Hk as [Hk0 Hk].
    apply IH; [exact Hk|]. unfold keep_not_none. simpl.
    assert (Hne : k0 <> k).
    { intros ->. now rewrite String.eqb_refl in Hk0. }
    destruct v0; try exact Hd; now rewrite assoc_dict_set_other.
Qed.

Lemma without_none_absent (k : string) (pairs : dict) :
  existsb (String.eqb k) (map fst pairs) = false ->
  assoc k (without_none pairs) = None.
Proof.
  intros H. rewrite without_none_fold. now apply fold_keep_absent.
Qed.

Section UnifiedBusData.

Variable env : environment.

(** No branch puts a publisher into [result_data]. *)
Lemma umb_result_data_no_publisher_id (msg_body system item_type : value) :
  spec (umb_result_data env msg_body system item_type)
       (fun _ => False)
       (fun built => forall d, built = Some d ->
                      exists dd, d = VDict dd
                                 /\ assoc "publisher_id" dd = None).
Proof.
  unfold umb_result_data.
  destruct (eq_str item_type "productmd-compose") eqn:E1;
    [|destruct (eq_str item_type "component-version") eqn:E2;
      [|destruct (eq_str item_type "container-image") eqn:E3;
        [|destruct (eq_str item_type "redhat-module") eqn:E4]]].
  1-3: apply spec_lift; intros built H; res_steps H; injection H as <-;
       match goal with
       | E : ?f = Ok _ |- _ =>
           unfold productmd_compose_data, component_version_data,
             container_image_data in E;
           res_steps E; injection E as <-
       end;
       intros d [= <-]; eexists; split; [reflexivity|];
       now apply without_none_absent.
  - unfold redhat_module_data.
    apply spec_bind_lift; intros ci _.
    apply spec_bind_lift; intros artifact _.
    apply spec_bind_lift; intros nsvc_field _.
    destruct nsvc_field; try apply spec_raise.
    destruct (nsvc_match s) as [[[[name stream] version] context]|].
    + apply spec_lift. intros built H. res_steps H. injection H as <-.
      intros d [= <-]. eexists. split; reflexivity.
    + apply spec_bind_log. now apply spec_ret.
  - apply spec_lift. intros built H. res_steps H. injection H as <-.
    unfold default_data in E. res_steps E. injection E as <-.
    intros d [= <-]. eexists. split; reflexivity.
Qed.

(** X6. Whatever the artifact variant, the [result_data] of a result
    [handle_ci_umb] submits has under [recipients] the recipients of the
    message (the empty list when the message names none), and it has a
    [publisher_id] exactly when the [JMSXUserID] header is there and not
    empty: then it is that header. *)
Theorem umb_recipients_and_publisher (msg : value) (w : world) :
  Forall (fun r =>
            getitem (req_data r) "recipients" = recipients_field msg
            /\ exists id,
                 publisher_header msg = Ok id
                 /\ getitem (req_data r) "publisher_id"
                    = if truthy id then Ok id else Raise KeyError)
         (submissions (trace_of (handle_ci_umb env msg w))).
Proof.
  apply handle_ci_umb_submissions
    with (R0 := fun built => forall d, built = Some d ->
                  exists dd, d = VDict dd /\ assoc "publisher_id" dd = None).
  - intros. apply umb_result_data_no_publisher_id.
  - intros d msg_id msg_body test_run_url outcome Hbody _ _ Hd.
    destruct (Hd d eq_refl) as (dd & -> & Hnone).
    eapply spec_weaken; [apply umb_submit_request | intros r H; exact H | auto].
    intros recipients d1 d2 testcase name topic Hrec H1 H2 _ _ _ _. simpl.
    simpl in H1. injection H1 as <-.
    unfold recipients_field. rewrite Hbody. simpl res_bind. rewrite Hrec.
    unfold update_publisher_id in H2. unfold publisher_header.
    destruct (getitem msg "headers") as [headers|]; [simpl in *|discriminate].
    destruct (get headers "JMSXUserID") as [id|]; [simpl in *|discriminate].
    destruct (truthy id) eqn:Hid.
    + injection H2 as <-. simpl. split.
      * rewrite assoc_dict_set_other by discriminate.
        now rewrite assoc_dict_set_same.
      * exists id. rewrite Hid. split; [reflexivity|].
        now rewrite assoc_dict_set_same.
    + injection H2 as <-. simpl. split.
      * now rewrite assoc_dict_set_same.
      * exists id. rewrite Hid. split; [reflexivity|].
        rewrite assoc_dict_set_other by discriminate. now rewrite Hnone.
Qed.

End UnifiedBusData.

Lemma artifact_field_of_body (msg msg_body : value) (k : string) :
  message_body msg = Ok msg_body ->
  artifact_field msg k
  = (artifact <~ getitem msg_body "artifact" ;; getitem artifact k).
Proof.
  unfold message_body, artifact_field.
  destruct (getitem msg "body") as [body|]; [simpl|discriminate].
  now intros ->.
Qed.

Lemma umb_data_keeps_key (k : string) (recipients d d1 d2 msg : value) :
  k <> "recipients" -> k <> "publisher_id" ->
  setitem d "recipients" recipients = Ok d1 ->
  update_publisher_id d1 msg = Ok d2 ->
  getitem d2 k = getitem d k.
Proof.
  intros Hr Hp H1 H2.
  rewrite (getitem_update_publisher_id k d1 d2 msg Hp H2).
  apply (getitem_setitem_other "recipients" k recipients d d1); congruence.
Qed.

Section DefaultVariant.

Variable env : environment.

(** X7. For a message whose artifact type is none of productmd-compose,
    component-version, container-image and redhat-module, every result
    submitted has the item [artifact.nvr], a boolean [scratch] and a type
    that tells scratch builds apart: the flag is [artifact.scratch] when it
    is a boolean, whether its lower case is [true] when it is a string, and
    false when it is missing; the type is the artifact type, followed by
    [_scratch] when the flag is set. *)
Theorem default_variant_scratch (msg : value) (w : world) (item_type : string) :
  artifact_type msg = Ok (VStr item_type) ->
  named_variant item_type = false ->
  Forall (fun r =>
            exists flag,
              scratch_flag (artifact_field msg "scratch") flag
              /\ getitem (req_data r) "scratch" = Ok (VBool flag)
              /\ getitem (req_data r) "type"
                 = Ok (VStr (if flag then item_type ++ "_scratch"
                             else item_type))
              /\ getitem (req_data r) "item" = artifact_field msg "nvr")
         (submissions (trace_of (handle_ci_umb env msg w))).
Proof.
  intros Htype Hvariant.
  unfold named_variant in Hvariant.
  apply orb_false_elim in Hvariant as [V1 Hvariant].
  apply orb_false_elim in Hvariant as [V2 Hvariant].
  apply orb_false_elim in Hvariant as [V3 V4].
  set (good := fun d : value =>
         exists flag,
           scratch_flag (artifact_field msg "scratch") flag
           /\ getitem d "scratch" = Ok (VBool flag)
           /\ getitem d "type"
              = Ok (VStr (if flag then item_type ++ "_scratch"
                          else item_type))
           /\ getitem d "item" = artifact_field msg "nvr").
  apply handle_ci_umb_submissions
    with (R0 := fun built => forall d, built = Some d -> good d).
  - intros msg_body system item_type' Htype' Hbody _.
    rewrite Htype in Htype'. injection Htype' as <-.
    unfold umb_result_data. simpl eq_str. rewrite V1, V2, V3, V4.
    apply spec_lift. intros built H.
    destruct (default_data msg_body system (VStr item_type)) as [d|] eqn:E;
      [simpl in H|discriminate].
    injection H as <-. intros d' [= <-].
    unfold default_data in E.
    destruct (getitem msg_body "ci") as [ci|]; [simpl in E|discriminate].
    destruct (getitem msg_body "artifact") as [artifact|] eqn:Ea;
      [simpl in E|discriminate].
    destruct (getitem artifact "nvr") as [nvr|] eqn:Envr;
      [simpl in E|discriminate].
    destruct (getitem artifact "component") as [component|];
      [simpl in E|discriminate].
    destruct (getitem_is_dict _ _ _ Envr) as [ad ->].
    unfold good. rewrite !(artifact_field_of_body msg msg_body _ Hbody), Ea.
    cbn [res_bind]. rewrite Envr. cbn [getitem]. simpl in E.
    assert (Hflag : forall (flag : bool) (rest : value -> res value),
              (item_type0 <~ (if flag
                              then iadd_str (VStr item_type) "_scratch"
                              else Ok (VStr item_type)) ;; rest item_type0)
              = Ok d ->
              rest (VStr (if flag then item_type ++ "_scratch"
                          else item_type)) = Ok d).
    { intros [|] rest; simpl; auto. }
    destruct (assoc "scratch" ad) as [scratch|] eqn:Es; simpl in E;
      match type of E with
      | res_bind ?r _ = _ =>
          destruct r as [brew_task_id|] eqn:Eid; [simpl in E|discriminate E]
      end.
    + destruct scratch as [|flag| |s| |]; simpl in E; try discriminate.
      * exists flag. split; [right; left; reflexivity|].
        apply Hflag in E. res_steps E. injection E as <-.
        now repeat split.
      * exists (String.eqb (lower s) "true").
        split; [right; right; now exists s|].
        apply Hflag in E. res_steps E. injection E as <-.
        now repeat split.
    + exists false. split; [left; now split|].
      res_steps E. injection E as <-. now repeat split.
  - intros d msg_id msg_body test_run_url outcome _ _ _ Hd.
    specialize (Hd d eq_refl).
    eapply spec_weaken; [apply umb_submit_request | intros r H; exact H | auto].
    intros recipients d1 d2 testcase name topic _ H1 H2 _ _ _ _. simpl.
    destruct Hd as (flag & Hf & Hs & Ht & Hi). exists flag.
    rewrite !(umb_data_keeps_key _ recipients d d1 d2 msg) by easy.
    now repeat split.
Qed.

End DefaultVariant.

(* ------------------------------------------------------------------ *)
(** ** Beyond the claims: messages in ResultsDB format *)

Lemma bind_create_result {B} env testcase outcome ref_url data groups note
  (f : unit -> M B) (w : world) :
  let r := {| req_testcase := testcase;
              req_groups := py_or groups (VList []);
              req_outcome := outcome;
              req_ref_url := ref_url;
              req_note := py_or note (VStr EmptyString);
              req_data := data |} in
  let w1 := {| uuids_drawn := uuids_drawn w;
               requests_sent := S (requests_sent w) |} in
  bind (create_result env testcase outcome ref_url data groups note) f w
  = if post_ok env (requests_sent w) r
    then (result_of (f tt w1), world_of (f tt w1), Submit r :: trace_of (f tt w1))
    else (Raise HTTPError, w1, [Submit r]).
Proof.
  cbv zeta. unfold bind, create_result.
  destruct (post_ok env (requests_sent w) _); [|reflexivity].
  now destruct (f tt _) as [[r' w'] t'].
Qed.

Lemma group_ref_url_step (name ref_url group_url : string) :
  group_ref_url_of name ref_url = Some group_url ->
  (is_rpmdiff <~ str_method (VStr name) (startswith "dist.rpmdiff") ;;
   if is_rpmdiff then rpmdiff_group_ref_url (VStr ref_url)
   else Ok (VStr ref_url))
  = Ok (VStr group_url).
Proof.
  unfold group_ref_url_of, rpmdiff_group_ref_url. cbn [str_method res_bind].
  destruct (startswith "dist.rpmdiff" name).
  - destruct (rpmdiff_match ref_url) as [[[url_prefix run] result]|];
      [|discriminate].
    now intros [= <-].
  - now intros [= <-].
Qed.

Lemma well_formed_result_steps (msg result : value) (headers : dict) :
  getitem msg "headers" = Ok (VDict headers) ->
  well_formed_result result ->
  exists d d' outcome ref_url note,
    get_default result "data" (VDict []) = Ok (VDict d)
    /\ update_publisher_id (VDict d) msg = Ok (VDict d')
    /\ getitem result "outcome" = Ok outcome
    /\ get_default result "ref_url" (VStr EmptyString) = Ok ref_url
    /\ get_default result "note" (VStr EmptyString) = Ok note.
Proof.
  intros Hh (fields & -> & Hout & Hdata).
  assert (Hd : exists d, get_default (VDict fields) "data" (VDict [])
                         = Ok (VDict d)).
  { simpl. destruct Hdata as [->|[d ->]]; eauto. }
  destruct Hd as [d Hd].
  destruct (update_publisher_id_dict msg headers d Hh) as [d' Hd'].
  destruct (assoc "outcome" fields) as [outcome|] eqn:Eo; [|contradiction].
  destruct (get_default_dict fields "ref_url" (VStr EmptyString))
    as [ref_url Hr].
  destruct (get_default_dict fields "note" (VStr EmptyString)) as [note Hn].
  exists d, d', outcome, ref_url, note. repeat split; try assumption.
  simpl. now rewrite Eo.
Qed.

Section ResultsDBExtras.

Variable env : environment.

Lemma resultsdb_bulk_runs (msg groups : value) (headers : dict) :
  (forall n r, post_ok env n r = true) ->
  getitem msg "headers" = Ok (VDict headers) ->
  truthy groups = true ->
  forall results w,
    Forall (fun entry => well_formed_result (snd entry)) results ->
    runs (resultsdb_bulk env msg groups results) w
         (fun _ w' subs =>
            uuids_drawn w' = uuids_drawn w
            /\ Forall2 (bulk_submission groups) results subs).
Proof.
  intros Hpost Hh Hg.
  induction results as [|[testcase result] rest IH]; intros w Hwf; simpl.
  - apply runs_ret. split; [reflexivity | constructor].
  - inversion Hwf as [|? ? Hres Hrest]; subst. simpl in Hres.
    destruct (well_formed_result_steps msg result headers Hh Hres)
      as (d & d' & outcome & ref_url & note & Hd & Hd' & Ho & Hr & Hn).
    apply runs_bind_lift with (1 := Hd).
    apply runs_bind_lift with (1 := Hd').
    apply runs_bind_lift with (1 := Ho).
    apply runs_bind_lift with (1 := Hr).
    apply runs_bind_lift with (1 := Hn).
    eapply runs_bind.
    + apply runs_create_result with
        (Q := fun _ w1 s1 =>
                uuids_drawn w1 = uuids_drawn w
                /\ exists r, s1 = [r]
                             /\ bulk_submission groups (testcase, result) r);
        [exact Hpost|].
      split; [reflexivity|]. eexists. split; [reflexivity|].
      unfold bulk_submission. simpl. rewrite Ho, Hr.
      repeat split. unfold py_or. now rewrite Hg.
    + intros [] w1 s1 (Hw1 & r & -> & Hsub).
      eapply runs_weaken; [apply (IH w1 Hrest)|].
      intros _ w' subs (Hw' & Hsubs). simpl. split; [congruence|].
      now constructor.
Qed.

(** From the first rejected submission on, nothing more is sent. *)
Lemma resultsdb_bulk_rejected (msg groups : value) (headers : dict) :
  getitem msg "headers" = Ok (VDict headers) ->
  forall results k w,
    Forall (fun entry => well_formed_result (snd entry)) results ->
    k < List.length results ->
    (forall i r, i < k -> post_ok env (requests_sent w + i) r = true) ->
    (forall r, post_ok env (requests_sent w + k) r = false) ->
    result_of (resultsdb_bulk env msg groups results w) = Raise HTTPError
    /\ List.length (submissions
                      (trace_of (resultsdb_bulk env msg groups results w)))
       = S k.
Proof.
  intros Hh.
  induction results as [|[testcase result] rest IH];
    intros k w Hwf Hk Hbefore Hat; simpl in Hk; [lia|].
  inversion Hwf as [|? ? Hres Hrest]; subst. simpl in Hres.
  destruct (well_formed_result_steps msg result headers Hh Hres)
    as (d & d' & outcome & ref_url & note & Hd & Hd' & Ho & Hr & Hn).
  simpl resultsdb_bulk.
  rewrite (bind_lift_ok _ _ _ _ Hd), (bind_lift_ok _ _ _ _ Hd'),
    (bind_lift_ok _ _ _ _ Ho), (bind_lift_ok _ _ _ _ Hr),
    (bind_lift_ok _ _ _ _ Hn), bind_create_result.
  destruct k as [|k].
  - rewrite Nat.add_0_r in Hat. rewrite Hat. now split.
  - assert (H0 : forall r, post_ok env (requests_sent w) r = true).
    { intros r. rewrite <- (Nat.add_0_r (requests_sent w)).
      apply Hbefore. lia. }
    rewrite H0.
    match goal with
    | |- context [resultsdb_bulk env msg groups rest ?w1] =>
        destruct (IH k w1 Hrest) as [Hres' Hlen]
    end.
    + lia.
    + intros i r Hi. simpl. rewrite <- Nat.add_succ_r. apply Hbefore. lia.
    + intros r. simpl. rewrite <- Nat.add_succ_r. apply Hat.
    + split.
      * unfold result_of at 1. cbn [fst]. exact Hres'.
      * unfold trace_of at 1. cbn [snd submissions List.length].
        now rewrite Hlen.
Qed.

(** With a [results] mapping the handler draws a UUID and runs the loop
    over the entries under the one group of that UUID. *)
Lemma handle_resultsdb_format_bulk (msg : value) (results : dict)
  (group_url : string) (w : world) :
  bulk_message msg results group_url ->
  handle_resultsdb_format env msg w
  = resultsdb_bulk env msg
      (VList [VDict [("uuid", VStr (uuid4 env (uuids_drawn w)));
                     ("ref_url", VStr group_url)]])
      results
      {| uuids_drawn := S (uuids_drawn w); requests_sent := requests_sent w |}.
Proof.
  intros (_ & fields & name & ref_url & Hbody & Href & Hname & Hgroup
          & Hresults & Hne & _).
  unfold resultsdb_testcase_name in Hname. rewrite Hbody in Hname.
  cbn [res_bind] in Hname.
  unfold message_body in Hbody.
  destruct (getitem msg "body") as [body|] eqn:Hb; simpl in Hbody;
    [|discriminate].
  destruct (get_default (VDict fields) "testcase" (VDict []))
    as [testcase|] eqn:Ht; cbn [res_bind] in Hname; [|discriminate].
  unfold handle_resultsdb_format.
  rewrite (bind_lift_ok _ _ _ _ Hb), (bind_lift_ok _ _ _ _ Hbody).
  rewrite (bind_lift_ok _ (VStr ref_url))
    by (simpl; now rewrite Href).
  rewrite (bind_lift_ok _ _ _ _ Ht), (bind_lift_ok _ _ _ _ Hname).
  pose proof (group_ref_url_step name ref_url group_url Hgroup) as Hstep.
  cbn [str_method res_bind] in Hstep. cbn [str_method].
  rewrite (bind_lift_ok _ (startswith "dist.rpmdiff" name)) by reflexivity.
  rewrite (bind_lift_ok _ _ _ _ Hstep).
  rewrite (bind_lift_ok _ (VDict results))
    by (unfold get; simpl; now rewrite Hresults).
  destruct results as [|entry results]; [contradiction|].
  cbn [truthy]. rewrite bind_gen_uuid.
  now rewrite (bind_lift_ok _ (entry :: results)) by reflexivity.
Qed.

(** X10. For a message in ResultsDB format with a non-empty [results]
    mapping of [n] well-formed entries, when ResultsDB accepts every
    submission, the handler returns after exactly [n] submissions, one for
    each entry in the order of the mapping: the test case is the key of the
    entry, the outcome and the [ref_url] are the entry's. It draws exactly
    one UUID, and all submissions name the same single group of that UUID
    and the group URL. *)
Theorem bulk_results_share_one_group (msg : value) (results : dict)
  (group_url : string) (w : world) :
  (forall n r, post_ok env n r = true) ->
  bulk_message msg results group_url ->
  result_of (handle_resultsdb_format env msg w) = Ok tt
  /\ uuids_drawn (world_of (handle_resultsdb_format env msg w))
     = S (uuids_drawn w)
  /\ List.length (submissions (trace_of (handle_resultsdb_format env msg w)))
     = List.length results
  /\ Forall2 (bulk_submission
                (VList [VDict [("uuid", VStr (uuid4 env (uuids_drawn w)));
                               ("ref_url", VStr group_url)]]))
             results
             (submissions (trace_of (handle_resultsdb_format env msg w))).
Proof.
  intros Hpost Hmsg.
  rewrite (handle_resultsdb_format_bulk msg results group_url w Hmsg).
  destruct Hmsg as ((headers & Hh) & fields & name & ref_url & _ & _ & _ & _
                    & _ & _ & Hwf).
  destruct (resultsdb_bulk_runs msg
              (VList [VDict [("uuid", VStr (uuid4 env (uuids_drawn w)));
                             ("ref_url", VStr group_url)]])
              headers Hpost Hh eq_refl results
              {| uuids_drawn := S (uuids_drawn w);
                 requests_sent := requests_sent w |} Hwf)
    as ([] & w' & t & Hrun & Hw' & Hsubs).
  rewrite Hrun. unfold result_of, world_of, trace_of. simpl.
  split; [reflexivity|]. split; [exact Hw'|].
  split; [symmetry; exact (Forall2_length Hsubs) | exact Hsubs].
Qed.

(** X13. For such a message, when ResultsDB accepts the first [k]
    submissions of the run and rejects the next one, the handler raises
    [HTTPError] after exactly [k + 1] submissions: the entries after the
    rejected one are not submitted, and what was submitted before is not
    taken back. *)
Theorem bulk_stops_at_rejected_submission (msg : value) (results : dict)
  (group_url : string) (w : world) (k : nat) :
  bulk_message msg results group_url ->
  k < List.length results ->
  (forall i r, i < k -> post_ok env (requests_sent w + i) r = true) ->
  (forall r, post_ok env (requests_sent w + k) r = false) ->
  result_of (handle_resultsdb_format env msg w) = Raise HTTPError
  /\ List.length (submissions (trace_of (handle_resultsdb_format env msg w)))
     = S k.
Proof.
  intros Hmsg Hk Hbefore Hat.
  rewrite (handle_resultsdb_format_bulk msg results group_url w Hmsg).
  destruct Hmsg as ((headers & Hh) & fields & name & ref_url & _ & _ & _ & _
                    & _ & _ & Hwf).
  now apply resultsdb_bulk_rejected with (headers := headers).
Qed.

End ResultsDBExtras.

Lemma bind_get_first_group {B} env (description : value) (f : value -> M B)
  (w : world) (found : list value) :
  groups_found env (requests_sent w) (fmt env description) = Ok found ->
  let w1 := {| uuids_drawn := uuids_drawn w;
               requests_sent := S (requests_sent w) |} in
  bind (get_first_group env description) f w
  = (result_of (f (first_group found) w1),
     world_of (f (first_group found) w1),
     GroupQuery (fmt env description) :: trace_of (f (first_group found) w1)).
Proof.
  intros Hfound. cbv zeta. unfold bind, get_first_group. rewrite Hfound.
  destruct found as [|g found]; simpl;
    now destruct (f _ _) as [[r' w'] t'].
Qed.

Section SingleResult.

Variable env : environment.

(** With one result the handler asks for the group, draws a UUID and
    submits the [data] of the message after [update_publisher_id]. *)
Lemma handle_resultsdb_format_single (msg testcase outcome : value)
  (ref_url group_url : string) (w : world) (found : list value)
  (group : dict) :
  single_message msg testcase outcome ref_url group_url ->
  groups_found env (requests_sent w) group_url = Ok found ->
  first_group found = VDict group ->
  (forall r, post_ok env (S (requests_sent w)) r = true) ->
  exists d data note,
    resultsdb_data_field msg = Ok (VDict d)
    /\ update_publisher_id (VDict d) msg = Ok data
    /\ handle_resultsdb_format env msg w
       = (Ok tt,
          {| uuids_drawn := S (uuids_drawn w);
             requests_sent := S (S (requests_sent w)) |},
          [GroupQuery group_url;
           Submit {| req_testcase := testcase;
                     req_groups :=
                       VList [VDict
                         [("uuid", match assoc "uuid" group with
                                   | Some uuid => uuid
                                   | None => VStr (uuid4 env (uuids_drawn w))
                                   end);
                          ("ref_url", VStr group_url);
                          ("description", VStr group_url)]];
                     req_outcome := outcome;
                     req_ref_url := VStr ref_url;
                     req_note := note;
                     req_data := data |}]).
Proof.
  intros ((headers & Hh) & fields & name & Hbody & Href & Htestcase & Hname
          & Hgroup & Hresults & Houtcome & d & Hdata) Hfound Hfirst Hpost.
  destruct (update_publisher_id_dict msg headers d Hh) as [d' Hd'].
  destruct (get_default_dict fields "note" (VStr EmptyString)) as [note Hnote].
  exists d, (VDict d'), (py_or note (VStr EmptyString)).
  split.
  { unfold resultsdb_data_field. rewrite Hbody. simpl. now rewrite Hdata. }
  split; [exact Hd'|].
  unfold message_body in Hbody.
  destruct (getitem msg "body") as [body|] eqn:Hb; simpl in Hbody;
    [|discriminate].
  unfold handle_resultsdb_format.
  rewrite (bind_lift_ok _ _ _ _ Hb), (bind_lift_ok _ _ _ _ Hbody).
  rewrite (bind_lift_ok _ (VStr ref_url)) by (simpl; now rewrite Href).
  rewrite (bind_lift_ok _ testcase) by (simpl; now rewrite Htestcase).
  rewrite (bind_lift_ok _ _ _ _ Hname).
  pose proof (group_ref_url_step name ref_url group_url Hgroup) as Hstep.
  cbn [str_method res_bind] in Hstep. cbn [str_method].
  rewrite (bind_lift_ok _ (startswith "dist.rpmdiff" name)) by reflexivity.
  rewrite (bind_lift_ok _ _ _ _ Hstep).
  assert (Hres : exists results,
             get (VDict fields) "results" = Ok results
             /\ truthy results = false).
  { unfold get. simpl. destruct (assoc "results" fields); eauto. }
  destruct Hres as (results & Hres & Hfalse).
  rewrite (bind_lift_ok _ _ _ _ Hres), Hfalse.
  rewrite (bind_get_first_group env (VStr group_url) _ w found Hfound).
  rewrite Hfirst. rewrite bind_gen_uuid.
  rewrite (bind_lift_ok _ (match assoc "uuid" group with
                           | Some uuid => uuid
                           | None => VStr (uuid4 env (uuids_drawn w))
                           end))
    by (simpl; now destruct (assoc "uuid" group)).
  rewrite (bind_lift_ok _ (VDict d)) by (simpl; now rewrite Hdata).
  rewrite (bind_lift_ok _ _ _ _ Hd').
  rewrite (bind_lift_ok _ testcase) by (simpl; now rewrite Htestcase).
  rewrite (bind_lift_ok _ outcome) by (simpl; now rewrite Houtcome).
  rewrite (bind_lift_ok _ (VStr ref_url)) by (simpl; now rewrite Href).
  rewrite (bind_lift_ok _ _ _ _ Hnote).
  unfold create_result, result_of, world_of, trace_of. simpl.
  now rewrite Hpost.
Qed.

(** X11. For a message in ResultsDB format with one result, the handler
    first asks ResultsDB for the groups described by the group URL and then
    submits once. The group of the submission has the group URL as
    [ref_url] and as [description]; its UUID is the [uuid] of the first
    group found, and the UUID drawn in this run when no group was found or
    the first one has no [uuid]. A UUID is drawn in either case. The
    submission keeps the test case, the outcome and the [ref_url] of the
    message. *)
Theorem single_result_reuses_found_group (msg testcase outcome : value)
  (ref_url group_url : string) (w : world) (found : list value)
  (group : dict) :
  single_message msg testcase outcome ref_url group_url ->
  groups_found env (requests_sent w) group_url = Ok found ->
  first_group found = VDict group ->
  (forall r, post_ok env (S (requests_sent w)) r = true) ->
  exists data note,
    handle_resultsdb_format env msg w
    = (Ok tt,
       {| uuids_drawn := S (uuids_drawn w);
          requests_sent := S (S (requests_sent w)) |},
       [GroupQuery group_url;
        Submit {| req_testcase := testcase;
                  req_groups :=
                    VList [VDict
                      [("uuid", match assoc "uuid" group with
                                | Some uuid => uuid
                                | None => VStr (uuid4 env (uuids_drawn w))
                                end);
                       ("ref_url", VStr group_url);
                       ("description", VStr group_url)]];
                  req_outcome := outcome;
                  req_ref_url := VStr ref_url;
                  req_note := note;
                  req_data := data |}]).
Proof.
  intros Hmsg Hfound Hfirst Hpost.
  destruct (handle_resultsdb_format_single msg testcase outcome ref_url
              group_url w found group Hmsg Hfound Hfirst Hpost)
    as (d & data & note & _ & _ & Hrun).
  now exists data, note.
Qed.

(** X12. For a message in ResultsDB format whose test case name does not
    start with [dist.rpmdiff], the one group of every submission has the
    [ref_url] of the message as it is: the pattern is not applied. *)
Theorem other_testcases_keep_ref_url (msg : value) (w : world) (name : string) :
  resultsdb_testcase_name msg = Ok (VStr name) ->
  startswith "dist.rpmdiff" name = false ->
  Forall (fun r => group_ref_urls r = [resultsdb_ref_url msg])
         (submissions (trace_of (handle_resultsdb_format env msg w))).
Proof.
  intros Hname Hstarts.
  unfold resultsdb_testcase_name, resultsdb_ref_url, message_body in *.
  destruct (getitem msg "body") as [body|] eqn:Hb; [simpl in *|discriminate].
  destruct (getitem body "msg") as [msg_body|] eqn:Hm;
    [simpl in *|discriminate].
  destruct (get_default msg_body "testcase" (VDict [])) as [testcase|] eqn:Ht;
    [simpl in Hname|discriminate].
  enough (Hspec : spec (handle_resultsdb_format env msg)
            (fun r => group_ref_urls r = [getitem msg_body "ref_url"])
            (fun _ => True)) by exact (proj1 (Hspec w)).
  unfold handle_resultsdb_format.
  apply spec_bind_lift; intros ? E; rewrite Hb in E; injection E as <-.
  apply spec_bind_lift; intros ? E; rewrite Hm in E; injection E as <-.
  apply spec_bind_lift; intros group_ref_url Href. rewrite Href.
  apply spec_bind_lift; intros ? E; rewrite Ht in E; injection E as <-.
  apply spec_bind_lift; intros ? E; rewrite Hname in E; injection E as <-.
  simpl str_method. rewrite Hstarts.
  apply spec_bind_lift; intros ? [= <-].
  apply spec_bind_lift; intros ? [= <-].
  apply spec_bind_lift; intros results _.
  destruct (truthy results).
  - apply spec_bind with (Q1 := fun _ => True);
      [now apply spec_gen_uuid | intros uuid _].
    apply spec_bind_lift; intros results' _.
    eapply spec_weaken; [apply resultsdb_bulk_groups| |auto].
    intros r Hr. unfold group_ref_urls. now rewrite Hr.
  - apply spec_bind with (Q1 := fun _ => True);
      [now apply spec_get_first_group | intros first _].
    destruct first; try apply spec_raise.
    apply spec_bind with (Q1 := fun _ => True);
      [now apply spec_gen_uuid | intros fresh _].
    apply spec_bind_lift; intros uuid _.
    apply spec_bind_lift; intros result_data _.
    apply spec_bind_lift; intros result_data' _.
    apply spec_bind_lift; intros testcase' _.
    apply spec_bind_lift; intros outcome _.
    apply spec_bind_lift; intros ref_url' _.
    apply spec_bind_lift; intros note _.
    now apply spec_create_result.
Qed.

End SingleResult.

(* ------------------------------------------------------------------ *)
(** ** Beyond the claims: topics, test case names and the module pattern *)

Lemma startswith_inv (p s : string) :
  startswith p s = true -> exists rest, s = p ++ rest.
Proof.
  revert s. induction p as [|a p IH]; intros s; simpl.
  - intros _. now exists s.
  - destruct s as [|b s]; [discriminate|].
    destruct (Ascii.eqb_spec a b) as [->|]; [simpl|discriminate].
    intros H. destruct (IH s H) as [rest ->]. now exists rest.
Qed.

Lemma join_split (c : ascii) (s : string) :
  join (String c EmptyString) (split c s) = s.
Proof.
  induction s as [|a s IH]; [reflexivity|]. simpl split.
  destruct (split_cons c s) as (h & t & Hs). rewrite Hs in *.
  destruct (Ascii.eqb_spec a c) as [->|Hne].
  - change (join (String c EmptyString) (EmptyString :: h :: t))
      with (String c (join (String c EmptyString) (h :: t))).
    now rewrite IH.
  - destruct t as [|h' t]; simpl in *; now rewrite IH.
Qed.

Lemma split_parts_no_separator (c : ascii) (s : string) :
  Forall (fun part => count_char c part = 0) (split c s).
Proof.
  induction s as [|a s IH]; simpl.
  - now repeat constructor.
  - destruct (split_cons c s) as (h & t & Hs). rewrite Hs in *.
    inversion IH as [|? ? Hh Ht]; subst.
    destruct (Ascii.eqb a c) eqn:E.
    + now repeat constructor.
    + constructor; [|exact Ht]. simpl. now rewrite E.
Qed.

(** X8. [namespace_from_topic] returns a namespace exactly for the topics
    of the documented scheme
    [/topic/VirtualTopic.eng.ci.<namespace>.<artifact>.<event>.<status>],
    each of the four parts free of dots, and the namespace it returns is
    the [<namespace>] part; for every other topic it returns [None]. *)
Theorem namespace_from_topic_documented_scheme (topic ns : string) :
  namespace_from_topic topic = Some ns
  <-> exists artifact event status,
        count_char "." ns = 0 /\ count_char "." artifact = 0
        /\ count_char "." event = 0 /\ count_char "." status = 0
        /\ topic = topic_prefix ++ ns ++ "." ++ artifact ++ "." ++ event
                   ++ "." ++ status.
Proof.
  split.
  - unfold namespace_from_topic.
    destruct (startswith topic_prefix topic) eqn:Hp; [simpl|discriminate].
    destruct (Nat.eqb_spec (List.length (split "." topic)) 7) as [Hlen|];
      [simpl|discriminate].
    intros [= <-].
    destruct (startswith_inv _ _ Hp) as [rest ->].
    pose proof (split_parts_no_separator "." rest) as Hfree.
    pose proof (join_split "." rest) as Hjoin.
    assert (Hsplit : split "." (topic_prefix ++ rest)
                     = "/topic/VirtualTopic" :: "eng" :: "ci"
                       :: split "." rest).
    { unfold topic_prefix.
      change ("/topic/VirtualTopic.eng.ci." ++ rest)
        with ("/topic/VirtualTopic" ++ "." ++ "eng" ++ "." ++ "ci" ++ "."
              ++ rest).
      now repeat (rewrite split_append_separator' by reflexivity). }
    rewrite Hsplit in *. simpl in Hlen.
    destruct (split "." rest) as [|p3 [|p4 [|p5 [|p6 [|p7 l]]]]];
      try discriminate.
    inversion Hfree as [|? ? H3 Hfree4]; subst.
    inversion Hfree4 as [|? ? H4 Hfree5]; subst.
    inversion Hfree5 as [|? ? H5 Hfree6]; subst.
    inversion Hfree6 as [|? ? H6 _]; subst.
    exists p4, p5, p6. simpl nth. repeat split; assumption.
  - intros (artifact & event & status & Hn & Ha & He & Hs & ->).
    exact (proj2 (namespace_from_documented_topic ns artifact event status
                    Hn Ha He Hs)).
Qed.

Lemma split1_head_cons (c x : ascii) (s : string) :
  Ascii.eqb x c = false ->
  nth 0 (split1 c (String x s)) EmptyString
  = String x (nth 0 (split1 c s) EmptyString).
Proof. intros H. simpl. rewrite H. now destruct (split1 c s). Qed.

Lemma namespace_of_longer_name (namespace rest : string) :
  namespace_from_testcase_name (namespace ++ "." ++ rest)
  = namespace_from_testcase_name namespace.
Proof.
  unfold namespace_from_testcase_name.
  induction namespace as [|x namespace IH].
  - reflexivity.
  - change ((String x namespace) ++ "." ++ rest)
      with (String x (namespace ++ "." ++ rest)).
    destruct (Ascii.eqb x ".") eqn:E.
    + simpl. now rewrite E.
    + now rewrite !split1_head_cons, IH.
Qed.

Lemma contains_append (sub a b : string) :
  contains sub (a ++ sub ++ b) = true.
Proof.
  induction a as [|x a IH].
  - assert (H : startswith sub (sub ++ b) = true).
    { induction sub as [|y sub IHs]; simpl; [reflexivity|].
      now rewrite Ascii.eqb_refl. }
    change (EmptyString ++ sub ++ b) with (sub ++ b).
    destruct (sub ++ b); simpl; now rewrite H.
  - change (String x a ++ sub ++ b) with (String x (a ++ sub ++ b)).
    cbn [contains]. rewrite IH.
    now destruct (startswith sub (String x (a ++ sub ++ b))).
Qed.

(** X9. When [namespace], [type] and [category] of [body.msg] are strings
    (each [unknown] when missing) and [ci.url] is there,
    [_construct_testcase_dict] names the test case
    [namespace.type.category] and links it to [ci.url]. The namespace of
    that name, which the topic is checked against, is the part of the
    [namespace] field before its first dot; and the name holds [unknown]
    whenever one of the three fields is missing. *)
Theorem construct_testcase_dict_name (fields : dict)
  (namespace test_type category : string) (ci url : value) :
  testcase_part (VDict fields) "namespace" = Ok (VStr namespace) ->
  testcase_part (VDict fields) "type" = Ok (VStr test_type) ->
  testcase_part (VDict fields) "category" = Ok (VStr category) ->
  assoc "ci" fields = Some ci ->
  getitem ci "url" = Ok url ->
  let name := namespace ++ "." ++ test_type ++ "." ++ category in
  _construct_testcase_dict (VDict fields)
  = Ok (VDict [("name", VStr name); ("ref_url", url)])
  /\ namespace_from_testcase_name name
     = namespace_from_testcase_name namespace
  /\ (assoc "namespace" fields = None \/ assoc "type" fields = None
      \/ assoc "category" fields = None ->
      contains "unknown" name = true).
Proof.
  intros Hn Ht Hc Hci Hurl name. unfold testcase_part in Hn, Ht, Hc.
  split; [|split].
  - unfold _construct_testcase_dict. rewrite Hn, Ht, Hc. simpl.
    rewrite Hci. simpl. now rewrite Hurl.
  - apply namespace_of_longer_name.
  - simpl in Hn, Ht, Hc. unfold name. intros [H|[H|H]]; rewrite H in *.
    + injection Hn as <-. apply (contains_append "unknown" EmptyString).
    + injection Ht as <-.
      rewrite <- (append_assoc namespace "." _).
      apply (contains_append "unknown" (namespace ++ ".")).
    + injection Hc as <-. rewrite <- !append_assoc.
      pose proof (contains_append "unknown"
                    (((namespace ++ ".") ++ test_type) ++ ".") EmptyString)
        as Hcontains.
      now rewrite append_empty_r in Hcontains.
Qed.

Lemma line_colons_append (g r : string) :
  all_chars dot g = true ->
  line_colons (g ++ r) = count_char ":" g + line_colons r.
Proof.
  induction g as [|c g IH]; simpl; [reflexivity|].
  intros H. apply andb_prop in H as [-> Hg]. rewrite (IH Hg). lia.
Qed.

Lemma needs_line_colons_literal {A} n (k : string -> option A) :
  needs_line_colons n k -> needs_line_colons (S n) (literal ":" k).
Proof.
  intros H s a Hs. apply literal_sound in Hs as (s' & -> & Hk).
  apply H in Hk. simpl. lia.
Qed.

Lemma needs_line_colons_star {A} n (k : string -> option A) :
  needs_line_colons n k ->
  needs_line_colons n (fun s => greedy_star dot k s).
Proof.
  intros H s [g a] Hs. apply greedy_star_sound in Hs as (rest & -> & Hg & Hk).
  apply H in Hk. rewrite (line_colons_append g rest Hg). lia.
Qed.

Lemma needs_line_colons_0 {A} (k : string -> option A) : needs_line_colons 0 k.
Proof. intros s a _. lia. Qed.

(** One colon-terminated field of a line: the greedy group stops at the
    colon when the rest of the line holds just the colons the continuation
    needs. *)
Lemma greedy_line_field {A} (k : string -> option A) (g rest : string) (a : A) :
  all_chars dot g = true ->
  k rest = Some a ->
  needs_line_colons (line_colons rest) k ->
  greedy_star dot (literal ":" k) (g ++ ":" ++ rest) = Some (g, a).
Proof.
  intros Hg Hk Hneeds. apply greedy_star_longest.
  - exact Hg.
  - now rewrite literal_append.
  - intros g' r' Hne Hg' Hsplit.
    destruct (literal ":" k r') as [b|] eqn:E; [|reflexivity].
    apply needs_line_colons_literal in Hneeds. apply Hneeds in E.
    assert (Hcount : line_colons (":" ++ rest)
                     = count_char ":" g' + line_colons r')
      by (rewrite Hsplit; now apply line_colons_append).
    destruct g' as [|c g']; [contradiction|].
    simpl in Hsplit. injection Hsplit as <- _.
    simpl in Hcount. lia.
Qed.

(** X17. The module pattern reads the first line of the string and splits
    it at its last three colons: for a stream, a version and a context free
    of colons and newlines and any name without a newline, colons included,
    it yields these four parts, whether the string ends after the context
    or goes on with a newline and more lines. *)
Theorem nsvc_match_first_line (name stream version context line_end : string) :
  all_chars dot name = true -> all_chars dot stream = true ->
  all_chars dot version = true -> all_chars dot context = true ->
  count_char ":" stream = 0 -> count_char ":" version = 0 ->
  count_char ":" context = 0 ->
  line_end = EmptyString \/ (exists tail, line_end = newline ++ tail) ->
  nsvc_match (name ++ ":" ++ stream ++ ":" ++ version ++ ":" ++ context
              ++ line_end)
  = Some (name, stream, version, context).
Proof.
  intros Dn Ds Dv Dc Cs Cv Cc Hend.
  assert (Hline : line_colons line_end = 0)
    by (destruct Hend as [->|[tail ->]]; reflexivity).
  assert (Hstop : forall c r, line_end = String c r -> dot c = false).
  { intros c r H. destruct Hend as [->|[tail ->]]; [discriminate|].
    now injection H as <- _. }
  assert (Lc : line_colons (context ++ line_end) = 0)
    by (rewrite line_colons_append, Cc, Hline by exact Dc; reflexivity).
  assert (Lcolon : forall s, line_colons (":" ++ s) = S (line_colons s))
    by reflexivity.
  assert (Lv : line_colons (version ++ ":" ++ context ++ line_end) = 1)
    by (rewrite line_colons_append, Cv, Lcolon, Lc by exact Dv; reflexivity).
  assert (Ls : line_colons (stream ++ ":" ++ version ++ ":" ++ context
                            ++ line_end) = 2)
    by (rewrite line_colons_append, Cs, Lcolon, Lv by exact Ds; reflexivity).
  unfold nsvc_match.
  rewrite (greedy_line_field _ name _ (stream, (version, (context, tt)))).
  - reflexivity.
  - exact Dn.
  - rewrite (greedy_line_field _ stream _ (version, (context, tt))).
    + reflexivity.
    + exact Ds.
    + rewrite (greedy_line_field _ version _ (context, tt)).
      * reflexivity.
      * exact Dv.
      * now apply greedy_star_run.
      * rewrite Lc. apply needs_line_colons_0.
    + rewrite Lv.
      apply needs_line_colons_star, needs_line_colons_literal,
        needs_line_colons_0.
  - rewrite Ls.
    apply needs_line_colons_star, needs_line_colons_literal,
      needs_line_colons_star, needs_line_colons_literal, needs_line_colons_0.
Qed.

(* ------------------------------------------------------------------ *)
(** ** Beyond the claims: the submissions of a CI-metrics message *)

(** [rstrip] takes the trailing separators off, and only them. *)
Lemma rstrip_spec (c : ascii) (s : string) :
  exists n, s = rstrip c s ++ repeat_char c n
            /\ last_char (rstrip c s) <> Some c.
Proof.
  induction s as [|a s (n & Hs & Hlast)]; simpl.
  - exists 0. now split.
  - destruct (rstrip c s) as [|b r] eqn:E.
    + destruct (Ascii.eqb_spec a c) as [->|Hne].
      * exists (S n). simpl in *. split; [now rewrite Hs at 1|discriminate].
      * exists n. simpl in *. split; [now rewrite Hs at 1|congruence].
    + exists n. split; [simpl in *; now rewrite Hs at 1|exact Hlast].
Qed.

Section CIMetricsData.

Variable env : environment.

Lemma subtest_data_fields (test component recipients ci_tier test_name
  artifact brew_task_id msg t1 t2 t3 t4 t5 t6 t7 t8 : value)
  (test_type : string) :
  setitem test "item" component = Ok t1 ->
  setitem t1 "type" (VStr test_type) = Ok t2 ->
  setitem t2 "recipients" recipients = Ok t3 ->
  setitem t3 "CI_tier" ci_tier = Ok t4 ->
  setitem t4 "job_name" test_name = Ok t5 ->
  setitem t5 "artifact" artifact = Ok t6 ->
  setitem t6 "brew_task_id" brew_task_id = Ok t7 ->
  update_publisher_id t7 msg = Ok t8 ->
  getitem t8 "item" = Ok component
  /\ getitem t8 "type" = Ok (VStr test_type)
  /\ getitem t8 "recipients" = Ok recipients
  /\ getitem t8 "CI_tier" = Ok ci_tier
  /\ getitem t8 "job_name" = Ok test_name
  /\ getitem t8 "artifact" = Ok artifact
  /\ getitem t8 "brew_task_id" = Ok brew_task_id.
Proof.
  intros H1 H2 H3 H4 H5 H6 H7 H8.
  destruct test; try discriminate.
  simpl in H1. injection H1 as <-. simpl in H2. injection H2 as <-.
  simpl in H3. injection H3 as <-. simpl in H4. injection H4 as <-.
  simpl in H5. injection H5 as <-. simpl in H6. injection H6 as <-.
  simpl in H7. injection H7 as <-.
  repeat split;
    (erewrite getitem_update_publisher_id; [|discriminate|exact H8]);
    cbn [getitem];
    repeat (rewrite assoc_dict_set_other by discriminate);
    now rewrite assoc_dict_set_same.
Qed.

Lemma ci_metrics_tests_fields (msg team test_name testcase_url component
  recipients ci_tier artifact brew_task_id group_tests_ref_url groups : value)
  (test_type : string) :
  forall tests overall_outcome,
    spec (ci_metrics_tests env msg team test_name testcase_url component
            recipients ci_tier artifact brew_task_id group_tests_ref_url
            groups test_type tests overall_outcome)
         (fun r => req_ref_url r = group_tests_ref_url
                   /\ getitem (req_data r) "item" = Ok component
                   /\ getitem (req_data r) "type" = Ok (VStr test_type)
                   /\ getitem (req_data r) "recipients" = Ok recipients
                   /\ getitem (req_data r) "CI_tier" = Ok ci_tier
                   /\ getitem (req_data r) "job_name" = Ok test_name
                   /\ getitem (req_data r) "artifact" = Ok artifact
                   /\ getitem (req_data r) "brew_task_id" = Ok brew_task_id)
         (fun _ => True).
Proof.
  induction tests as [|test rest IH]; intros overall_outcome; simpl.
  - now apply spec_ret.
  - apply spec_bind_lift; intros passed _.
    apply spec_bind_lift; intros executor _.
    apply spec_bind_lift; intros t1 H1.
    apply spec_bind_lift; intros t2 H2.
    apply spec_bind_lift; intros t3 H3.
    apply spec_bind_lift; intros t4 H4.
    apply spec_bind_lift; intros t5 H5.
    apply spec_bind_lift; intros t6 H6.
    apply spec_bind_lift; intros t7 H7.
    apply spec_bind_lift; intros t8 H8.
    apply spec_bind with (Q1 := fun _ => True).
    + apply spec_create_result; [|exact I]. split; [reflexivity|].
      exact (subtest_data_fields _ _ _ _ _ _ _ _ _ _ _ _ _ _ _ _ _
               H1 H2 H3 H4 H5 H6 H7 H8).
    + intros _ _. apply IH.
Qed.

(** X14. Every submission of a CI-metrics message, the sub-tests' and the
    aggregate's alike, has as [ref_url] the build URL without its trailing
    slashes followed by [/console], and carries in its data the fields of
    the message: [item] is the component, [artifact], [brew_task_id] and
    [CI_tier] are the message's (each [unknown] when missing), [job_name]
    is [job_name] or, without it, the deprecated [job_names], [recipients]
    is the comma-separated field as a list, and [type] is [koji_build] when
    a brew task is named and [unknown] otherwise, followed by [_scratch]
    for a scratch build. What a sub-test record holds under these keys is
    overwritten. *)
Theorem ci_metrics_common_fields (msg : value) (w : world) :
  Forall (ci_metrics_common env msg)
         (submissions (trace_of (handle_ci_metrics env msg w))).
Proof.
  enough (Hspec : spec (handle_ci_metrics env msg) (ci_metrics_common env msg)
                    (fun _ => True)) by exact (proj1 (Hspec w)).
  unfold handle_ci_metrics.
  apply spec_bind_lift; intros headers _.
  apply spec_bind_lift; intros msg_id _.
  apply spec_bind_lift; intros body Hb.
  apply spec_bind_lift; intros m Hm.
  assert (Hbody : message_body msg = Ok m).
  { unfold message_body. now rewrite Hb. }
  apply spec_bind_lift; intros team _.
  apply spec_bind with (Q1 := fun _ => True).
  { destruct (eq_str team "unassigned");
      [now apply spec_log | now apply spec_ret]. }
  intros _ _.
  apply spec_bind_lift; intros has_job_name Hhas.
  apply spec_bind with (Q1 := fun test_name => ci_metrics_job msg = Ok test_name).
  { unfold ci_metrics_job. rewrite Hbody. cbn [res_bind]. rewrite Hhas.
    cbn [res_bind]. destruct has_job_name.
    - now apply spec_lift.
    - apply spec_bind_lift; intros job_names Hj.
      apply spec_bind_log. now apply spec_ret. }
  intros test_name Hjob.
  apply spec_bind_lift; intros testcase_url _.
  apply spec_bind_lift; intros group_ref_url Hurl.
  apply spec_bind_lift; intros build_type Hbt.
  apply spec_bind_lift; intros artifact Hart.
  apply spec_bind_lift; intros brew_task_id Hbrew.
  apply spec_bind_lift; intros tests _.
  apply spec_bind_lift; intros stripped Hstrip.
  apply spec_bind_lift; intros component Hcomp.
  apply spec_bind_lift; intros recipients_field Hrf.
  apply spec_bind_lift; intros recipients Hrec.
  apply spec_bind_lift; intros ci_tier Htier.
  destruct group_ref_url as [| | |url| |]; try discriminate.
  simpl in Hstrip. injection Hstrip as <-.
  destruct recipients_field as [| | |rs| |]; try discriminate.
  simpl in Hrec. injection Hrec as <-.
  set (test_type := if eq_str build_type "scratch" then _ else _).
  assert (Htype : test_type = ci_metrics_test_type brew_task_id build_type).
  { unfold test_type, ci_metrics_test_type.
    destruct (eq_str build_type "scratch"), (negb (eq_str brew_task_id _));
      reflexivity. }
  assert (Hcommon : forall r,
            req_ref_url r = VStr (rstrip "/" url ++ "/console")
            /\ getitem (req_data r) "item" = Ok component
            /\ getitem (req_data r) "type" = Ok (VStr test_type)
            /\ getitem (req_data r) "recipients"
               = Ok (VList (map VStr (split "," rs)))
            /\ getitem (req_data r) "CI_tier" = Ok ci_tier
            /\ getitem (req_data r) "job_name" = Ok test_name
            /\ getitem (req_data r) "artifact" = Ok artifact
            /\ getitem (req_data r) "brew_task_id" = Ok brew_task_id ->
            ci_metrics_common env msg r).
  { intros r (Hr & Hi & Ht & Hre & Hc & Hj & Ha & Hbr).
    unfold ci_metrics_common, ci_metrics_field, ci_metrics_required.
    rewrite Hbody. cbn [res_bind].
    rewrite Hurl, Hcomp, Hart, Hbrew, Htier, Hbt, Hrf, Hjob, Hi, Ha, Hbr, Hc,
      Hj, Ht, Hre, Htype.
    repeat split; eauto. }
  apply spec_bind with (Q1 := fun _ => True);
    [now apply spec_gen_uuid | intros uuid _].
  apply spec_bind_lift; intros tests_list _.
  apply spec_bind with (Q1 := fun _ => True).
  { eapply spec_weaken; [apply ci_metrics_tests_fields | exact Hcommon | auto]. }
  intros overall_outcome _.
  apply spec_bind_lift; intros result_data H.
  apply spec_create_result; [|exact I]. apply Hcommon. simpl.
  split; [reflexivity|].
  repeat split;
    (erewrite getitem_update_publisher_id; [|discriminate|exact H]);
    reflexivity.
Qed.

End CIMetricsData.

(* ------------------------------------------------------------------ *)
(** ** Beyond the claims: module builds without a usable [nsvc] *)

(** X15. Only the failed match is caught. A redhat-module message (message
    id, run URL, outcome and [ci] present) whose [artifact.nsvc] is missing
    or is not a string makes the handler raise, [KeyError] for the missing
    field and [TypeError] otherwise; nothing is logged and nothing is
    submitted. *)
Theorem unusable_nsvc_raises :
  forall (env : environment) (msg : value) (w : world)
         (headers msg_id body msg_body artifact run test_run_url outcome ci
            : value),
    getitem msg "headers" = Ok headers ->
    getitem headers "message-id" = Ok msg_id ->
    getitem msg "body" = Ok body ->
    getitem body "msg" = Ok msg_body ->
    getitem msg_body "artifact" = Ok artifact ->
    getitem artifact "type" = Ok (VStr "redhat-module") ->
    getitem msg_body "run" = Ok run ->
    getitem run "url" = Ok test_run_url ->
    _test_result_outcome msg = Ok outcome ->
    getitem msg_body "ci" = Ok ci ->
    (forall nsvc, getitem artifact "nsvc" <> Ok (VStr nsvc)) ->
    result_of (handle_ci_umb env msg w)
    = Raise (match getitem artifact "nsvc" with
             | Ok _ => TypeError
             | Raise _ => KeyError
             end)
    /\ trace_of (handle_ci_umb env msg w) = [].
Proof.
  intros env msg w headers msg_id body msg_body artifact run test_run_url
    outcome ci Hh Hid Hb Hm Ha Ht Hr Hu Ho Hci Hn.
  assert (Hrun : handle_ci_umb env msg w
                 = (Raise (match getitem artifact "nsvc" with
                           | Ok _ => TypeError
                           | Raise _ => KeyError
                           end),
                    {| uuids_drawn := S (uuids_drawn w);
                       requests_sent := requests_sent w |},
                    [])).
  { unfold handle_ci_umb.
    rewrite (bind_lift_ok _ _ _ _ Hh), (bind_lift_ok _ _ _ _ Hid),
      (bind_lift_ok _ _ _ _ Hb), (bind_lift_ok _ _ _ _ Hm),
      (bind_lift_ok _ _ _ _ Ha), (bind_lift_ok _ _ _ _ Ht),
      (bind_lift_ok _ _ _ _ Hr), (bind_lift_ok _ _ _ _ Hu),
      (bind_lift_ok _ _ _ _ Ho), bind_gen_uuid.
    destruct (getitem_is_dict _ _ _ Ha) as [d ->].
    destruct (get_default_dict d "system" (VDict [])) as [system Hs].
    rewrite (bind_lift_ok _ _ _ _ Hs).
    unfold umb_result_data, redhat_module_data. simpl eq_str. cbv iota.
    unfold bind at 1.
    rewrite (bind_lift_ok _ _ _ _ Hci), (bind_lift_ok _ _ _ _ Ha).
    destruct (getitem_is_dict _ _ _ Ht) as [ad ->].
    destruct (getitem (VDict ad) "nsvc") as [nsvc|e] eqn:En.
    - rewrite (bind_lift_ok _ _ _ _ eq_refl).
      destruct nsvc as [| | |nsvc| |]; try reflexivity.
      now destruct (Hn nsvc).
    - rewrite (bind_lift_raise _ e) by reflexivity.
      simpl in En. destruct (assoc "nsvc" ad); [discriminate|].
      now injection En as <-. }
  rewrite Hrun. split; reflexivity.
Qed.

Lemma unusable_nsvc_raises_witness :
  let msg := umb_message module_topic
               (VDict [("type", VStr "redhat-module"); ("nsvc", VInt 7)]) [] in
  result_of (handle_ci_umb sample_env msg world0) = Raise TypeError
  /\ trace_of (handle_ci_umb sample_env msg world0) = [].
Proof.
  intros msg.
  refine (unusable_nsvc_raises sample_env msg world0
            sample_headers _ _ _
            (VDict [("type", VStr "redhat-module"); ("nsvc", VInt 7)])
            sample_run _ _ sample_ci
            eq_refl eq_refl eq_refl eq_refl eq_refl eq_refl eq_refl eq_refl
            eq_refl eq_refl _).
  intros nsvc. discriminate.
Defined.

(* ------------------------------------------------------------------ *)
(** ** Beyond the claims: the item of a compose *)

Lemma fold_keep_other (k : string) (pairs d : dict) :
  existsb (String.eqb k) (map fst pairs) = false ->
  assoc k (fold_left keep_not_none pairs d) = assoc k d.
Proof.
  revert d. induction pairs as [|[k0 v0] pairs IH]; intros d Hk; simpl.
  - reflexivity.
  - simpl in Hk. apply orb_false_elim in Hk as [Hk0 Hk].
    rewrite IH by exact Hk. unfold keep_not_none. simpl.
    assert (Hne : k0 <> k).
    { intros ->. now rewrite String.eqb_refl in Hk0. }
    destruct v0; try reflexivity; now rewrite assoc_dict_set_other.
Qed.

Section ComposeItem.

Variable env : environment.

(** X16. Every result submitted for a productmd-compose message has the
    item [compose/variant/architecture]: the compose is [artifact.id] or,
    when that is missing or empty, the deprecated [artifact.compose_id];
    the variant is the system's, [unknown] when it is missing or empty; the
    architecture is the system's, where the system is [body.msg.system]
    itself or, when that is a list, its first element. *)
Theorem compose_item (msg : value) (w : world) :
  artifact_type msg = Ok (VStr "productmd-compose") ->
  Forall (fun r =>
            exists compose variant architecture,
              compose_id msg = Ok compose
              /\ system_get msg "variant" = Ok variant
              /\ system_field msg "architecture" = Ok architecture
              /\ getitem (req_data r) "item"
                 = Ok (VStr (fmt env compose ++ "/"
                             ++ (if truthy variant then fmt env variant
                                 else "unknown") ++ "/"
                             ++ fmt env architecture)))
         (submissions (trace_of (handle_ci_umb env msg w))).
Proof.
  intros Htype.
  set (good := fun d : value =>
         exists compose variant architecture,
           compose_id msg = Ok compose
           /\ system_get msg "variant" = Ok variant
           /\ system_field msg "architecture" = Ok architecture
           /\ getitem d "item"
              = Ok (VStr (fmt env compose ++ "/"
                          ++ (if truthy variant then fmt env variant
                              else "unknown") ++ "/"
                          ++ fmt env architecture))).
  apply handle_ci_umb_submissions
    with (R0 := fun built => forall d, built = Some d -> good d).
  - intros msg_body system item_type' Htype' Hbody Hsys.
    rewrite Htype in Htype'. injection Htype' as <-.
    unfold umb_result_data. simpl eq_str. cbv iota.
    apply spec_lift. intros built H.
    destruct (productmd_compose_data env msg_body system _) as [d|] eqn:E;
      [simpl in H|discriminate].
    injection H as <-. intros d' [= <-].
    unfold productmd_compose_data in E.
    destruct (getitem system "architecture") as [architecture|] eqn:Earch;
      [cbn [res_bind] in E|discriminate].
    destruct (get system "variant") as [variant|] eqn:Evar;
      [cbn [res_bind] in E|discriminate].
    destruct (getitem msg_body "artifact") as [artifact|] eqn:Ea;
      [cbn [res_bind] in E|discriminate].
    destruct (get artifact "id") as [artifact_id|] eqn:Eid;
      [cbn [res_bind] in E|discriminate].
    match type of E with
    | res_bind ?r _ = _ =>
        destruct r as [compose|] eqn:Ec; [cbn [res_bind] in E|discriminate E]
    end.
    res_steps E. injection E as <-.
    exists compose, variant, architecture.
    unfold compose_id, system_get, system_field.
    rewrite Hbody, Hsys. cbn [res_bind]. rewrite Ea. cbn [res_bind].
    rewrite Eid, Evar, Earch. cbn [res_bind].
    repeat split; try assumption.
    cbn [getitem]. rewrite without_none_fold.
    match goal with
    | |- context [fold_left ?f (?x :: ?l) ?d0] =>
        change (fold_left f (x :: l) d0) with (fold_left f l (f d0 x))
    end.
    rewrite fold_keep_other by reflexivity.
    unfold keep_not_none, py_or. simpl.
    destruct (truthy variant); reflexivity.
  - intros d msg_id msg_body test_run_url outcome _ _ _ Hd.
    specialize (Hd d eq_refl).
    eapply spec_weaken; [apply umb_submit_request | intros r H; exact H | auto].
    intros recipients d1 d2 testcase name topic _ H1 H2 _ _ _ _. simpl.
    destruct Hd as (compose & variant & architecture & Hc & Hv & Har & Hi).
    exists compose, variant, architecture.
    rewrite !(umb_data_keeps_key _ recipients d d1 d2 msg) by easy.
    now repeat split.
Qed.

End ComposeItem.

Example compose_message_item :
  map (fun r => getitem (req_data r) "item")
      (submissions (trace_of (handle_ci_umb sample_env compose_message world0)))
  = [Ok (VStr "RHEL-8.0-20180816.1/unknown/x86_64")].
Proof. reflexivity. Qed.

Lemma compose_item_witness :
  Forall (fun r =>
            exists compose variant architecture,
              compose_id compose_message = Ok compose
              /\ system_get compose_message "variant" = Ok variant
              /\ system_field compose_message "architecture" = Ok architecture
              /\ getitem (req_data r) "item"
                 = Ok (VStr (fmt sample_env compose ++ "/"
                             ++ (if truthy variant then fmt sample_env variant
                                 else "unknown") ++ "/"
                             ++ fmt sample_env architecture)))
         (submissions (trace_of (handle_ci_umb sample_env compose_message
                                   world0))).
Proof. apply (compose_item sample_env compose_message world0). reflexivity. Defined.

(* ------------------------------------------------------------------ *)
(** ** Beyond the claims: the properties on sample messages *)

Lemma update_publisher_id_effect_witness :
  exists d',
    update_publisher_id (VDict [("item", VStr "setup-2.8.71-7.el7_4")])
      (resultsdb_bulk_message sample_run_url sample_results)
    = Ok (VDict d')
    /\ (forall k, k <> "publisher_id"
                  -> assoc k d'
                     = assoc k [("item", VStr "setup-2.8.71-7.el7_4")])
    /\ assoc "publisher_id" d' = Some (VStr "msg-client-ci").
Proof.
  exact (update_publisher_id_effect
           (resultsdb_bulk_message sample_run_url sample_results)
           [("message-id", VStr "ID:messaging-devops-broker01-1");
            ("JMSXUserID", VStr "msg-client-ci")]
           [("item", VStr "setup-2.8.71-7.el7_4")] eq_refl).
Defined.

Lemma structured_topic_gates_submission_witness :
  Forall (fun r => exists name,
                     getitem (req_testcase r) "name" = Ok (VStr name)
                     /\ namespace_from_testcase_name name = "baseos-ci")
         (submissions (trace_of (handle_ci_umb sample_env
            (umb_message brew_build_topic brew_build_artifact []) world0))).
Proof.
  apply (structured_topic_gates_submission sample_env
           (umb_message brew_build_topic brew_build_artifact []) world0
           brew_build_topic);
    [reflexivity | reflexivity | discriminate].
Defined.

Lemma default_variant_scratch_witness :
  let msg := umb_message brew_build_topic brew_build_artifact [] in
  Forall (fun r =>
            exists flag,
              scratch_flag (artifact_field msg "scratch") flag
              /\ getitem (req_data r) "scratch" = Ok (VBool flag)
              /\ getitem (req_data r) "type"
                 = Ok (VStr (if flag then "brew-build" ++ "_scratch"
                             else "brew-build"))
              /\ getitem (req_data r) "item" = artifact_field msg "nvr")
         (submissions (trace_of (handle_ci_umb sample_env msg world0))).
Proof.
  exact (default_variant_scratch sample_env
           (umb_message brew_build_topic brew_build_artifact []) world0
           "brew-build" eq_refl eq_refl).
Defined.

Lemma construct_testcase_dict_name_witness :
  let fields := [("namespace", VStr "baseos-ci.brew-build");
                 ("category", VStr "functional");
                 ("ci", sample_ci)] in
  let name := "baseos-ci.brew-build" ++ "." ++ "unknown" ++ "."
              ++ "functional" in
  _construct_testcase_dict (VDict fields)
  = Ok (VDict [("name", VStr name);
               ("ref_url", VStr "https://baseos-jenkins.example.com")])
  /\ namespace_from_testcase_name name
     = namespace_from_testcase_name "baseos-ci.brew-build"
  /\ (assoc "namespace" fields = None \/ assoc "type" fields = None
      \/ assoc "category" fields = None ->
      contains "unknown" name = true).
Proof.
  exact (construct_testcase_dict_name
           [("namespace", VStr "baseos-ci.brew-build");
            ("category", VStr "functional");
            ("ci", sample_ci)]
           "baseos-ci.brew-build" "unknown" "functional" sample_ci
           (VStr "https://baseos-jenkins.example.com")
           eq_refl eq_refl eq_refl eq_refl eq_refl).
Defined.

Lemma sample_bulk_message :
  bulk_message (resultsdb_bulk_message sample_run_url sample_results)
    sample_results sample_run_url.
Proof.
  split; [eexists; reflexivity|].
  eexists _, EmptyString, sample_run_url.
  repeat split; try reflexivity; try discriminate.
  apply Forall_cons.
  - eexists. split; [reflexivity|]. split; [discriminate|now left].
  - apply Forall_cons; [|apply Forall_nil].
    eexists. split; [reflexivity|]. split; [discriminate|].
    right. eexists. reflexivity.
Defined.

Lemma bulk_results_share_one_group_witness :
  let msg := resultsdb_bulk_message sample_run_url sample_results in
  result_of (handle_resultsdb_format sample_env msg world0) = Ok tt
  /\ uuids_drawn (world_of (handle_resultsdb_format sample_env msg world0)) = 1
  /\ List.length (submissions (trace_of (handle_resultsdb_format sample_env msg
                                           world0))) = 2
  /\ Forall2 (bulk_submission
                (VList [VDict [("uuid", VStr (uuid4 sample_env 0));
                               ("ref_url", VStr sample_run_url)]]))
             sample_results
             (submissions (trace_of (handle_resultsdb_format sample_env msg
                                       world0))).
Proof.
  exact (bulk_results_share_one_group sample_env
           (resultsdb_bulk_message sample_run_url sample_results)
           sample_results sample_run_url world0
           (fun _ _ => eq_refl) sample_bulk_message).
Defined.

Lemma bulk_stops_at_rejected_submission_witness :
  let msg := resultsdb_bulk_message sample_run_url sample_results in
  result_of (handle_resultsdb_format (rejecting_env 1) msg world0)
  = Raise HTTPError
  /\ List.length (submissions (trace_of (handle_resultsdb_format
                                           (rejecting_env 1) msg world0))) = 2.
Proof.
  apply (bulk_stops_at_rejected_submission (rejecting_env 1)
           (resultsdb_bulk_message sample_run_url sample_results)
           sample_results sample_run_url world0 1 sample_bulk_message).
  - simpl. lia.
  - intros [|i] r Hi; [reflexivity|lia].
  - intros r. reflexivity.
Defined.

Lemma single_result_reuses_found_group_witness :
  exists data note,
    handle_resultsdb_format sample_env
      (resultsdb_message "dist.depcheck" sample_run_url (VDict [])) world0
    = (Ok tt,
       {| uuids_drawn := 1; requests_sent := 2 |},
       [GroupQuery sample_run_url;
        Submit {| req_testcase :=
                    VDict [("name", VStr "dist.depcheck");
                           ("ref_url", VStr "https://ci.example.com")];
                  req_groups :=
                    VList [VDict
                      [("uuid", VStr (uuid4 sample_env 0));
                       ("ref_url", VStr sample_run_url);
                       ("description", VStr sample_run_url)]];
                  req_outcome := VStr "PASSED";
                  req_ref_url := VStr sample_run_url;
                  req_note := note;
                  req_data := data |}]).
Proof.
  refine (single_result_reuses_found_group sample_env
            (resultsdb_message "dist.depcheck" sample_run_url (VDict []))
            (VDict [("name", VStr "dist.depcheck");
                    ("ref_url", VStr "https://ci.example.com")])
            (VStr "PASSED") sample_run_url sample_run_url world0 [] []
            _ eq_refl eq_refl (fun _ => eq_refl)).
  split; [eexists; reflexivity|].
  eexists _, "dist.depcheck".
  repeat split; try reflexivity.
  eexists. reflexivity.
Defined.

Lemma other_testcases_keep_ref_url_witness :
  let msg := resultsdb_message "dist.depcheck" sample_run_url (VDict []) in
  Forall (fun r => group_ref_urls r = [Ok (VStr sample_run_url)])
         (submissions (trace_of (handle_resultsdb_format sample_env msg
                                   world0))).
Proof.
  exact (other_testcases_keep_ref_url sample_env
           (resultsdb_message "dist.depcheck" sample_run_url (VDict []))
           world0 "dist.depcheck" eq_refl eq_refl).
Defined.

Lemma nsvc_match_first_line_witness :
  nsvc_match ("perl:DBI" ++ ":" ++ "rhel-8" ++ ":" ++ "20180816142114" ++ ":"
              ++ "c2c572ec" ++ newline ++ "a:b:c:d")
  = Some ("perl:DBI", "rhel-8", "20180816142114", "c2c572ec").
Proof.
  apply (nsvc_match_first_line "perl:DBI" "rhel-8" "20180816142114"
           "c2c572ec" (newline ++ "a:b:c:d"));
    try reflexivity.
  right. now exists "a:b:c:d".
Defined.

(* ------------------------------------------------------------------ *)
(** ** Beyond the claims: no message is dropped silently *)

Lemma logged_app (lvl : level) (t1 t2 : list event) :
  logged lvl (t1 ++ t2) = (logged lvl t1 ++ logged lvl t2)%list.
Proof.
  induction t1 as [|e t1 IH]; simpl; [reflexivity|].
  destruct e as [r|d|l message args]; try exact IH.
  destruct l, lvl; simpl; now rewrite IH.
Qed.

Lemma unsubmitted_weaken {A} (m : M A) (Q Q' : A -> list event -> Prop) :
  unsubmitted m Q -> (forall a t, Q a t -> Q' a t) -> unsubmitted m Q'.
Proof. intros H HQ w a Hr Hs. apply HQ. now apply H. Qed.

Lemma unsubmitted_any {A} (m : M A) : unsubmitted m (fun _ _ => True).
Proof. now intros w a _ _. Qed.

Lemma unsubmitted_ret {A} (a : A) (Q : A -> list event -> Prop) :
  Q a [] -> unsubmitted (ret a) Q.
Proof. intros H w b [= <-] _. exact H. Qed.

Lemma unsubmitted_raise {A} (e : exn) (Q : A -> list event -> Prop) :
  unsubmitted (raise e) Q.
Proof. intros w b H. discriminate H. Qed.

Lemma unsubmitted_lift {A} (r : res A) (Q : A -> list event -> Prop) :
  (forall a, r = Ok a -> Q a []) -> unsubmitted (lift r) Q.
Proof. intros H w b Hr _. now apply H. Qed.

Lemma unsubmitted_create_result env testcase outcome ref_url data groups note
  (Q : unit -> list event -> Prop) :
  unsubmitted (create_result env testcase outcome ref_url data groups note) Q.
Proof. intros w b _ H. discriminate H. Qed.

Lemma unsubmitted_bind {A B} (m : M A) (f : A -> M B)
  (Q1 : A -> list event -> Prop) (Q : B -> list event -> Prop) :
  unsubmitted m Q1 ->
  (forall a t1, Q1 a t1 -> unsubmitted (f a) (fun b t2 => Q b (t1 ++ t2)%list)) ->
  unsubmitted (bind m f) Q.
Proof.
  intros Hm Hf w b. specialize (Hm w).
  unfold bind, result_of, trace_of in *.
  destruct (m w) as [[r w1] t1]. simpl in Hm.
  destruct r as [a|e]; [|discriminate].
  specialize (fun H => Hf a t1 H w1 b). unfold result_of, trace_of in Hf.
  destruct (f a w1) as [[r2 w2] t2]. simpl in *.
  intros Hr Hs. rewrite submissions_app in Hs.
  apply app_eq_nil in Hs as [Hs1 Hs2]. apply Hf; auto.
Qed.

Lemma unsubmitted_bind_lift {A B} (r : res A) (f : A -> M B)
  (Q : B -> list event -> Prop) :
  (forall a, r = Ok a -> unsubmitted (f a) Q) ->
  unsubmitted (bind (lift r) f) Q.
Proof.
  intros H. apply unsubmitted_bind with (Q1 := fun a t => r = Ok a /\ t = []).
  - apply unsubmitted_lift. auto.
  - intros a t1 [Hr ->]. now apply H.
Qed.

Lemma unsubmitted_bind_gen_uuid {B} env (f : string -> M B)
  (Q : B -> list event -> Prop) :
  (forall uuid, unsubmitted (f uuid) Q) ->
  unsubmitted (bind (gen_uuid env) f) Q.
Proof.
  intros H. apply unsubmitted_bind with (Q1 := fun _ t => t = []).
  - now intros w a _ _.
  - intros a t1 ->. apply H.
Qed.

Lemma unsubmitted_bind_log {B} lvl message args (f : unit -> M B)
  (Q : B -> list event -> Prop) :
  unsubmitted (f tt) (fun b t => Q b (Log lvl message args :: t)) ->
  unsubmitted (bind (log lvl message args) f) Q.
Proof.
  intros H.
  apply unsubmitted_bind with (Q1 := fun _ t => t = [Log lvl message args]).
  - now intros w a _ _.
  - intros [] t1 ->. exact H.
Qed.

Lemma unsubmitted_bind_create_result {B} env testcase outcome ref_url data
  groups note (f : unit -> M B) (Q : B -> list event -> Prop) :
  unsubmitted
    (bind (create_result env testcase outcome ref_url data groups note) f) Q.
Proof.
  apply unsubmitted_bind with (Q1 := fun _ _ => False).
  - apply unsubmitted_create_result.
  - intros a t1 [].
Qed.

Ltac unsubmitted_steps :=
  repeat first
    [ apply unsubmitted_bind_lift; intros ? ?
    | apply unsubmitted_bind_gen_uuid; intros ?
    | apply unsubmitted_bind_create_result
    | apply unsubmitted_create_result ].

Section Unsubmitted.

Variable env : environment.

Lemma verify_topic_and_testcase_name_unsubmitted (topic name : string) :
  unsubmitted (verify_topic_and_testcase_name topic name)
    (fun valid t => valid = false -> In NamespaceMismatch (logged WARNING t)).
Proof.
  unfold verify_topic_and_testcase_name.
  destruct (match namespace_from_topic topic with
            | Some ns => String.eqb ns EmptyString
            | None => true
            end).
  - apply unsubmitted_bind_log, unsubmitted_ret. discriminate.
  - destruct (negb _).
    + apply unsubmitted_bind_log, unsubmitted_ret. intros _. now left.
    + apply unsubmitted_ret. discriminate.
Qed.

Lemma umb_result_data_unsubmitted (msg_body system item_type : value) :
  unsubmitted (umb_result_data env msg_body system item_type)
    (fun built t => match built with
                    | Some _ => True
                    | None => In InvalidNsvc (logged ERROR t)
                    end).
Proof.
  assert (Hlift : forall r : res value,
            unsubmitted (lift (d <~ r ;; Ok (Some d)))
              (fun built t => match built with
                              | Some _ => True
                              | None => In InvalidNsvc (logged ERROR t)
                              end)).
  { intros r. apply unsubmitted_lift. intros a H.
    destruct r; [simpl in H|discriminate]. now injection H as <-. }
  unfold umb_result_data.
  destruct (eq_str item_type "productmd-compose"); [apply Hlift|].
  destruct (eq_str item_type "component-version"); [apply Hlift|].
  destruct (eq_str item_type "container-image"); [apply Hlift|].
  destruct (eq_str item_type "redhat-module"); [|apply Hlift].
  unfold redhat_module_data.
  apply unsubmitted_bind_lift; intros msg_body_ci _.
  apply unsubmitted_bind_lift; intros artifact _.
  apply unsubmitted_bind_lift; intros nsvc_field _.
  destruct nsvc_field as [| | |s| |]; try apply unsubmitted_raise.
  destruct (nsvc_match s) as [[[[name stream] version] context]|].
  - apply unsubmitted_lift. intros a H. res_steps H. now injection H as <-.
  - apply unsubmitted_bind_log, unsubmitted_ret. now left.
Qed.

Lemma umb_submit_unsubmitted (msg msg_id msg_body test_run_url outcome groups
  result_data : value) :
  unsubmitted (umb_submit env msg msg_id msg_body test_run_url outcome groups
                 result_data)
    (fun v t => v = VNone /\ In NamespaceMismatch (logged WARNING t)).
Proof.
  unfold umb_submit.
  apply unsubmitted_bind_lift; intros recipients _.
  apply unsubmitted_bind_lift; intros d1 _.
  apply unsubmitted_bind_lift; intros d2 _.
  apply unsubmitted_bind_lift; intros testcase _.
  apply unsubmitted_bind_lift; intros name _.
  apply unsubmitted_bind_lift; intros has_unknown _.
  apply unsubmitted_bind with (Q1 := fun _ _ => True);
    [apply unsubmitted_any | intros _ t1 _].
  apply unsubmitted_bind_lift; intros topic _.
  apply unsubmitted_bind
    with (Q1 := fun valid t =>
                  valid = false -> In NamespaceMismatch (logged WARNING t)).
  { destruct topic, name; try apply unsubmitted_raise.
    apply verify_topic_and_testcase_name_unsubmitted. }
  intros [|] t2 Hvalid; simpl negb; cbv iota.
  - apply unsubmitted_bind_create_result.
  - apply unsubmitted_ret. split; [reflexivity|].
    rewrite app_nil_r, logged_app. apply in_or_app. right. now apply Hvalid.
Qed.

(** X18. No unified-bus message is dropped silently. When the handler
    returns without raising and without having submitted a result, it has
    either logged the error about an invalid [nsvc] and returns [False], or
    it has logged the warning that the namespaces of topic and test case
    differ and returns [None]. *)
Theorem handle_ci_umb_reports_drops (msg : value) (w : world) (v : value) :
  result_of (handle_ci_umb env msg w) = Ok v ->
  submissions (trace_of (handle_ci_umb env msg w)) = [] ->
  drop_reported v (trace_of (handle_ci_umb env msg w)).
Proof.
  enough (H : unsubmitted (handle_ci_umb env msg) drop_reported)
    by exact (H w v).
  unfold handle_ci_umb.
  apply unsubmitted_bind_lift; intros headers _.
  apply unsubmitted_bind_lift; intros msg_id _.
  apply unsubmitted_bind_lift; intros body _.
  apply unsubmitted_bind_lift; intros msg_body _.
  apply unsubmitted_bind_lift; intros artifact _.
  apply unsubmitted_bind_lift; intros item_type _.
  apply unsubmitted_bind_lift; intros run _.
  apply unsubmitted_bind_lift; intros test_run_url _.
  apply unsubmitted_bind_lift; intros outcome _.
  apply unsubmitted_bind_gen_uuid; intros uuid.
  apply unsubmitted_bind_lift; intros system _.
  eapply unsubmitted_bind; [apply umb_result_data_unsubmitted|].
  intros [d|] t1 Hbuilt.
  - eapply unsubmitted_weaken; [apply umb_submit_unsubmitted|].
    intros v' t [-> H]. right. split; [reflexivity|].
    rewrite logged_app. apply in_or_app. now right.
  - apply unsubmitted_ret. left. rewrite app_nil_r. now split.
Qed.

(** X19. A message in ResultsDB format is never dropped: when the handler
    returns without raising, it has submitted at least one result. *)
Theorem handle_resultsdb_format_submits (msg : value) (w : world) :
  result_of (handle_resultsdb_format env msg w) = Ok tt ->
  submissions (trace_of (handle_resultsdb_format env msg w)) <> [].
Proof.
  enough (H : unsubmitted (handle_resultsdb_format env msg) (fun _ _ => False))
    by (intros Hr Hs; exact (H w tt Hr Hs)).
  unfold handle_resultsdb_format.
  apply unsubmitted_bind_lift; intros body _.
  apply unsubmitted_bind_lift; intros msg_body _.
  apply unsubmitted_bind_lift; intros group_ref_url _.
  apply unsubmitted_bind_lift; intros testcase _.
  apply unsubmitted_bind_lift; intros name _.
  apply unsubmitted_bind_lift; intros is_rpmdiff _.
  apply unsubmitted_bind_lift; intros group_ref_url' _.
  apply unsubmitted_bind_lift; intros results _.
  destruct (truthy results) eqn:Hresults.
  - apply unsubmitted_bind_gen_uuid; intros uuid.
    apply unsubmitted_bind_lift; intros entries Hentries.
    destruct results as [| | | | |d]; try discriminate Hentries.
    injection Hentries as <-.
    destruct d as [|[testcase' result] rest]; [discriminate Hresults|].
    simpl resultsdb_bulk. unsubmitted_steps.
  - apply unsubmitted_bind with (Q1 := fun _ _ => True);
      [apply unsubmitted_any | intros first t1 _].
    destruct first; try apply unsubmitted_raise.
    unsubmitted_steps.
Qed.

(** X20. A CI-metrics message is never dropped: when the handler returns
    without raising, it has submitted at least one result. *)
Theorem handle_ci_metrics_submits (msg : value) (w : world) :
  result_of (handle_ci_metrics env msg w) = Ok tt ->
  submissions (trace_of (handle_ci_metrics env msg w)) <> [].
Proof.
  enough (H : unsubmitted (handle_ci_metrics env msg) (fun _ _ => False))
    by (intros Hr Hs; exact (H w tt Hr Hs)).
  unfold handle_ci_metrics.
  apply unsubmitted_bind_lift; intros headers _.
  apply unsubmitted_bind_lift; intros msg_id _.
  apply unsubmitted_bind_lift; intros body _.
  apply unsubmitted_bind_lift; intros m _.
  apply unsubmitted_bind_lift; intros team _.
  apply unsubmitted_bind with (Q1 := fun _ _ => True);
    [apply unsubmitted_any | intros _ t1 _].
  apply unsubmitted_bind_lift; intros has_job_name _.
  apply unsubmitted_bind with (Q1 := fun _ _ => True);
    [apply unsubmitted_any | intros test_name t2 _].
  unsubmitted_steps.
  apply unsubmitted_bind with (Q1 := fun _ _ => True);
    [apply unsubmitted_any | intros overall_outcome t3 _].
  unsubmitted_steps.
Qed.

End Unsubmitted.

Lemma handle_ci_umb_reports_drops_witness :
  let msg := module_message "testmodule-rhel-8" in
  drop_reported (VBool false) (trace_of (handle_ci_umb sample_env msg world0)).
Proof.
  exact (handle_ci_umb_reports_drops sample_env
           (module_message "testmodule-rhel-8") world0 (VBool false)
           eq_refl eq_refl).
Defined.

Lemma handle_resultsdb_format_submits_witness :
  submissions (trace_of (handle_resultsdb_format sample_env
     (resultsdb_message "dist.depcheck" sample_run_url (VDict [])) world0))
  <> [].
Proof.
  exact (handle_resultsdb_format_submits sample_env
           (resultsdb_message "dist.depcheck" sample_run_url (VDict []))
           world0 eq_refl).
Defined.

Lemma handle_ci_metrics_submits_witness :
  submissions (trace_of (handle_ci_metrics sample_env
     (ci_metrics_message two_subtests) world0)) <> [].
Proof.
  exact (handle_ci_metrics_submits sample_env
           (ci_metrics_message two_subtests) world0 eq_refl).
Defined.

(* ------------------------------------------------------------------ *)
(** ** Beyond the claims: what the handlers log *)

Lemma returns_weaken {A} (m : M A) (Q Q' : A -> list event -> Prop) :
  returns m Q -> (forall a t, Q a t -> Q' a t) -> returns m Q'.
Proof. intros H HQ w a Hr. apply HQ. now apply H. Qed.

Lemma returns_ret {A} (a : A) (Q : A -> list event -> Prop) :
  Q a [] -> returns (ret a) Q.
Proof. intros H w b [= <-]. exact H. Qed.

Lemma returns_raise {A} (e : exn) (Q : A -> list event -> Prop) :
  returns (raise e) Q.
Proof. intros w b H. discriminate H. Qed.

Lemma returns_lift {A} (r : res A) (Q : A -> list event -> Prop) :
  (forall a, r = Ok a -> Q a []) -> returns (lift r) Q.
Proof. intros H w b Hr. now apply H. Qed.

Lemma returns_log lvl message args (Q : unit -> list event -> Prop) :
  Q tt [Log lvl message args] -> returns (log lvl message args) Q.
Proof. intros H w [] _. exact H. Qed.

Lemma returns_create_result env testcase outcome ref_url data groups note
  (Q : unit -> list event -> Prop) :
  (forall r, Q tt [Submit r]) ->
  returns (create_result env testcase outcome ref_url data groups note) Q.
Proof. intros H w [] _. apply H. Qed.

Lemma returns_bind {A B} (m : M A) (f : A -> M B)
  (Q1 : A -> list event -> Prop) (Q : B -> list event -> Prop) :
  returns m Q1 ->
  (forall a t1, Q1 a t1 -> returns (f a) (fun b t2 => Q b (t1 ++ t2)%list)) ->
  returns (bind m f) Q.
Proof.
  intros Hm Hf w b. specialize (Hm w).
  unfold bind, result_of, trace_of in *.
  destruct (m w) as [[r w1] t1]. simpl in Hm.
  destruct r as [a|e]; [|discriminate].
  specialize (fun H => Hf a t1 H w1 b). unfold result_of, trace_of in Hf.
  destruct (f a w1) as [[r2 w2] t2]. simpl in *.
  intros Hr. apply Hf; auto.
Qed.

Lemma returns_bind_lift {A B} (r : res A) (f : A -> M B)
  (Q : B -> list event -> Prop) :
  (forall a, r = Ok a -> returns (f a) Q) ->
  returns (bind (lift r) f) Q.
Proof.
  intros H. apply returns_bind with (Q1 := fun a t => r = Ok a /\ t = []).
  - apply returns_lift. auto.
  - intros a t1 [Hr ->]. now apply H.
Qed.

Lemma returns_bind_raise {A B} (e : exn) (f : A -> M B)
  (Q : B -> list event -> Prop) :
  returns (bind (raise e) f) Q.
Proof. intros w b H. discriminate H. Qed.

Lemma returns_bind_gen_uuid {B} env (f : string -> M B)
  (Q : B -> list event -> Prop) :
  (forall uuid, returns (f uuid) Q) ->
  returns (bind (gen_uuid env) f) Q.
Proof.
  intros H. apply returns_bind with (Q1 := fun _ t => t = []).
  - now intros w a _.
  - intros a t1 ->. apply H.
Qed.

Lemma returns_bind_log {B} lvl message args (f : unit -> M B)
  (Q : B -> list event -> Prop) :
  returns (f tt) (fun b t => Q b (Log lvl message args :: t)) ->
  returns (bind (log lvl message args) f) Q.
Proof.
  intros H.
  apply returns_bind with (Q1 := fun _ t => t = [Log lvl message args]).
  - now intros w a _.
  - intros [] t1 ->. exact H.
Qed.

Lemma no_log_app (t1 t2 : list event) :
  no_log t1 -> no_log t2 -> no_log (t1 ++ t2).
Proof.
  intros [W1 E1] [W2 E2]. unfold no_log.
  now rewrite !logged_app, W1, W2, E1, E2.
Qed.

Section Logs.

Variable env : environment.

Lemma create_result_no_log testcase outcome ref_url data groups note :
  returns (create_result env testcase outcome ref_url data groups note)
    (fun _ t => no_log t).
Proof. apply returns_create_result. now split. Qed.

Lemma verify_topic_and_testcase_name_log (topic name : string) :
  returns (verify_topic_and_testcase_name topic name)
    (fun _ t => logged WARNING t = topic_warnings topic name
                /\ logged ERROR t = []).
Proof.
  unfold verify_topic_and_testcase_name, topic_warnings.
  destruct (namespace_from_topic topic) as [ns|].
  - destruct (String.eqb ns EmptyString).
    + apply returns_bind_log, returns_ret. now split.
    + destruct (String.eqb (namespace_from_testcase_name name) ns); simpl negb;
        cbv iota.
      * apply returns_ret. now split.
      * apply returns_bind_log, returns_ret. now split.
  - apply returns_bind_log, returns_ret. now split.
Qed.

Lemma umb_result_data_log (msg_body system item_type : value) :
  returns (umb_result_data env msg_body system item_type)
    (fun built t => logged WARNING t = []
                    /\ logged ERROR t = match built with
                                        | Some _ => []
                                        | None => [InvalidNsvc]
                                        end).
Proof.
  assert (Hlift : forall r : res value,
            returns (lift (d <~ r ;; Ok (Some d)))
              (fun built t => logged WARNING t = []
                              /\ logged ERROR t = match built with
                                                  | Some _ => []
                                                  | None => [InvalidNsvc]
                                                  end)).
  { intros r. apply returns_lift. intros a H.
    destruct r; [simpl in H|discriminate]. now injection H as <-. }
  unfold umb_result_data.
  destruct (eq_str item_type "productmd-compose"); [apply Hlift|].
  destruct (eq_str item_type "component-version"); [apply Hlift|].
  destruct (eq_str item_type "container-image"); [apply Hlift|].
  destruct (eq_str item_type "redhat-module"); [|apply Hlift].
  unfold redhat_module_data.
  apply returns_bind_lift; intros msg_body_ci _.
  apply returns_bind_lift; intros artifact _.
  apply returns_bind_lift; intros nsvc_field _.
  destruct nsvc_field as [| | |s| |]; try apply returns_raise.
  destruct (nsvc_match s) as [[[[name stream] version] context]|].
  - apply returns_lift. intros a H. res_steps H. now injection H as <-.
  - apply returns_bind_log, returns_ret. now split.
Qed.

Lemma umb_submit_log (msg msg_id msg_body test_run_url outcome groups
  result_data : value) :
  message_body msg = Ok msg_body ->
  returns (umb_submit env msg msg_id msg_body test_run_url outcome groups
             result_data)
    (fun v t => v = VNone
                /\ Ok (logged WARNING t) = umb_warnings msg
                /\ logged ERROR t = []).
Proof.
  intros Hbody. unfold umb_submit.
  apply returns_bind_lift; intros recipients _.
  apply returns_bind_lift; intros d1 _.
  apply returns_bind_lift; intros d2 _.
  apply returns_bind_lift; intros testcase Htestcase.
  apply returns_bind_lift; intros name Hname.
  apply returns_bind_lift; intros has_unknown Hunknown.
  apply returns_bind
    with (Q1 := fun _ t =>
                  logged WARNING t
                  = (if has_unknown then [IncompleteTestcase] else [])
                  /\ logged ERROR t = []).
  { destruct has_unknown; [apply returns_log | apply returns_ret]; now split. }
  intros _ t1 [W1 E1].
  apply returns_bind_lift; intros topic Htopic.
  destruct topic as [| | |topic| |]; try apply returns_bind_raise.
  destruct name as [| | |name| |]; try apply returns_bind_raise.
  simpl in Hunknown. injection Hunknown as <-.
  assert (Hwarn : umb_warnings msg
                  = Ok ((if contains "unknown" name
                         then [IncompleteTestcase] else [])
                        ++ topic_warnings topic name)%list).
  { unfold umb_warnings, umb_testcase. rewrite Hbody. cbn [res_bind].
    rewrite Htestcase. cbn [res_bind]. rewrite Hname. cbn [res_bind].
    now rewrite Htopic. }
  eapply returns_bind; [apply verify_topic_and_testcase_name_log|].
  intros valid t2 [W2 E2].
  assert (Hend : forall t3, no_log t3 ->
            VNone = VNone
            /\ Ok (logged WARNING (t1 ++ t2 ++ t3)) = umb_warnings msg
            /\ logged ERROR (t1 ++ t2 ++ t3) = []).
  { intros t3 [W3 E3].
    rewrite !logged_app, W1, W2, W3, E1, E2, E3, Hwarn, app_nil_r.
    now repeat split. }
  destruct valid; simpl negb; cbv iota.
  - eapply returns_bind; [apply create_result_no_log|].
    intros ? t3 H3. apply returns_ret. rewrite app_nil_r. now apply Hend.
  - apply returns_ret. apply Hend. now split.
Qed.

(** X21. What the unified-bus handler logs. When it returns [False], it has
    logged the error about the invalid [nsvc] and nothing else. When it
    returns [None], it has logged no error, and as warnings first the one
    about the incomplete test case name, if [unknown] occurs in the name,
    and then the one the topic calls for: about the old scheme for a topic
    without a namespace, about the mismatch for a namespace that is not
    the one of the test case, none otherwise. *)
Theorem handle_ci_umb_log (msg : value) (w : world) (v : value) :
  result_of (handle_ci_umb env msg w) = Ok v ->
  umb_log msg v (trace_of (handle_ci_umb env msg w)).
Proof.
  enough (H : returns (handle_ci_umb env msg) (umb_log msg)) by exact (H w v).
  unfold handle_ci_umb.
  apply returns_bind_lift; intros headers _.
  apply returns_bind_lift; intros msg_id _.
  apply returns_bind_lift; intros body Hb.
  apply returns_bind_lift; intros msg_body Hm.
  assert (Hbody : message_body msg = Ok msg_body).
  { unfold message_body. now rewrite Hb. }
  apply returns_bind_lift; intros artifact _.
  apply returns_bind_lift; intros item_type _.
  apply returns_bind_lift; intros run _.
  apply returns_bind_lift; intros test_run_url _.
  apply returns_bind_lift; intros outcome _.
  apply returns_bind_gen_uuid; intros uuid.
  apply returns_bind_lift; intros system _.
  eapply returns_bind; [apply umb_result_data_log|].
  intros [d|] t1 [W1 E1].
  - eapply returns_weaken; [apply umb_submit_log; exact Hbody|].
    intros v' t (-> & Hw & He). right.
    rewrite !logged_app, W1, E1. now repeat split.
  - apply returns_ret. left. rewrite app_nil_r. now repeat split.
Qed.

Lemma ci_metrics_tests_no_log (msg team test_name testcase_url component
  recipients ci_tier artifact brew_task_id group_tests_ref_url groups : value)
  (test_type : string) :
  forall tests overall_outcome,
    returns (ci_metrics_tests env msg team test_name testcase_url component
               recipients ci_tier artifact brew_task_id group_tests_ref_url
               groups test_type tests overall_outcome)
            (fun _ t => no_log t).
Proof.
  induction tests as [|test rest IH]; intros overall_outcome; simpl.
  - apply returns_ret. now split.
  - do 10 (apply returns_bind_lift; intros ? _).
    eapply returns_bind; [apply create_result_no_log|].
    intros ? t1 H1. eapply returns_weaken; [apply IH|].
    intros ? t2 H2. now apply no_log_app.
Qed.

(** X22. What the CI-metrics handler logs. When it returns, it has logged
    no error, and as warnings the one about the team, if the message names
    none or names [unassigned], followed by the one about the deprecated
    [job_names], if the message has no [job_name]. *)
Theorem handle_ci_metrics_log (msg : value) (w : world) :
  result_of (handle_ci_metrics env msg w) = Ok tt ->
  Ok (logged WARNING (trace_of (handle_ci_metrics env msg w)))
  = ci_metrics_warnings msg
  /\ logged ERROR (trace_of (handle_ci_metrics env msg w)) = [].
Proof.
  enough (H : returns (handle_ci_metrics env msg)
                (fun _ t => Ok (logged WARNING t) = ci_metrics_warnings msg
                            /\ logged ERROR t = []))
    by exact (H w tt).
  unfold handle_ci_metrics.
  apply returns_bind_lift; intros headers _.
  apply returns_bind_lift; intros msg_id _.
  apply returns_bind_lift; intros body Hb.
  apply returns_bind_lift; intros m Hm.
  assert (Hbody : message_body msg = Ok m).
  { unfold message_body. now rewrite Hb. }
  apply returns_bind_lift; intros team Hteam.
  apply returns_bind
    with (Q1 := fun _ t =>
                  logged WARNING t
                  = (if eq_str team "unassigned" then [MissingTeam] else [])
                  /\ logged ERROR t = []).
  { destruct (eq_str team "unassigned");
      [apply returns_log | apply returns_ret]; now split. }
  intros _ t1 [W1 E1].
  apply returns_bind_lift; intros has_job_name Hhas.
  apply returns_bind
    with (Q1 := fun _ t =>
                  logged WARNING t
                  = (if has_job_name then [] else [JobNamesField])
                  /\ logged ERROR t = []).
  { destruct has_job_name.
    - apply returns_lift. now split.
    - apply returns_bind_lift; intros job_names _.
      apply returns_bind_log, returns_ret. now split. }
  intros test_name t2 [W2 E2].
  assert (Hend : forall t3, no_log t3 ->
            Ok (logged WARNING (t1 ++ t2 ++ t3)) = ci_metrics_warnings msg
            /\ logged ERROR (t1 ++ t2 ++ t3) = []).
  { intros t3 [W3 E3].
    rewrite !logged_app, W1, W2, W3, E1, E2, E3, app_nil_r.
    unfold ci_metrics_warnings. rewrite Hbody. cbn [res_bind].
    rewrite Hteam. cbn [res_bind]. rewrite Hhas. now split. }
  do 11 (apply returns_bind_lift; intros ? _).
  apply returns_bind_gen_uuid; intros uuid.
  apply returns_bind_lift; intros tests_list _.
  eapply returns_bind; [apply ci_metrics_tests_no_log|].
  intros overall_outcome t3 H3.
  apply returns_bind_lift; intros result_data _.
  eapply returns_weaken; [apply create_result_no_log|].
  intros ? t4 H4. apply Hend. now apply no_log_app.
Qed.

End Logs.

Example brew_build_message_log :
  logged WARNING (trace_of (handle_ci_umb sample_env
     (umb_message "/topic/VirtualTopic.eng.ci.platform-ci.brew-build.test.complete"
        brew_build_artifact []) world0))
  = [NamespaceMismatch].
Proof. reflexivity. Qed.

Lemma handle_ci_umb_log_witness :
  let msg := umb_message
               "/topic/VirtualTopic.eng.ci.platform-ci.brew-build.test.complete"
               brew_build_artifact [] in
  umb_log msg VNone (trace_of (handle_ci_umb sample_env msg world0)).
Proof.
  exact (handle_ci_umb_log sample_env
           (umb_message
              "/topic/VirtualTopic.eng.ci.platform-ci.brew-build.test.complete"
              brew_build_artifact []) world0 VNone eq_refl).
Defined.

Lemma handle_ci_metrics_log_witness :
  let msg := ci_metrics_message two_subtests in
  Ok (logged WARNING (trace_of (handle_ci_metrics sample_env msg world0)))
  = ci_metrics_warnings msg
  /\ logged ERROR (trace_of (handle_ci_metrics sample_env msg world0)) = [].
Proof.
  exact (handle_ci_metrics_log sample_env (ci_metrics_message two_subtests)
           world0 eq_refl).
Defined.

(* ------------------------------------------------------------------ *)
(** ** Beyond the claims: the namespace of a test case name *)

Lemma namespace_of_dotless_name (first : string) :
  count_char "." first = 0 -> namespace_from_testcase_name first = first.
Proof.
  unfold namespace_from_testcase_name.
  induction first as [|x first IH]; [reflexivity|].
  cbn [count_char]. destruct (Ascii.eqb x ".") eqn:E; [discriminate|].
  intros H. rewrite split1_head_cons by exact E. now rewrite IH.
Qed.

(** X23. The namespace of a test case name is its first component: it has
    no dot, and the name is the namespace alone or the namespace followed
    by a dot and the rest. It is the only such prefix, whatever dots the
    rest has. *)
Theorem testcase_namespace_first_component (name : string) :
  let ns := namespace_from_testcase_name name in
  (count_char "." ns = 0
   /\ (name = ns \/ exists rest, name = ns ++ "." ++ rest))
  /\ forall first rest,
       count_char "." first = 0 ->
       name = first \/ name = first ++ "." ++ rest ->
       ns = first.
Proof.
  cbv zeta. split.
  - unfold namespace_from_testcase_name.
    induction name as [|x name [IHc IHn]].
    + split; [reflexivity | now left].
    + destruct (Ascii.eqb_spec x ".") as [->|Hx].
      * split; [reflexivity|]. right. now exists name.
      * assert (E : Ascii.eqb x "." = false) by now apply Ascii.eqb_neq.
        rewrite split1_head_cons by exact E. cbn [count_char]. rewrite E.
        split; [exact IHc|].
        destruct IHn as [IHn|[rest IHn]].
        -- left. now rewrite <- IHn.
        -- right. exists rest. cbn [append]. f_equal. exact IHn.
  - intros first rest Hfirst [->| ->].
    + now apply namespace_of_dotless_name.
    + rewrite namespace_of_longer_name. now apply namespace_of_dotless_name.
Qed.

(* ------------------------------------------------------------------ *)
(** ** Beyond the claims: the item of a component version *)

Lemma without_none_present (k : string) (v : value) (before after : dict) :
  v <> VNone ->
  existsb (String.eqb k) (map fst after) = false ->
  assoc k (without_none (before ++ (k, v) :: after)%list) = Some v.
Proof.
  intros Hv Hafter. rewrite without_none_fold, fold_left_app.
  cbn [fold_left]. rewrite fold_keep_other by exact Hafter.
  unfold keep_not_none. cbn [fst snd].
  destruct v; try contradiction; apply assoc_dict_set_same.
Qed.

Lemma getitem_without_none (k : string) (v : value) (before after : dict) :
  v <> VNone ->
  existsb (String.eqb k) (map fst after) = false ->
  getitem (VDict (without_none (before ++ (k, v) :: after)%list)) k = Ok v.
Proof.
  intros Hv Hafter. cbn [getitem].
  now rewrite without_none_present.
Qed.

Section ComponentVersion.

Variable env : environment.

(** X24. Every result submitted for a component-version message has the
    item [component-version], made of [artifact.component] and
    [artifact.version], and carries each of the two under its own key
    unless it is null. *)
Theorem component_version_item (msg : value) (w : world) :
  artifact_type msg = Ok (VStr "component-version") ->
  Forall (fun r =>
            exists component version,
              artifact_field msg "component" = Ok component
              /\ artifact_field msg "version" = Ok version
              /\ getitem (req_data r) "item"
                 = Ok (VStr (fmt env component ++ "-" ++ fmt env version))
              /\ (component <> VNone ->
                  getitem (req_data r) "component" = Ok component)
              /\ (version <> VNone ->
                  getitem (req_data r) "version" = Ok version))
         (submissions (trace_of (handle_ci_umb env msg w))).
Proof.
  intros Htype.
  set (good := fun d : value =>
         exists component version,
           artifact_field msg "component" = Ok component
           /\ artifact_field msg "version" = Ok version
           /\ getitem d "item"
              = Ok (VStr (fmt env component ++ "-" ++ fmt env version))
           /\ (component <> VNone -> getitem d "component" = Ok component)
           /\ (version <> VNone -> getitem d "version" = Ok version)).
  apply handle_ci_umb_submissions
    with (R0 := fun built => forall d, built = Some d -> good d).
  - intros msg_body system item_type' Htype' Hbody Hsys.
    rewrite Htype in Htype'. injection Htype' as <-.
    unfold umb_result_data. simpl eq_str. cbv iota.
    apply spec_lift. intros built H.
    destruct (component_version_data env msg_body _) as [d|] eqn:E;
      [simpl in H|discriminate].
    injection H as <-. intros d' [= <-].
    unfold component_version_data in E.
    destruct (getitem msg_body "artifact") as [artifact|] eqn:Ea;
      [cbn [res_bind] in E|discriminate].
    destruct (getitem artifact "component") as [component|] eqn:Ec;
      [cbn [res_bind] in E|discriminate].
    destruct (getitem artifact "version") as [version|] eqn:Ev;
      [cbn [res_bind] in E|discriminate].
    res_steps E. injection E as <-.
    exists component, version.
    rewrite !(artifact_field_of_body msg msg_body _ Hbody), Ea.
    cbn [res_bind]. repeat split; try assumption.
    + apply (getitem_without_none "item" _ [] _);
        [discriminate | reflexivity].
    + intros Hc.
      apply (getitem_without_none "component" component
               [_; _; _; _; _; _; _; _] [_; _]); [exact Hc | reflexivity].
    + intros Hv.
      apply (getitem_without_none "version" version
               [_; _; _; _; _; _; _; _; _] [_]); [exact Hv | reflexivity].
  - intros d msg_id msg_body test_run_url outcome _ _ _ Hd.
    specialize (Hd d eq_refl).
    eapply spec_weaken; [apply umb_submit_request | intros r H; exact H | auto].
    intros recipients d1 d2 testcase name topic _ H1 H2 _ _ _ _. simpl.
    destruct Hd as (component & version & Hc & Hv & Hi & Hdc & Hdv).
    exists component, version.
    rewrite !(umb_data_keeps_key _ recipients d d1 d2 msg) by easy.
    now repeat split.
Qed.

End ComponentVersion.

Lemma component_version_item_witness :
  let msg := umb_message component_version_topic component_version_artifact
               [] in
  Forall (fun r =>
            exists component version,
              artifact_field msg "component" = Ok component
              /\ artifact_field msg "version" = Ok version
              /\ getitem (req_data r) "item"
                 = Ok (VStr (fmt sample_env component ++ "-"
                             ++ fmt sample_env version))
              /\ (component <> VNone ->
                  getitem (req_data r) "component" = Ok component)
              /\ (version <> VNone ->
                  getitem (req_data r) "version" = Ok version))
         (submissions (trace_of (handle_ci_umb sample_env msg world0))).
Proof.
  exact (component_version_item sample_env
           (umb_message component_version_topic component_version_artifact [])
           world0 eq_refl).
Defined.

(* ------------------------------------------------------------------ *)
(** ** C3: the item of a module build, from the message to the submission *)

Ltac known_key H :=
  match type of H with
  | assoc ?k ?d <> None =>
      let x := fresh "x" in
      let E := fresh "E" in
      destruct (assoc k d) as [x|] eqn:E; [clear H | contradiction]
  end.

Ltac known_keys :=
  repeat match goal with
         | E : assoc ?k ?d = Some _ |- context [assoc ?k ?d] => rewrite E
         end.

Section ModuleItem.

Variable env : environment.

Hypothesis post_always_ok : forall n r, post_ok env n r = true.

Lemma verify_topic_and_testcase_name_runs (topic name : string) (w : world) :
  runs (verify_topic_and_testcase_name topic name) w
       (fun valid _ subs => valid = topic_accepts topic name /\ subs = []).
Proof.
  destruct (verify_topic_and_testcase_name_result topic name w)
    as (Hr & Hs & _).
  unfold runs, result_of, trace_of in *.
  destruct (verify_topic_and_testcase_name topic name w) as [[r w'] t].
  simpl in Hr, Hs. subst r. now eexists _, _, _.
Qed.

(** A complete module message with an [nsvc] the pattern matches is
    submitted, once. *)
Lemma complete_module_message_runs (msg : value) (w : world)
  (nsvc name stream version context : string) :
  artifact_type msg = Ok (VStr "redhat-module") ->
  artifact_field msg "nsvc" = Ok (VStr nsvc) ->
  nsvc_match nsvc = Some (name, stream, version, context) ->
  complete_module_message msg ->
  runs (handle_ci_umb env msg) w
       (fun v _ subs => v = VNone /\ exists r, subs = [r]).
Proof.
  intros Htype Hnsvc Hmatch
    ((headers & Hh & Hid) & (outcome & Ho)
     & (topic & testcase & tname & Htopic & Htestcase & Htname & Haccept)
     & (system & Hsystem)
     & fields & artifact & run & ci & Hbody & Hartifact & Hcontext & Hname
     & Hstream & Hversion & Hrun & Hurl & Hlog & Hci & Hcategory).
  unfold artifact_type in Htype. unfold artifact_field in Hnsvc.
  unfold umb_testcase in Htestcase. rewrite Hbody in Htestcase.
  cbn [res_bind] in Htestcase.
  unfold message_system in Hsystem. rewrite Hbody in Hsystem.
  cbn [res_bind] in Hsystem.
  unfold message_body in Hbody.
  destruct (getitem msg "body") as [body|] eqn:Hb;
    [cbn [res_bind] in Hbody, Htype, Hnsvc|discriminate].
  rewrite Hbody in Htype, Hnsvc. cbn [res_bind] in Htype, Hnsvc.
  assert (Ha : getitem (VDict fields) "artifact" = Ok (VDict artifact))
    by (simpl; now rewrite Hartifact).
  rewrite Ha in Htype, Hnsvc. cbn [res_bind] in Htype, Hnsvc.
  destruct (get_default (VDict fields) "system" (VDict []))
    as [system0|] eqn:Hsys; [cbn [res_bind] in Hsystem|discriminate].
  injection Hsystem as Hsystem.
  known_key Hid. known_key Hcontext. known_key Hname. known_key Hstream.
  known_key Hversion. known_key Hurl. known_key Hlog. known_key Hcategory.
  unfold handle_ci_umb.
  apply runs_bind_lift with (1 := Hh).
  eapply runs_bind_lift; [cbn [getitem]; known_keys; reflexivity|].
  apply runs_bind_lift with (1 := Hb).
  apply runs_bind_lift with (1 := Hbody).
  apply runs_bind_lift with (1 := Ha).
  apply runs_bind_lift with (1 := Htype).
  eapply runs_bind_lift; [cbn [getitem]; now rewrite Hrun|].
  eapply runs_bind_lift; [cbn [getitem]; known_keys; reflexivity|].
  apply runs_bind_lift with (1 := Ho).
  apply runs_bind_gen_uuid.
  apply runs_bind_lift with (1 := Hsys).
  cbv zeta. rewrite Hsystem.
  eapply runs_bind
    with (Q1 := fun built _ s1 => (exists d, built = Some (VDict d))
                                  /\ s1 = []).
  { unfold umb_result_data. simpl eq_str. cbv iota.
    unfold redhat_module_data.
    eapply runs_bind_lift; [cbn [getitem]; now rewrite Hci|].
    apply runs_bind_lift with (1 := Ha).
    apply runs_bind_lift with (1 := Hnsvc).
    rewrite Hmatch.
    match goal with
    | |- runs (lift ?chain) _ _ =>
        assert (Hchain : exists d, chain = Ok (Some (VDict d)))
    end.
    { unfold get.
      repeat (cbn [res_bind getitem get_default]; known_keys;
              try match goal with
                  | |- context [match assoc ?k ?d with _ => _ end] =>
                      destruct (assoc k d)
                  end);
        eexists; reflexivity. }
    destruct Hchain as [d Hchain].
    apply runs_lift with (1 := Hchain). split; [now exists d | reflexivity]. }
  intros built w1 s1 ((d & ->) & ->).
  unfold umb_submit.
  destruct (get_default_dict fields "recipients" (VList []))
    as [recipients Hrec].
  apply runs_bind_lift with (1 := Hrec).
  eapply runs_bind_lift; [reflexivity|].
  match goal with
  | |- runs (bind (lift (update_publisher_id (VDict ?d1) msg)) _) _ _ =>
      destruct (update_publisher_id_dict msg headers d1 Hh) as [d2 Hd2]
  end.
  apply runs_bind_lift with (1 := Hd2).
  apply runs_bind_lift with (1 := Htestcase).
  apply runs_bind_lift with (1 := Htname).
  eapply runs_bind_lift; [reflexivity|].
  apply runs_bind_silent.
  { destruct (contains "unknown" tname); [apply runs_log | apply runs_ret];
      now split. }
  intros _.
  apply runs_bind_lift with (1 := Htopic).
  eapply runs_bind; [apply verify_topic_and_testcase_name_runs|].
  intros valid w2 s2 (-> & ->). rewrite Haccept. simpl negb. cbv iota.
  eapply runs_bind.
  { apply runs_create_result with (Q := fun _ _ s => exists r, s = [r]);
      [exact post_always_ok|].
    eexists. reflexivity. }
  intros [] w3 s3 (r & ->). apply runs_ret.
  split; [reflexivity|]. now exists r.
Qed.

End ModuleItem.

(** C3 (amended). For a redhat-module message whose [artifact.nsvc] is
    [name:stream:version:context], each part free of colons and of
    newlines, the pattern yields these four parts, the message is not
    dropped as an invalid nsvc, and the item of every result submitted is
    [name-stream'-version.context] with [stream'] the stream in which every
    hyphen is an underscore; name, version and context are unchanged. Such
    a result is submitted: when the message is complete and ResultsDB
    accepts the submission, the handler returns after exactly one
    submission, which has that item. *)
Theorem redhat_module_item :
  forall (env : environment) (msg : value) (w : world)
         (name stream version context : string),
    artifact_type msg = Ok (VStr "redhat-module") ->
    artifact_field msg "nsvc"
      = Ok (VStr (name ++ ":" ++ stream ++ ":" ++ version ++ ":" ++ context)) ->
    count_char ":" name = 0 -> count_char ":" stream = 0 ->
    count_char ":" version = 0 -> count_char ":" context = 0 ->
    all_chars dot name = true -> all_chars dot stream = true ->
    all_chars dot version = true -> all_chars dot context = true ->
    nsvc_match (name ++ ":" ++ stream ++ ":" ++ version ++ ":" ++ context)
      = Some (name, stream, version, context)
    /\ result_of (handle_ci_umb env msg w) <> Ok (VBool false)
    /\ Forall (fun r => getitem (req_data r) "item"
                        = Ok (VStr (module_item name stream version context)))
              (submissions (trace_of (handle_ci_umb env msg w)))
    /\ (complete_module_message msg ->
        (forall n r, post_ok env n r = true) ->
        result_of (handle_ci_umb env msg w) = Ok VNone
        /\ exists r,
             submissions (trace_of (handle_ci_umb env msg w)) = [r]
             /\ getitem (req_data r) "item"
                = Ok (VStr (module_item name stream version context))).
Proof.
  intros env msg w name stream version context Htype Hnsvc
    Cn Cs Cv Cc Dn Ds Dv Dc.
  pose proof (nsvc_match_joined name stream version context
                Dn Ds Dv Dc Cs Cv Cc) as Hmatch.
  split; [exact Hmatch|].
  set (item := VStr (module_item name stream version context)).
  assert (Hspec : spec (handle_ci_umb env msg)
                    (fun r => getitem (req_data r) "item" = Ok item)
                    (fun v => v = VNone)).
  { apply handle_ci_umb_spec
      with (R0 := fun built => exists d, built = Some d
                                         /\ getitem d "item" = Ok item).
    - intros msg_body system item_type Htype' Hbody.
      rewrite Htype in Htype'. injection Htype' as <-.
      unfold artifact_field in Hnsvc. unfold message_body in Hbody.
      destruct (getitem msg "body") as [body|]; [simpl in *|discriminate].
      rewrite Hbody in Hnsvc. simpl in Hnsvc.
      unfold umb_result_data. simpl. unfold redhat_module_data.
      apply spec_bind_lift; intros ci _.
      apply spec_bind_lift; intros artifact Ha.
      rewrite Ha in Hnsvc. simpl in Hnsvc.
      apply spec_bind_lift; intros nsvc_field Hn.
      rewrite Hn in Hnsvc. injection Hnsvc as ->. rewrite Hmatch.
      apply spec_lift. intros built H. res_steps H.
      injection H as <-. eexists. split; reflexivity.
    - intros (d & [=] & _).
    - intros d msg_id msg_body test_run_url outcome uuid _
        (d' & [= <-] & Hd).
      eapply spec_weaken.
      + apply umb_submit_spec
          with (R := fun data => getitem data "item" = Ok item).
        intros recipients d1 d2 _ H1 H2.
        rewrite (getitem_update_publisher_id "item" d1 d2 msg) by easy.
        now rewrite (getitem_setitem_other "recipients" "item" recipients d d1)
          by easy.
      + now intros r [H _].
      + auto. }
  destruct (Hspec w) as [Hsub Hres]. split; [|split; [exact Hsub|]].
  { intros E. apply Hres in E. discriminate. }
  intros Hcomplete Hpost.
  destruct (complete_module_message_runs env Hpost msg w _ name stream version
              context Htype Hnsvc Hmatch Hcomplete)
    as (v & w' & t & Hrun & -> & r & Hr).
  rewrite Hrun in Hsub |- *. unfold result_of, trace_of in *. simpl in *.
  split; [reflexivity|]. exists r. split; [exact Hr|].
  rewrite Hr in Hsub. now inversion Hsub.
Qed.

Lemma sample_module_message_complete (nsvc : string) :
  complete_module_message (module_message nsvc).
Proof.
  split; [eexists; split; [reflexivity | discriminate]|].
  split; [eexists; reflexivity|].
  split; [eexists _, _, _; repeat split; reflexivity|].
  split; [eexists; reflexivity|].
  eexists _, _, _, _. repeat split; try reflexivity; discriminate.
Defined.

Lemma redhat_module_item_witness :
  let msg := module_message "testmodule:rhel-8:20180816142114:c2c572ec" in
  artifact_type msg = Ok (VStr "redhat-module")
  /\ result_of (handle_ci_umb sample_env msg world0) = Ok VNone
  /\ exists r,
       submissions (trace_of (handle_ci_umb sample_env msg world0)) = [r]
       /\ getitem (req_data r) "item"
          = Ok (VStr "testmodule-rhel_8-20180816142114.c2c572ec").
Proof.
  cbv zeta. split; [reflexivity|].
  exact (proj2 (proj2 (proj2 (redhat_module_item sample_env
    (module_message "testmodule:rhel-8:20180816142114:c2c572ec") world0
    "testmodule" "rhel-8" "20180816142114" "c2c572ec"
    eq_refl eq_refl eq_refl eq_refl eq_refl eq_refl
    eq_refl eq_refl eq_refl eq_refl)))
    (sample_module_message_complete _) (fun _ _ => eq_refl)).
Defined.

(* ------------------------------------------------------------------ *)
(** ** C9: the group of an rpmdiff result *)

Section RpmdiffGroup.

Variable env : environment.

(** C9. For a message in ResultsDB format whose test case name starts with
    [dist.rpmdiff] and whose [ref_url] is a string: when the rpmdiff pattern
    matches, the one group of every submission has the [ref_url]
    [url_prefix + run]; for a URL [http...]/run/<id>, with or without a
    trailing slash or [/<result-id>], where the ids are decimal numbers in
    the digits of any script, this is [http...]/run/<id>. When the pattern
    does not match, the handler raises [ValueError] with no request sent, no
    submission made and nothing logged. Results are submitted under the
    collapsed URL: for a message with one result, when ResultsDB answers
    the query for the group and accepts the submission, the handler returns
    after exactly one submission, which keeps the [ref_url] of the message
    and has the group of the collapsed URL; for a message with a [results]
    mapping, when ResultsDB accepts the submissions, it returns after one
    submission for each entry. *)
Theorem rpmdiff_group_ref_url_collapsed (msg : value) (w : world)
  (name ref_url : string) :
  resultsdb_testcase_name msg = Ok (VStr name) ->
  startswith "dist.rpmdiff" name = true ->
  resultsdb_ref_url msg = Ok (VStr ref_url) ->
  (forall url_prefix run result,
      rpmdiff_match ref_url = Some (url_prefix, run, result) ->
      Forall (fun r => group_ref_urls r = [Ok (VStr (url_prefix ++ run))])
             (submissions (trace_of (handle_resultsdb_format env msg w))))
  /\ (forall middle id tail result,
        middle <> EmptyString -> all_chars dot middle = true ->
        decimal_number id ->
        rpmdiff_tail tail result ->
        ref_url = "http" ++ middle ++ "/run/" ++ id ++ tail ->
        Forall (fun r => group_ref_urls r
                         = [Ok (VStr ("http" ++ middle ++ "/run/" ++ id))])
               (submissions (trace_of (handle_resultsdb_format env msg w))))
  /\ (rpmdiff_match ref_url = None ->
        handle_resultsdb_format env msg w = (Raise ValueError, w, []))
  /\ (forall url_prefix run result testcase outcome found group,
        rpmdiff_match ref_url = Some (url_prefix, run, result) ->
        single_message msg testcase outcome ref_url (url_prefix ++ run) ->
        groups_found env (requests_sent w) (url_prefix ++ run) = Ok found ->
        first_group found = VDict group ->
        (forall r, post_ok env (S (requests_sent w)) r = true) ->
        result_of (handle_resultsdb_format env msg w) = Ok tt
        /\ exists r,
             submissions (trace_of (handle_resultsdb_format env msg w)) = [r]
             /\ req_ref_url r = VStr ref_url
             /\ group_ref_urls r = [Ok (VStr (url_prefix ++ run))])
  /\ (forall url_prefix run result results,
        rpmdiff_match ref_url = Some (url_prefix, run, result) ->
        bulk_message msg results (url_prefix ++ run) ->
        (forall n r, post_ok env n r = true) ->
        result_of (handle_resultsdb_format env msg w) = Ok tt
        /\ List.length
             (submissions (trace_of (handle_resultsdb_format env msg w)))
           = List.length results
        /\ submissions (trace_of (handle_resultsdb_format env msg w)) <> []).
Proof.
  intros Hname Hstarts Href.
  unfold resultsdb_testcase_name, resultsdb_ref_url, message_body
    in Hname, Href.
  destruct (getitem msg "body") as [body|] eqn:Hb; [simpl in *|discriminate].
  destruct (getitem body "msg") as [msg_body|] eqn:Hm;
    [simpl in *|discriminate].
  destruct (get_default msg_body "testcase" (VDict [])) as [testcase|] eqn:Ht;
    [simpl in Hname|discriminate].
  assert (Hmatched : forall url_prefix run result,
      rpmdiff_match ref_url = Some (url_prefix, run, result) ->
      Forall (fun r => group_ref_urls r = [Ok (VStr (url_prefix ++ run))])
             (submissions (trace_of (handle_resultsdb_format env msg w)))).
  { intros url_prefix run result Hmatch.
    assert (Hspec : spec (handle_resultsdb_format env msg)
              (fun r => group_ref_urls r = [Ok (VStr (url_prefix ++ run))])
              (fun _ => True)).
    { unfold handle_resultsdb_format.
      apply spec_bind_lift; intros ? E; rewrite Hb in E; injection E as <-.
      apply spec_bind_lift; intros ? E; rewrite Hm in E; injection E as <-.
      apply spec_bind_lift; intros ? E; rewrite Href in E; injection E as <-.
      apply spec_bind_lift; intros ? E; rewrite Ht in E; injection E as <-.
      apply spec_bind_lift; intros ? E; rewrite Hname in E; injection E as <-.
      simpl str_method. rewrite Hstarts.
      apply spec_bind_lift; intros ? [= <-].
      unfold rpmdiff_group_ref_url. rewrite Hmatch.
      apply spec_bind_lift; intros ? [= <-].
      apply spec_bind_lift; intros results _.
      destruct (truthy results).
      - apply spec_bind with (Q1 := fun _ => True);
          [now apply spec_gen_uuid | intros uuid _].
        apply spec_bind_lift; intros results' _.
        eapply spec_weaken; [apply (resultsdb_bulk_groups env)| |auto].
        intros r Hr. unfold group_ref_urls. now rewrite Hr.
      - apply spec_bind with (Q1 := fun _ => True);
          [now apply spec_get_first_group | intros first_group _].
        destruct first_group; try apply spec_raise.
        apply spec_bind with (Q1 := fun _ => True);
          [now apply spec_gen_uuid | intros fresh _].
        apply spec_bind_lift; intros uuid _.
        apply spec_bind_lift; intros result_data _.
        apply spec_bind_lift; intros result_data' _.
        apply spec_bind_lift; intros testcase' _.
        apply spec_bind_lift; intros outcome _.
        apply spec_bind_lift; intros ref_url' _.
        apply spec_bind_lift; intros note _.
        now apply spec_create_result. }
    exact (proj1 (Hspec w)). }
  split; [exact Hmatched|]. split; [|split; [|split]].
  - intros middle id tail result Hmne Hmd Hid Htail ->.
    pose proof (rpmdiff_match_run_url middle id tail result
                  Hmne Hmd Hid Htail) as Hmatch.
    apply Hmatched in Hmatch. now rewrite !append_assoc in Hmatch.
  - intros Hnone. unfold handle_resultsdb_format.
    rewrite (bind_lift_ok _ _ _ _ Hb), (bind_lift_ok _ _ _ _ Hm),
      (bind_lift_ok _ _ _ _ Href), (bind_lift_ok _ _ _ _ Ht),
      (bind_lift_ok _ _ _ _ Hname).
    simpl str_method. rewrite Hstarts.
    rewrite (bind_lift_ok _ true) by reflexivity.
    apply bind_lift_raise. unfold rpmdiff_group_ref_url. now rewrite Hnone.
  - intros url_prefix run result testcase' outcome found group Hmatch Hsingle
      Hfound Hfirst Hpost.
    destruct (handle_resultsdb_format_single env msg testcase' outcome ref_url
                (url_prefix ++ run) w found group Hsingle Hfound Hfirst Hpost)
      as (d & data & note & _ & _ & Hrun).
    rewrite Hrun. split; [reflexivity|].
    eexists. split; [reflexivity|]. split; reflexivity.
  - intros url_prefix run result results Hmatch Hbulk Hpost.
    rewrite (handle_resultsdb_format_bulk env msg results (url_prefix ++ run)
               w Hbulk).
    destruct Hbulk as ((headers & Hh) & fields & name' & ref_url' & _ & _ & _
                       & _ & _ & Hne & Hwf).
    destruct (resultsdb_bulk_runs env msg
                (VList [VDict [("uuid", VStr (uuid4 env (uuids_drawn w)));
                               ("ref_url", VStr (url_prefix ++ run))]])
                headers Hpost Hh eq_refl results
                {| uuids_drawn := S (uuids_drawn w);
                   requests_sent := requests_sent w |} Hwf)
      as ([] & w' & t & Hrun & _ & Hsubs).
    rewrite Hrun. unfold result_of, trace_of. simpl.
    split; [reflexivity|]. split.
    + symmetry. exact (Forall2_length Hsubs).
    + intros E. rewrite E in Hsubs.
      destruct results; [contradiction | inversion Hsubs].
Qed.

End RpmdiffGroup.

Lemma sample_rpmdiff_message_single :
  single_message
    (resultsdb_message "dist.rpmdiff.comparison.abi_symbols"
       "https://rpmdiff.example.com/run/97881/26" (VDict []))
    (VDict [("name", VStr "dist.rpmdiff.comparison.abi_symbols");
            ("ref_url", VStr "https://ci.example.com")])
    (VStr "PASSED") "https://rpmdiff.example.com/run/97881/26"
    "https://rpmdiff.example.com/run/97881".
Proof.
  split; [eexists; reflexivity|].
  eexists _, "dist.rpmdiff.comparison.abi_symbols".
  repeat split; try reflexivity.
  eexists. reflexivity.
Defined.

Lemma rpmdiff_group_ref_url_collapsed_witness :
  let msg := resultsdb_message "dist.rpmdiff.comparison.abi_symbols"
               "https://rpmdiff.example.com/run/97881/26" (VDict []) in
  resultsdb_testcase_name msg
  = Ok (VStr "dist.rpmdiff.comparison.abi_symbols")
  /\ result_of (handle_resultsdb_format sample_env msg world0) = Ok tt
  /\ exists r,
       submissions (trace_of (handle_resultsdb_format sample_env msg world0))
       = [r]
       /\ req_ref_url r = VStr "https://rpmdiff.example.com/run/97881/26"
       /\ group_ref_urls r
          = [Ok (VStr "https://rpmdiff.example.com/run/97881")].
Proof.
  cbv zeta. split; [reflexivity|].
  destruct (rpmdiff_group_ref_url_collapsed sample_env
              (resultsdb_message "dist.rpmdiff.comparison.abi_symbols"
                 "https://rpmdiff.example.com/run/97881/26" (VDict []))
              world0 "dist.rpmdiff.comparison.abi_symbols"
              "https://rpmdiff.example.com/run/97881/26"
              eq_refl eq_refl eq_refl) as (_ & _ & _ & H & _).
  exact (H "https://rpmdiff.example.com/run/" "97881" (Some "26") _
           (VStr "PASSED") [] [] eq_refl sample_rpmdiff_message_single
           eq_refl eq_refl (fun _ => eq_refl)).
Defined.

Example rpmdiff_arabic_indic_submitted :
  map (fun r => (req_ref_url r, group_ref_urls r))
      (submissions (trace_of (handle_resultsdb_format sample_env
         (resultsdb_message "dist.rpmdiff.comparison.abi_symbols"
            ("http://rpmdiff.example.com/run/" ++ arabic_indic_123 ++ "/7")
            (VDict []))
         world0)))
  = [(VStr ("http://rpmdiff.example.com/run/" ++ arabic_indic_123 ++ "/7"),
      [Ok (VStr ("http://rpmdiff.example.com/run/" ++ arabic_indic_123))])].
Proof. reflexivity. Qed.

(* ------------------------------------------------------------------ *)
(** ** C7: [item] and [type], and the data of the ResultsDB format *)

Section DataPassedOn.

Variable env : environment.

Lemma resultsdb_bulk_passes_data (msg msg_body groups : value) (all : dict) :
  message_body msg = Ok msg_body ->
  get msg_body "results" = Ok (VDict all) ->
  forall results,
    (forall entry, In entry results -> In entry all) ->
    spec (resultsdb_bulk env msg groups results) (passes_data_on msg)
         (fun _ => True).
Proof.
  intros Hbody Hres.
  induction results as [|[testcase result] rest IH]; intros Hin; simpl.
  - now apply spec_ret.
  - apply spec_bind_lift; intros d Hd.
    apply spec_bind_lift; intros d' Hd'.
    apply spec_bind_lift; intros outcome _.
    apply spec_bind_lift; intros ref_url _.
    apply spec_bind_lift; intros note _.
    apply spec_bind with (Q1 := fun _ => True).
    + apply spec_create_result; [|exact I]. exists d. split; [|split].
      * right. exists msg_body, all, testcase, result.
        repeat split; auto. apply Hin. now left.
      * exact Hd'.
      * intros k Hk. simpl.
        now apply getitem_update_publisher_id with (msg := msg).
    + intros _ _. apply IH. intros e He. apply Hin. now right.
Qed.

Lemma handle_resultsdb_format_passes_data (msg : value) :
  spec (handle_resultsdb_format env msg) (passes_data_on msg) (fun _ => True).
Proof.
  unfold handle_resultsdb_format.
  apply spec_bind_lift; intros body Hb.
  apply spec_bind_lift; intros msg_body Hm.
  assert (Hbody : message_body msg = Ok msg_body).
  { unfold message_body. now rewrite Hb. }
  apply spec_bind_lift; intros group_ref_url _.
  apply spec_bind_lift; intros testcase _.
  apply spec_bind_lift; intros name _.
  apply spec_bind_lift; intros is_rpmdiff _.
  apply spec_bind_lift; intros group_ref_url' _.
  apply spec_bind_lift; intros results Hres.
  destruct (truthy results).
  - apply spec_bind with (Q1 := fun _ => True);
      [now apply spec_gen_uuid | intros uuid _].
    apply spec_bind_lift; intros entries Hentries.
    destruct results as [| | | | |all]; try discriminate Hentries.
    injection Hentries as <-.
    now apply resultsdb_bulk_passes_data with (msg_body := msg_body)
                                              (all := all).
  - apply spec_bind with (Q1 := fun _ => True);
      [now apply spec_get_first_group | intros first _].
    destruct first; try apply spec_raise.
    apply spec_bind with (Q1 := fun _ => True);
      [now apply spec_gen_uuid | intros fresh _].
    apply spec_bind_lift; intros uuid _.
    apply spec_bind_lift; intros data Hdata.
    apply spec_bind_lift; intros data' Hdata'.
    apply spec_bind_lift; intros testcase' _.
    apply spec_bind_lift; intros outcome _.
    apply spec_bind_lift; intros ref_url' _.
    apply spec_bind_lift; intros note _.
    apply spec_create_result; [|exact I]. exists data. split; [|split].
    + left. unfold resultsdb_data_field. now rewrite Hbody.
    + exact Hdata'.
    + intros k Hk. simpl.
      now apply getitem_update_publisher_id with (msg := msg).
Qed.

(** C7 (amended). Every [result_data] the CI-metrics handler and the
    unified-bus handler submit has an [item] key and a [type] key. The
    handler of the ResultsDB format passes the data of the message on:
    the data of every result it submits is [body.msg.data], or the [data]
    of an entry of [body.msg.results] (by default the empty mapping), after
    [update_publisher_id], so that every key but [publisher_id] is as in
    the message. Such a result is submitted: for a message with one result,
    when ResultsDB answers the query for the group and accepts the
    submission, exactly one result is submitted, with the data of the
    message, and it has [item] and [type] exactly when the message's data
    has them. *)
Theorem item_and_type_in_result_data (msg : value) (w : world) :
  Forall has_item_and_type
    (submissions (trace_of (handle_ci_metrics env msg w)))
  /\ Forall has_item_and_type
       (submissions (trace_of (handle_ci_umb env msg w)))
  /\ Forall (passes_data_on msg)
       (submissions (trace_of (handle_resultsdb_format env msg w)))
  /\ (forall testcase outcome ref_url group_url found group,
        single_message msg testcase outcome ref_url group_url ->
        groups_found env (requests_sent w) group_url = Ok found ->
        first_group found = VDict group ->
        (forall r, post_ok env (S (requests_sent w)) r = true) ->
        exists d r,
          resultsdb_data_field msg = Ok (VDict d)
          /\ submissions (trace_of (handle_resultsdb_format env msg w)) = [r]
          /\ update_publisher_id (VDict d) msg = Ok (req_data r)
          /\ (has_item_and_type r
              <-> has_key "item" (VDict d) /\ has_key "type" (VDict d))).
Proof.
  split; [|split; [|split]].
  - exact (proj1 (handle_ci_metrics_item_and_type env msg w)).
  - assert (Hspec : spec (handle_ci_umb env msg) has_item_and_type
                      (fun _ => True)).
    { apply handle_ci_umb_spec
        with (R0 := fun built => forall d, built = Some d
                      -> has_key "item" d /\ has_key "type" d).
      - intros. apply umb_result_data_item_and_type.
      - easy.
      - intros d msg_id msg_body test_run_url outcome uuid _ Hd.
        destruct (Hd d eq_refl) as [Hi Ht].
        eapply spec_weaken; [apply umb_submit_spec with
          (R := fun data => has_key "item" data /\ has_key "type" data)
          | now intros r [H _] | auto].
        intros recipients d1 d2 _ H1 H2. split.
        + apply (has_key_update_publisher_id _ _ _ _ H2).
          now apply (has_key_setitem _ _ _ _ _ H1).
        + apply (has_key_update_publisher_id _ _ _ _ H2).
          now apply (has_key_setitem _ _ _ _ _ H1). }
    exact (proj1 (Hspec w)).
  - exact (proj1 (handle_resultsdb_format_passes_data msg w)).
  - intros testcase outcome ref_url group_url found group Hsingle Hfound
      Hfirst Hpost.
    destruct (handle_resultsdb_format_single env msg testcase outcome ref_url
                group_url w found group Hsingle Hfound Hfirst Hpost)
      as (d & data & note & Hfield & Hdata & Hrun).
    rewrite Hrun. unfold trace_of. cbn [snd submissions].
    eexists d, _. split; [exact Hfield|]. split; [reflexivity|].
    cbn [req_data]. split; [exact Hdata|].
    unfold has_item_and_type, has_key. cbn [req_data].
    now rewrite !(getitem_update_publisher_id _ (VDict d) data msg)
      by (exact Hdata || discriminate).
Qed.

End DataPassedOn.

Lemma sample_resultsdb_message_single :
  single_message
    (resultsdb_message "dist.abicheck" "https://ci.example.com/job/7"
       (VDict [("arch", VStr "x86_64")]))
    (VDict [("name", VStr "dist.abicheck");
            ("ref_url", VStr "https://ci.example.com")])
    (VStr "PASSED") "https://ci.example.com/job/7"
    "https://ci.example.com/job/7".
Proof.
  split; [eexists; reflexivity|].
  eexists _, "dist.abicheck".
  repeat split; try reflexivity.
  eexists. reflexivity.
Defined.

Lemma item_and_type_in_result_data_witness :
  let msg := resultsdb_message "dist.abicheck" "https://ci.example.com/job/7"
               (VDict [("arch", VStr "x86_64")]) in
  exists d r,
    resultsdb_data_field msg = Ok (VDict d)
    /\ submissions (trace_of (handle_resultsdb_format sample_env msg world0))
       = [r]
    /\ update_publisher_id (VDict d) msg = Ok (req_data r)
    /\ (has_item_and_type r
        <-> has_key "item" (VDict d) /\ has_key "type" (VDict d)).
Proof.
  exact (proj2 (proj2 (proj2 (item_and_type_in_result_data sample_env
           (resultsdb_message "dist.abicheck" "https://ci.example.com/job/7"
              (VDict [("arch", VStr "x86_64")])) world0)))
           _ _ _ _ [] [] sample_resultsdb_message_single eq_refl eq_refl
           (fun _ => eq_refl)).
Defined.

(* ------------------------------------------------------------------ *)
(** ** Decimal digits at sample bytes *)

(** The digit [7]; the zeros of Devanagari (U+0966), of the fullwidth forms
    (U+FF10) and of the mathematical bold digits (U+1D7CE), each followed
    by a letter; then what is no decimal digit: superscript two (U+00B2),
    the Arabic percent sign (U+066A) that follows the Arabic-Indic nine, a
    letter, and a lead byte without its continuation. *)
Example digit_width_examples :
  map digit_width
      ["7x";
       String "224" (String "165" (String "166" "x"));
       String "239" (String "188" (String "144" "x"));
       String "240" (String "157" (String "159" (String "142" "x")));
       String "194" (String "178" "x");
       String "217" (String "170" "x");
       "x";
       String "217" "x"]
  = [1; 3; 3; 4; 0; 0; 0; 0].
Proof. reflexivity. Qed.
